(** * KAS (All-Inkl) SOAP client: the value resolver, the session manager,
      the flood controller and the DNS operations of [internal/allinkl].

    The development follows the Go sources:
    - [types.go]        the response document model ([Item], [Fault], the
                        envelopes) and the client ([do], [updateFloodTime],
                        [getValue], [getKey], the four DNS operations);
    - [identity.go]     [Identifier.Authentication], [WithContext], [getToken];
    - [clienthelper.go] the error values, their texts and the envelope of
                        the login;
    - [provider.go]     [allinklProvider.Configure] of [internal/provider];
    - [order_resource.go] the methods of the DNS resource.

    Go strings are byte strings: they are [string] here (a list of 8-bit
    [ascii]).  [int64]/[uint64] are [Z] with the wrap-around written out,
    [float64] is the IEEE 754 binary64 datum of [SpecFloat], [map[string]any]
    is a [gmap string value], a pointer that may be nil is an [option]. *)

From Stdlib Require Import ZArith List Bool Ascii String Lia.
From Stdlib Require Import Floats.SpecFloat.
From Stdlib Require Import DecimalString DecimalPos DecimalZ.
From stdpp Require Import base strings gmap.
Import ListNotations.

Set Warnings "-register-all".
Open Scope string_scope.
Open Scope Z_scope.

(* ===================================================================== *)
(** * The [strconv] functions the resolver calls                           *)
(* ===================================================================== *)

(** [getValue] calls [strconv.ParseBool], [strconv.ParseFloat(_, 64)] and
    [strconv.ParseInt(_, 10, 64)] and drops their error result.  They belong
    to the Go standard library; the models below follow [strconv/atob.go],
    [atoi.go] and [atof.go].  Every function returns the pair Go returns: the
    value and the [Err] field of the [*NumError] ([None] for a nil error). *)
Module strconv.

(** [NumError.Err]: [ErrSyntax] or [ErrRange]. *)
Inductive NumErr : Set := ErrSyntax | ErrRange.

Definition ord (c : ascii) : Z := Z.of_N (N_of_ascii c).

(** [lower(c)]: [c | ('x' - 'X')]. *)
Definition lower (c : ascii) : Z := Z.lor (ord c) 32.

Definition between (lo : ascii) (x : Z) (hi : ascii) : bool :=
  (ord lo <=? x) && (x <=? ord hi).

Definition isDigit (c : ascii) : bool := between "0" (ord c) "9".

(** ** [ParseBool] *)

Definition ParseBool (str : string) : bool * option NumErr :=
  if existsb (String.eqb str) ["1"; "t"; "T"; "true"; "TRUE"; "True"]
  then (true, None)
  else if existsb (String.eqb str) ["0"; "f"; "F"; "false"; "FALSE"; "False"]
  then (false, None)
  else (false, Some ErrSyntax).

(** ** [ParseUint(s, 10, 64)] and [ParseInt(s, 10, 64)] *)

Definition maxUint64 : Z := 2 ^ 64 - 1.
Definition wrap64 (n : Z) : Z := n mod 2 ^ 64.

Section Atoi.
(** The two arguments every call of this program passes. *)
Let base : Z := 10.
Let bitSize : Z := 64.

(** [cutoff] is the smallest number such that [cutoff*base > maxUint64]. *)
Definition cutoff : Z := maxUint64 / base + 1.
Definition maxVal : Z := 2 ^ bitSize - 1.

(** The digit loop of [ParseUint]; [n] is the [uint64] accumulator.  The
    loop returns as soon as a range check fails, before it has looked at
    the bytes that follow. *)
Fixpoint ParseUint_loop (s : string) (n : Z) : Z * option NumErr :=
  match s with
  | EmptyString => (n, None)
  | String c rest =>
    let digit :=
      if isDigit c then Some (ord c - ord "0")
      else if between "a" (lower c) "z" then Some (lower c - ord "a" + 10)
      else None in
    match digit with
    | None => (0, Some ErrSyntax)
    | Some d =>
      if base <=? d then (0, Some ErrSyntax)
      else if cutoff <=? n then (maxVal, Some ErrRange)
      else
        let n' := wrap64 (n * base) in
        let n1 := wrap64 (n' + d) in
        if (n1 <? n') || (maxVal <? n1) then (maxVal, Some ErrRange)
        else ParseUint_loop rest n1
    end
  end.

Definition ParseUint (s : string) : Z * option NumErr :=
  if String.eqb s "" then (0, Some ErrSyntax) else ParseUint_loop s 0.

Definition ParseInt (s : string) : Z * option NumErr :=
  match s with
  | EmptyString => (0, Some ErrSyntax)
  | String c0 rest =>
    (* Pick off leading sign. *)
    let neg := Ascii.eqb c0 "-" in
    let s' := if Ascii.eqb c0 "+" || Ascii.eqb c0 "-" then rest else s in
    (* Convert unsigned and check range. *)
    let '(un, err) := ParseUint s' in
    match err with
    | Some ErrSyntax => (0, err)
    | _ =>
      let cutoff := 2 ^ (bitSize - 1) in
      if negb neg && (cutoff <=? un) then (cutoff - 1, Some ErrRange)
      else if neg && (cutoff <? un) then (- cutoff, Some ErrRange)
      else (if neg then - un else un, None)
    end
  end.
End Atoi.

(** ** [ParseFloat(s, 64)] *)

(** A [float64] is an IEEE 754 binary64 datum: 53 bits of precision,
    infinities at exponent 1024. *)
Definition float64 : Set := spec_float.
Definition prec : Z := 53.
Definition emax : Z := 1024.

Definition is_inf (f : float64) : bool :=
  match f with S754_infinity _ => true | _ => false end.

Fixpoint commonPrefixLenIgnoreCase (s prefix : string) : nat :=
  match s, prefix with
  | String c s', String p prefix' =>
    let c' := if between "A" (ord c) "Z" then ord c + 32 else ord c in
    if c' =? ord p then S (commonPrefixLenIgnoreCase s' prefix') else O
  | _, _ => O
  end.

(** [special]: the (possibly signed) infinities and NaN, with the number of
    bytes consumed.  A sign falls through to the infinity case only. *)
Definition special (s : string) : option (float64 * nat) :=
  let infinity (sign : bool) (nsign : nat) (t : string) :=
    let n := commonPrefixLenIgnoreCase t "infinity" in
    (* Anything longer than "inf" is ok, but without "infinity" only
       "inf" is consumed. *)
    let n := if Nat.ltb 3 n && Nat.ltb n 8 then 3%nat else n in
    if Nat.eqb n 3 || Nat.eqb n 8
    then Some (S754_infinity sign, (nsign + n)%nat) else None in
  match s with
  | EmptyString => None
  | String c0 rest =>
    if Ascii.eqb c0 "+" || Ascii.eqb c0 "-" then infinity (Ascii.eqb c0 "-") 1%nat rest
    else if Ascii.eqb c0 "i" || Ascii.eqb c0 "I" then infinity false O s
    else if Ascii.eqb c0 "n" || Ascii.eqb c0 "N" then
      if Nat.eqb (commonPrefixLenIgnoreCase s "nan") 3 then Some (S754_nan, 3%nat) else None
    else None
  end.

(** [underscoreOK]: underscores only between digits ([saw] is the class of
    the last byte: [^] start, [0] digit or base prefix, [_], [!] other). *)
Fixpoint underscoreOK_loop (hex : bool) (s : string) (saw : ascii) : bool :=
  match s with
  | EmptyString => negb (Ascii.eqb saw "_")
  | String c rest =>
    if isDigit c || (hex && between "a" (lower c) "f") then underscoreOK_loop hex rest "0"
    else if Ascii.eqb c "_" then
      if negb (Ascii.eqb saw "0") then false else underscoreOK_loop hex rest "_"
    else if Ascii.eqb saw "_" then false
    else underscoreOK_loop hex rest "!"
  end.

Definition underscoreOK (s : string) : bool :=
  let s :=
    match s with
    | String c rest => if Ascii.eqb c "-" || Ascii.eqb c "+" then rest else s
    | EmptyString => s
    end in
  match s with
  | String "0" (String c1 rest) =>
    if (lower c1 =? ord "b") || (lower c1 =? ord "o") || (lower c1 =? ord "x")
    then underscoreOK_loop (lower c1 =? ord "x") rest "0"
    else underscoreOK_loop false s "^"
  | _ => underscoreOK_loop false s "^"
  end.

(** The state of the mantissa loop of [readFloat].  Go keeps the first 19
    decimal (16 hexadecimal) digits in a [uint64] with a [trunc] flag and,
    when digits were dropped, converts again from the text; here
    [rf_mantissa] holds all [rf_nd] digits, which denotes the same number. *)
Record digits_state : Set := mkDigits {
  rf_underscores : bool;
  rf_sawdot : bool;
  rf_sawdigits : bool;
  rf_nd : Z;
  rf_dp : Z;
  rf_mantissa : Z }.

Fixpoint readFloat_digits (hex : bool) (s : string) (i : nat) (st : digits_state)
  : digits_state * nat * string :=
  match s with
  | EmptyString => (st, i, s)
  | String c rest =>
    let '(mkDigits us sawdot sawdigits nd dp m) := st in
    if Ascii.eqb c "_" then
      readFloat_digits hex rest (S i) (mkDigits true sawdot sawdigits nd dp m)
    else if Ascii.eqb c "." then
      if sawdot then (st, i, s)
      else readFloat_digits hex rest (S i) (mkDigits us true sawdigits nd nd m)
    else if isDigit c then
      if Ascii.eqb c "0" && (nd =? 0)
      then (* ignore leading zeros *)
        readFloat_digits hex rest (S i) (mkDigits us sawdot true nd (dp - 1) m)
      else
        readFloat_digits hex rest (S i)
          (mkDigits us sawdot true (nd + 1) dp
             (m * (if hex then 16 else 10) + (ord c - ord "0")))
    else if hex && between "a" (lower c) "f" then
      readFloat_digits hex rest (S i)
        (mkDigits us sawdot true (nd + 1) dp (m * 16 + (lower c - ord "a" + 10)))
    else (st, i, s)
  end.

(** The digits of the exponent; the accumulator stops growing at 10000. *)
Fixpoint readFloat_exp (s : string) (i : nat) (e : Z) (us : bool)
  : Z * bool * nat * string :=
  match s with
  | EmptyString => (e, us, i, s)
  | String c rest =>
    if Ascii.eqb c "_" then readFloat_exp rest (S i) e true
    else if isDigit c then
      readFloat_exp rest (S i) (if e <? 10000 then e * 10 + (ord c - ord "0") else e) us
    else (e, us, i, s)
  end.

(** What [readFloat] returns when [ok]: the number is
    [(-1)^neg * mantissa * 2^exp2 * 10^exp10], read from the first [n]
    bytes. *)
Record readFloat_result : Set := mkRead {
  r_mantissa : Z; r_exp2 : Z; r_exp10 : Z; r_neg : bool; r_hex : bool; r_n : nat }.

Definition readFloat (s : string) : option readFloat_result :=
  match s with
  | EmptyString => None
  | String c0 rest0 =>
    (* optional sign *)
    let neg := Ascii.eqb c0 "-" in
    let signed := Ascii.eqb c0 "+" || Ascii.eqb c0 "-" in
    let s1 := if signed then rest0 else s in
    let i1 := if signed then 1%nat else O in
    (* digits *)
    let '(hex, s2, i2) :=
      match s1 with
      | String "0" (String x (String c rest as s2)) =>
        if lower x =? ord "x" then (true, s2, (i1 + 2)%nat) else (false, s1, i1)
      | _ => (false, s1, i1)
      end in
    let '(st, i3, s3) :=
      readFloat_digits hex s2 i2 (mkDigits false false false 0 0 0) in
    if negb (rf_sawdigits st) then None
    else
      let dp := if rf_sawdot st then rf_dp st else rf_nd st in
      let dp := if hex then dp * 4 else dp in
      (* optional exponent moves decimal point *)
      let exponent : option (Z * bool * nat) :=
        match s3 with
        | String ec s4 =>
          if lower ec =? (if hex then ord "p" else ord "e") then
            match s4 with
            | EmptyString => None
            | String sc s5 =>
              let esigned := Ascii.eqb sc "+" || Ascii.eqb sc "-" in
              let esign := if Ascii.eqb sc "-" then -1 else 1 in
              let s6 := if esigned then s5 else s4 in
              let i6 := if esigned then (i3 + 2)%nat else (i3 + 1)%nat in
              match s6 with
              | EmptyString => None
              | String d _ =>
                if negb (isDigit d) then None
                else
                  let '(e, us, i7, _) := readFloat_exp s6 i6 0 (rf_underscores st) in
                  Some (dp + e * esign, us, i7)
              end
            end
          else if hex then None (* must have exponent *)
          else Some (dp, rf_underscores st, i3)
        | EmptyString =>
          if hex then None else Some (dp, rf_underscores st, i3)
        end in
      match exponent with
      | None => None
      | Some (dp, us, n) =>
        if us && negb (underscoreOK (substring 0 n s)) then None
        else
          let scale := dp - (if hex then rf_nd st * 4 else rf_nd st) in
          Some (mkRead (rf_mantissa st)
                       (if hex then scale else 0) (if hex then 0 else scale)
                       neg hex n)
      end
  end.

(** The binary64 nearest to [(-1)^neg * m * 2^e2 * 10^e10], ties to even;
    an infinity when the rounded number is out of range. *)
Definition round_float64 (neg : bool) (m e2 e10 : Z) : float64 :=
  if m <=? 0 then S754_zero neg
  else if 0 <=? e10 then
    match m * 10 ^ e10 with
    | Zpos p => binary_round prec emax neg p e2
    | _ => S754_zero neg
    end
  else
    let '(q, e, l) := SFdiv_core_binary prec emax m e2 (10 ^ (- e10)) 0 in
    binary_round_aux prec emax neg q e l.

Definition atof64 (s : string) : float64 * nat * option NumErr :=
  match special s with
  | Some (val, n) => (val, n, None)
  | None =>
    match readFloat s with
    | None => (S754_zero false, O, Some ErrSyntax)
    | Some r =>
      let f := round_float64 (r_neg r) (r_mantissa r) (r_exp2 r) (r_exp10 r) in
      (f, r_n r, if is_inf f then Some ErrRange else None)
    end
  end.

Definition ParseFloat (s : string) : float64 * option NumErr :=
  let '(f, n, err) := atof64 s in
  match err with
  | Some ErrSyntax => (f, err)
  | _ => if negb (Nat.eqb n (String.length s)) then (S754_zero false, Some ErrSyntax)
         else (f, err)
  end.

End strconv.

Import strconv.

(* ===================================================================== *)
(** * The response document model ([types.go])                             *)
(* ===================================================================== *)

(** [Fault]: a SOAP fault. *)
Record Fault : Set := mkFault {
  Code : string;      (* faultcode *)
  Message : string;   (* faultstring *)
  Actor : string      (* faultactor *)
}.

(** [Item]: an item of the KAS SOAP response.  [Key] and [Value] are
    [*Item] (nil is [None]); [Items] is the slice of the [item] children,
    whose elements the decoder allocates (they are never nil). *)
Inductive Item : Type := mkItem {
  Text : string;          (* chardata *)
  Type_ : string;         (* the [type] attribute *)
  Raw : string;           (* the [nil] attribute *)
  Key : option Item;
  Value : option Item;
  Items : list Item
}.

(** [KasResponse]: a KAS SOAP response. *)
Record KasResponse : Type := mkKasResponse { Return : option Item }.

(** What [getValue] returns as [any]: a [bool], a [string], a [float64], an
    [int64], a [[]any] or a [map[string]any]. *)
Inductive value : Type :=
  | VBool (b : bool)
  | VString (s : string)
  | VFloat (f : float64)
  | VInt (n : Z)
  | VSlice (l : list value)
  | VMap (m : gmap string value).

Definition nonempty (s : string) : bool := negb (String.eqb s "").

Definition getKey (item : Item) : string :=
  match Key item with
  | None => ""
  | Some k => Text k
  end.

(** [getValue]: the [switch] of the source, one [if] per [case], in order. *)
Fixpoint getValue (item : Item) : value :=
  if nonempty (Raw item) then
    VBool (fst (ParseBool (Raw item)))
  else if nonempty (Text item) then
    if String.eqb (Type_ item) "xsd:string" then VString (Text item)
    else if String.eqb (Type_ item) "xsd:float" then VFloat (fst (ParseFloat (Text item)))
    else if String.eqb (Type_ item) "xsd:int" then VInt (fst (ParseInt (Text item)))
    else VString (Text item)
  else
    match Value item with
    | Some v => getValue v
    | None =>
      if Nat.ltb 0 (length (Items item)) && String.eqb (Type_ item) "SOAP-ENC:Array" then
        VSlice (List.map getValue (Items item))
      else if Nat.ltb 0 (length (Items item)) then
        VMap (fold_left (fun v i => <[getKey i := getValue i]> v) (Items item) ∅)
      else VString ""
    end.

(** The same function with the recursion left general: every call spends
    one unit of [fuel], as every Go call spends a stack frame. *)
Fixpoint getValue_fuel (fuel : nat) (item : Item) : option value :=
  match fuel with
  | O => None
  | S fuel =>
    if nonempty (Raw item) then
      Some (VBool (fst (ParseBool (Raw item))))
    else if nonempty (Text item) then
      if String.eqb (Type_ item) "xsd:string" then Some (VString (Text item))
      else if String.eqb (Type_ item) "xsd:float" then Some (VFloat (fst (ParseFloat (Text item))))
      else if String.eqb (Type_ item) "xsd:int" then Some (VInt (fst (ParseInt (Text item))))
      else Some (VString (Text item))
    else
      match Value item with
      | Some v => getValue_fuel fuel v
      | None =>
        if Nat.ltb 0 (length (Items item)) && String.eqb (Type_ item) "SOAP-ENC:Array" then
          option_map VSlice
            (fold_left (fun acc i =>
                          match acc, getValue_fuel fuel i with
                          | Some v, Some x => Some (v ++ [x])%list
                          | _, _ => None
                          end) (Items item) (Some []))
        else if Nat.ltb 0 (length (Items item)) then
          option_map VMap
            (fold_left (fun acc i =>
                          match acc, getValue_fuel fuel i with
                          | Some v, Some x => Some (<[getKey i := x]> v)
                          | _, _ => None
                          end) (Items item) (Some ∅))
        else Some (VString "")
      end
  end.

(** The nodes [getValue] can reach from [item]: through [Value] and [Items],
    never through [Key]. *)
Fixpoint depth (item : Item) : nat :=
  S (Nat.max (match Value item with Some v => depth v | None => O end)
             (fold_right (fun i d => Nat.max (depth i) d) O (Items item))).

(** The dynamic type of a resolved value. *)
Inductive kind : Set := KBool | KString | KFloat64 | KInt64 | KSlice | KMap.

Definition kind_of (v : value) : kind :=
  match v with
  | VBool _ => KBool
  | VString _ => KString
  | VFloat _ => KFloat64
  | VInt _ => KInt64
  | VSlice _ => KSlice
  | VMap _ => KMap
  end.

(** ** The resolver as the specification words it

    Section 4.4 of the specification lists six steps, "applied top to
    bottom, first match wins".  [Resolves] states them as rules, each with
    the conditions under which it is the first to match. *)

(** The value a key holds after the pairs of [kvs] were written in order:
    that of the last pair with this key. *)
Fixpoint last_write {A : Type} (k : string) (kvs : list (string * A)) : option A :=
  match kvs with
  | [] => None
  | (k', x) :: rest =>
    match last_write k rest with
    | Some y => Some y
    | None => if String.eqb k' k then Some x else None
    end
  end.

Definition arrayTag : string := "SOAP-ENC:Array".

Inductive Resolves : Item -> value -> Prop :=
  (* 1. a non-empty raw/nil marker is read as a boolean literal *)
  | R_bool item :
      Raw item <> "" ->
      Resolves item (VBool (fst (ParseBool (Raw item))))
  (* 2. else non-empty literal text is read by its type tag *)
  | R_float item :
      Raw item = "" -> Text item <> "" -> Type_ item = "xsd:float" ->
      Resolves item (VFloat (fst (ParseFloat (Text item))))
  | R_int item :
      Raw item = "" -> Text item <> "" -> Type_ item = "xsd:int" ->
      Resolves item (VInt (fst (ParseInt (Text item))))
  | R_text item :
      Raw item = "" -> Text item <> "" ->
      Type_ item <> "xsd:float" -> Type_ item <> "xsd:int" ->
      Resolves item (VString (Text item))
  (* 3. else a value sub-node is unwrapped *)
  | R_value item sub v :
      Raw item = "" -> Text item = "" -> Value item = Some sub ->
      Resolves sub v ->
      Resolves item v
  (* 4. else children under the array tag are a sequence *)
  | R_array item vs :
      Raw item = "" -> Text item = "" -> Value item = None ->
      Items item <> [] -> Type_ item = arrayTag ->
      Forall2 Resolves (Items item) vs ->
      Resolves item (VSlice vs)
  (* 5. else children are a mapping, the last write of a key winning *)
  | R_map item vs (m : gmap string value) :
      Raw item = "" -> Text item = "" -> Value item = None ->
      Items item <> [] -> Type_ item <> arrayTag ->
      Forall2 Resolves (Items item) vs ->
      (forall k, m !! k = last_write k (combine (List.map getKey (Items item)) vs)) ->
      Resolves item (VMap m)
  (* 6. otherwise the empty string *)
  | R_empty item :
      Raw item = "" -> Text item = "" -> Value item = None -> Items item = [] ->
      Resolves item (VString "").

(** The keys of the children of a map node, in the order they are written. *)
Definition child_keys (item : Item) : list string := List.map getKey (Items item).

(** The key/value pairs a map node writes, in order. *)
Definition child_writes (item : Item) : list (string * value) :=
  List.map (fun i => (getKey i, getValue i)) (Items item).

(** Step 5 is the one that applies to [item]. *)
Definition is_map_node (item : Item) : Prop :=
  Raw item = "" /\ Text item = "" /\ Value item = None /\
  Items item <> [] /\ Type_ item <> arrayTag.

(** A leaf with literal text; a node with children; a child of a map node as
    the server writes it, [<item><key>k</key><value>v</value></item>], and
    one without its [key] element. *)
Definition leaf (text type : string) : Item := mkItem text type "" None None [].
Definition node (type : string) (children : list Item) : Item :=
  mkItem "" type "" None None children.
Definition entry (k : string) (v : Item) : Item :=
  mkItem "" "" "" (Some (leaf k "xsd:string")) (Some v) [].
Definition keyless (v : Item) : Item :=
  mkItem "" "" "" None (Some v) [].

(* ===================================================================== *)
(** * Requests, responses and errors                                       *)
(* ===================================================================== *)

(** [KasAPIBody] and [KasAPIResponseEnvelope] ([types.go]). *)
Record KasAPIBody : Type := mkKasAPIBody {
  KasAPIResponse : option KasResponse;
  BodyFault : option Fault            (* the field [Fault] *)
}.
Record KasAPIResponseEnvelope : Type := mkKasAPIResponseEnvelope { Body : KasAPIBody }.

(** [KasAuthBody] and [KasAuthEnvelope] ([clienthelper.go]). *)
Record KasAuthBody : Type := mkKasAuthBody {
  KasAuthResponse : option KasResponse;
  AuthFault : option Fault            (* the field [Fault] *)
}.
Record KasAuthEnvelope : Type := mkKasAuthEnvelope { AuthBody : KasAuthBody }.

(** [Fault.Error()], which makes a [*Fault] an [error]. *)
Definition Fault_Error (f : Fault) : string :=
  Actor f ++ ": " ++ Code f ++ ": " ++ Message f.

Record AuthRequest : Set := mkAuthRequest {
  Login : string;                  (* kas_login *)
  AuthData : string;               (* kas_auth_data *)
  AuthType : string;               (* kas_auth_type *)
  SessionLifetime : Z;             (* session_lifetime *)
  SessionUpdateLifetime : string   (* session_update_lifetime *)
}.

Record DNSRequest : Set := mkDNSRequest {
  RecordId : string;
  ZoneHost : string;
  RecordType : string;
  RecordName : string;
  RecordData : string;
  RecordAux : Z
}.

(** [KasRequest.RequestParams] is [any]; the operations pass a
    [map[string]string] or a [DNSRequest]. *)
Inductive RequestParams : Type :=
  | ParamsMap (m : gmap string string)
  | ParamsRecord (r : DNSRequest).

Record KasRequest : Type := mkKasRequest {
  KasLogin : string;               (* Login, kas_login *)
  KasAuthType : string;            (* AuthType, kas_auth_type *)
  KasAuthData : string;            (* AuthData, kas_auth_data *)
  Action : string;                 (* kas_action *)
  KasRequestParams : RequestParams (* RequestParams *)
}.

(** An [*http.Request]: the method, the URL and the value whose JSON text the
    envelope wraps.  [json.Marshal] cannot fail on these values and
    [http.NewRequestWithContext] cannot fail on the two endpoints, so the
    requests are built without an error case. *)
Inductive Payload : Type :=
  | AuthPayload (ar : AuthRequest)     (* inside [kasAuthEnvelope] *)
  | KasPayload (kr : KasRequest).      (* inside [kasAPIEnvelope] *)

Record Request : Type := mkRequest {
  Method : string;
  URL : string;
  ReqPayload : Payload
}.

(** A response body, by what [decodeXML] makes of it ([encoding/xml] is not
    part of this program): it cannot be read, it is no envelope, or it is an
    envelope whose [Body] holds the elements listed. *)
Inductive XMLBody : Type :=
  | Unreadable
  | Malformed
  | Envelope (api : option KasResponse) (auth : option KasResponse) (fault : option Fault).

Record Response : Type := mkResponse {
  StatusCode : Z;
  RespBody : XMLBody
}.

(** What one call of [HTTPClient.Do] meets: an error, or a response after
    [elapsed] nanoseconds. *)
Inductive Reply : Type :=
  | NoReply
  | Replied (elapsed : N) (resp : Response).

(** The error values ([clienthelper.go], [types.go]). *)
Inductive error : Type :=
  | HTTPDoError (req : Request)
  | UnexpectedStatusCodeError (req : Request) (code : Z) (body : XMLBody)
  | ReadBodyError                   (* "read response body: ..." *)
  | DecodeXMLError                  (* "decode XML response: ..." *)
  | FaultError (f : Fault)          (* the [*Fault] itself *)
  | StructDecodeError (msg : string) (* "response struct decode: ..." *).

(** The result shapes of the three response types. *)
Record ReturnInfo : Type := mkReturnInfo {
  ID : option value;               (* [any] *)
  RecordZone : string;             (* ZoneHost, record_zone *)
  InfoRecordName : string;
  InfoRecordType : string;
  InfoRecordData : string;
  Changeable : string;
  InfoRecordAux : Z
}.

Record GetDNSSettingsResponse : Type := mkGetDNSSettingsResponse {
  GetKasFloodDelay : float64;
  GetReturnInfo : list ReturnInfo;
  GetReturnString : string
}.
Record GetDNSSettingsAPIResponse : Type :=
  mkGetDNSSettingsAPIResponse { GetResponse : GetDNSSettingsResponse }.

Record AddDNSSettingsResponse : Type := mkAddDNSSettingsResponse {
  AddKasFloodDelay : float64;
  AddReturnInfo : string;
  AddReturnString : string
}.
Record AddDNSSettingsAPIResponse : Type :=
  mkAddDNSSettingsAPIResponse { AddResponse : AddDNSSettingsResponse }.

Record DeleteDNSSettingsResponse : Type := mkDeleteDNSSettingsResponse {
  DeleteKasFloodDelay : float64;
  DeleteReturnInfo : bool;
  DeleteReturnString : string
}.
Record DeleteDNSSettingsAPIResponse : Type :=
  mkDeleteDNSSettingsAPIResponse { DeleteResponse : DeleteDNSSettingsResponse }.

(* ===================================================================== *)
(** * The state the client runs in                                         *)
(* ===================================================================== *)

(** Instants and durations are nanoseconds; a [time.Duration] is an
    [int64]. *)
Definition Time : Set := Z.
Definition maxDuration : Z := 2 ^ 63 - 1.
Definition minDuration : Z := - 2 ^ 63.
Definition Second : Z := 1000000000.

(** What the client does that the outside can see. *)
Inductive Event : Type :=
  | EvLock                         (* c.muFloodTime.Lock() *)
  | EvUnlock                       (* c.muFloodTime.Unlock() *)
  | EvSleep (d : Z)                (* time.Sleep(d) *)
  | EvHTTPDo (req : Request)       (* HTTPClient.Do(req) *)
  | EvDecodeXML                    (* decodeXML *)
  | EvGetValue (item : option Item) (* getValue: the value resolver *)
  | EvMapDecode (raw : value)      (* mapstructure.Decode: the result mapper *)
  | EvSetFloodTime (t : Time).     (* c.floodTime = t *)

(** [clock] is what [time.Now()] reads, [floodTime] the field of the one
    [Client], [network] the replies the next calls of [HTTPClient.Do] will
    meet, [trace] the events so far, each with the instant it happened at,
    oldest first. *)
Record World : Type := mkWorld {
  clock : Time;
  floodTime : Time;
  network : list Reply;
  trace : list (Time * Event)
}.

(** A Go call returns, or panics. *)
Inductive Result (A : Type) : Type :=
  | Returns (a : A)
  | Panics.
Arguments Returns {A} a.
Arguments Panics {A}.

Definition M (A : Type) : Type := World -> Result A * World.

Definition ret {A : Type} (a : A) : M A := fun w => (Returns a, w).

Definition bind {A B : Type} (m : M A) (k : A -> M B) : M B :=
  fun w =>
    match m w with
    | (Returns a, w') => k a w'
    | (Panics, w') => (Panics, w')
    end.

Definition panic {A : Type} : M A := fun w => (Panics, w).

Declare Scope go_scope.
Delimit Scope go_scope with go.
Notation "x <- m ;; k" := (bind m (fun x => k))
  (at level 100, m at next level, right associativity) : go_scope.
Notation "m ;; k" := (bind m (fun _ => k))
  (at level 100, right associativity) : go_scope.
Open Scope go_scope.

Definition emit (ev : Event) : M unit :=
  fun w => (Returns tt, mkWorld (clock w) (floodTime w) (network w)
                                (trace w ++ [(clock w, ev)])).

Definition time_Now : M Time := fun w => (Returns (clock w), w).

Definition get_floodTime : M Time := fun w => (Returns (floodTime w), w).

Definition set_floodTime (t : Time) : M unit :=
  fun w => (Returns tt, mkWorld (clock w) t (network w)
                                (trace w ++ [(clock w, EvSetFloodTime t)])).

Definition advance (d : Z) : M unit :=
  fun w => (Returns tt, mkWorld (clock w + d) (floodTime w) (network w) (trace w)).

(** [t.Sub(u)]: the difference, or the largest or smallest duration when the
    difference does not fit. *)
Definition time_Sub (t u : Time) : Z :=
  Z.max minDuration (Z.min maxDuration (t - u)).

(** [time.Until(t)] is [t.Sub(time.Now())]. *)
Definition time_Until (t : Time) : M Z :=
  now <- time_Now ;; ret (time_Sub t now).

(** [time.Sleep(d)] returns at once when [d] is negative or zero. *)
Definition time_Sleep (d : Z) : M unit :=
  emit (EvSleep d) ;; advance (Z.max 0 d).

(** [HTTPClient.Do(req)]: the next reply of the network. *)
Definition HTTPClient_Do (req : Request) : M (error + Response) :=
  emit (EvHTTPDo req) ;;
  fun w =>
    match network w with
    | Replied elapsed resp :: rest =>
      (Returns (inr resp),
       mkWorld (clock w + Z.of_N elapsed) (floodTime w) rest (trace w))
    | NoReply :: rest =>
      (Returns (inl (HTTPDoError req)),
       mkWorld (clock w) (floodTime w) rest (trace w))
    | [] => (Returns (inl (HTTPDoError req)), w)
    end.

(** [decodeXML[KasAPIResponseEnvelope]] and [decodeXML[KasAuthEnvelope]]. *)
Definition decodeXML_api (body : XMLBody) : M (error + KasAPIResponseEnvelope) :=
  emit EvDecodeXML ;;
  ret match body with
      | Unreadable => inl ReadBodyError
      | Malformed => inl DecodeXMLError
      | Envelope api _ fault => inr (mkKasAPIResponseEnvelope (mkKasAPIBody api fault))
      end.

Definition decodeXML_auth (body : XMLBody) : M (error + KasAuthEnvelope) :=
  emit EvDecodeXML ;;
  ret match body with
      | Unreadable => inl ReadBodyError
      | Malformed => inl DecodeXMLError
      | Envelope _ auth fault => inr (mkKasAuthEnvelope (mkKasAuthBody auth fault))
      end.

(** A call of [getValue] on a pointer: a nil [item] panics at [item.Raw]. *)
Definition call_getValue (item : option Item) : M value :=
  emit (EvGetValue item) ;;
  match item with
  | Some i => ret (getValue i)
  | None => panic
  end.

Definition StatusOK : Z := 200.

(* ===================================================================== *)
(** * The session manager ([identity.go])                                  *)
(* ===================================================================== *)

Definition authEndpoint : string := "https://kasapi.kasserver.com/soap/KasAuth.php".
Definition apiEndpoint : string := "https://kasapi.kasserver.com/soap/KasApi.php".

(** A [context.Context], as far as this package reads it: the string stored
    under [tokenKey], if any. *)
Record Context : Set := mkContext { ctx_token : option string }.

Definition WithContext (ctx : Context) (credential : string) : Context :=
  mkContext (Some credential).

Definition getToken (ctx : Context) : string :=
  match ctx_token ctx with
  | Some credential => credential
  | None => ""
  end.

Record Identifier : Set := mkIdentifier {
  login : string;
  password : string;
  idEndpoint : string             (* the field [authEndpoint] *)
}.

Definition NewIdentifier (login password : string) : Identifier :=
  mkIdentifier login password authEndpoint.

Definition loginRequest (c : Identifier) : Request :=
  mkRequest "POST" (idEndpoint c)
            (AuthPayload (mkAuthRequest (login c) (password c) "plain" 300 "Y")).

Definition Authentication (c : Identifier) (ctx : Context) : M (error + string) :=
  if nonempty (getToken ctx) then ret (inr (getToken ctx))
  else
    let req := loginRequest c in
    r <- HTTPClient_Do req ;;
    match r with
    | inl err => ret (inl err)
    | inr resp =>
      if negb (StatusCode resp =? StatusOK) then
        ret (inl (UnexpectedStatusCodeError req (StatusCode resp) (RespBody resp)))
      else
        e <- decodeXML_auth (RespBody resp) ;;
        match e with
        | inl err => ret (inl err)
        | inr envlp =>
          match AuthFault (AuthBody envlp) with
          | Some f => ret (inl (FaultError f))
          | None =>
            (* envlp.Body.KasAuthResponse.Return.Text *)
            match KasAuthResponse (AuthBody envlp) with
            | None => panic
            | Some kr =>
              match Return kr with
              | None => panic
              | Some item => ret (inr (Text item))
              end
            end
          end
        end
    end.

(* ===================================================================== *)
(** * The client ([types.go])                                              *)
(* ===================================================================== *)

(** [Client]: the fields that do not change.  [floodTime] lives in the
    [World]; [muFloodTime] shows in the trace. *)
Record Client : Set := mkClient {
  identifier : Identifier;
  baseURL : string
}.

Definition NewClient (username password : string) : Client :=
  mkClient (NewIdentifier username password) apiEndpoint.

Definition newRequest (c : Client) (ctx : Context) (action : string)
           (requestParams : RequestParams) : Request :=
  mkRequest "POST" (baseURL c)
            (KasPayload (mkKasRequest (login (identifier c)) "session" (getToken ctx)
                                      action requestParams)).

(** The first three statements of [do]:
    [c.muFloodTime.Lock(); time.Sleep(time.Until(c.floodTime)); c.muFloodTime.Unlock()]. *)
Definition awaitFlood : M unit :=
  emit EvLock ;;
  deadline <- get_floodTime ;;
  d <- time_Until deadline ;;
  time_Sleep d ;;
  emit EvUnlock.

(** A call of [mapstructure.Decode(raw, result)]; [decode] stands for the
    library at the type of [result]: it fills the result or reports why it
    cannot. *)
Definition call_Decode {T : Type} (decode : value -> string + T) (raw : value)
  : M (string + T) :=
  emit (EvMapDecode raw) ;; ret (decode raw).

Definition do {T : Type} (decode : value -> string + T) (req : Request) : M (error + T) :=
  awaitFlood ;;
  r <- HTTPClient_Do req ;;
  match r with
  | inl err => ret (inl err)
  | inr resp =>
    if negb (StatusCode resp =? StatusOK) then
      ret (inl (UnexpectedStatusCodeError req (StatusCode resp) (RespBody resp)))
    else
      e <- decodeXML_api (RespBody resp) ;;
      match e with
      | inl err => ret (inl err)
      | inr envlp =>
        match BodyFault (Body envlp) with
        | Some f => ret (inl (FaultError f))
        | None =>
          (* getValue(envlp.Body.KasAPIResponse.Return) *)
          match KasAPIResponse (Body envlp) with
          | None => panic
          | Some kr =>
            raw <- call_getValue (Return kr) ;;
            m <- call_Decode decode raw ;;
            match m with
            | inl msg => ret (inl (StructDecodeError msg))
            | inr g => ret (inr g)
            end
          end
        end
      end
  end.

(** [float64(time.Second)]. *)
Definition Second_f64 : float64 := S754_finite false 8388608000000000 (-23).

(** The integer a finite [float64] truncates to. *)
Definition float64_trunc (f : float64) : option Z :=
  match f with
  | S754_zero _ => Some 0
  | S754_finite s m e =>
    let magnitude := if 0 <=? e then Zpos m * 2 ^ e else Zpos m / 2 ^ (- e) in
    Some (if s then - magnitude else magnitude)
  | S754_infinity _ | S754_nan => None
  end.

Definition wrap_int64 (z : Z) : Z := (z + 2 ^ 63) mod 2 ^ 64 - 2 ^ 63.

(** The delay has a duration: its product with [float64(time.Second)]
    truncates to an [int64]. *)
Definition representable (f : float64) : Prop :=
  exists z, float64_trunc f = Some z /\ minDuration <= z <= maxDuration.

(** The delay is not negative. *)
Definition nonnegative (f : float64) : Prop :=
  SFleb (S754_zero false) f = true.

Section Externals.

(** Go leaves the conversion of a [float64] that no [int64] represents to
    the implementation; [unrepresentable] is what the platform yields. *)
Variable unrepresentable : float64 -> Z.

(** [mapstructure.Decode] at the three result types. *)
Variable Decode_Get : value -> string + GetDNSSettingsAPIResponse.
Variable Decode_Add : value -> string + AddDNSSettingsAPIResponse.
Variable Decode_Delete : value -> string + DeleteDNSSettingsAPIResponse.

(** [time.Duration(f)]. *)
Definition Duration_of_float64 (f : float64) : Z :=
  match float64_trunc f with
  | Some z =>
    if (minDuration <=? z) && (z <=? maxDuration) then z
    else wrap_int64 (unrepresentable f)
  | None => wrap_int64 (unrepresentable f)
  end.

Definition updateFloodTime (delay : float64) : M unit :=
  emit EvLock ;;
  now <- time_Now ;;
  set_floodTime (now + Duration_of_float64 (SFmul prec emax delay Second_f64)) ;;
  emit EvUnlock.

Definition GetDNSSettings (c : Client) (ctx : Context) (zone recordID : string)
  : M (error + list ReturnInfo) :=
  let requestParams : gmap string string := {[ "zone_host" := zone ]} in
  let requestParams :=
    if nonempty recordID then <["record_id" := recordID]> requestParams
    else requestParams in
  a <- Authentication (identifier c) ctx ;;
  match a with
  | inl err => ret (inl err)
  | inr credential =>
    let ctx := WithContext ctx credential in
    let req := newRequest c ctx "get_dns_settings" (ParamsMap requestParams) in
    r <- do Decode_Get req ;;
    match r with
    | inl err => ret (inl err)
    | inr g =>
      updateFloodTime (GetKasFloodDelay (GetResponse g)) ;;
      ret (inr (GetReturnInfo (GetResponse g)))
    end
  end.

Definition AddDNSSettings (c : Client) (ctx : Context) (record : DNSRequest)
  : M (error + string) :=
  a <- Authentication (identifier c) ctx ;;
  match a with
  | inl err => ret (inl err)
  | inr credential =>
    let ctx := WithContext ctx credential in
    let req := newRequest c ctx "add_dns_settings" (ParamsRecord record) in
    r <- do Decode_Add req ;;
    match r with
    | inl err => ret (inl err)
    | inr g =>
      updateFloodTime (AddKasFloodDelay (AddResponse g)) ;;
      ret (inr (AddReturnInfo (AddResponse g)))
    end
  end.

Definition UpdateDNSSettings (c : Client) (ctx : Context) (record : DNSRequest)
  : M (error + string) :=
  a <- Authentication (identifier c) ctx ;;
  match a with
  | inl err => ret (inl err)
  | inr credential =>
    let ctx := WithContext ctx credential in
    let req := newRequest c ctx "update_dns_settings" (ParamsRecord record) in
    r <- do Decode_Add req ;;
    match r with
    | inl err => ret (inl err)
    | inr g =>
      updateFloodTime (AddKasFloodDelay (AddResponse g)) ;;
      ret (inr (AddReturnInfo (AddResponse g)))
    end
  end.

Definition DeleteDNSSettings (c : Client) (ctx : Context) (recordID : string)
  : M (error + bool) :=
  a <- Authentication (identifier c) ctx ;;
  match a with
  | inl err => ret (inl err)
  | inr credential =>
    let ctx := WithContext ctx credential in
    let requestParams : gmap string string := {[ "record_id" := recordID ]} in
    let req := newRequest c ctx "delete_dns_settings" (ParamsMap requestParams) in
    r <- do Decode_Delete req ;;
    match r with
    | inl err => ret (inl err)
    | inr g =>
      updateFloodTime (DeleteKasFloodDelay (DeleteResponse g)) ;;
      ret (inr (DeleteReturnInfo (DeleteResponse g)))
    end
  end.

(** ** Operations that overlap

    Operations on one [Client] may run on several goroutines.  Of the shared
    state an operation touches [floodTime] only, under [muFloodTime]: once
    when [do] waits, once in [updateFloodTime].  A thread below is an
    operation past its login, at one of these places; a schedule interleaves
    the threads and lets time pass.  The two locked blocks run as one step
    each, which is what the mutex grants them. *)
Inductive Place : Set :=
  | AtAwait       (* before [c.muFloodTime.Lock()] in [do] *)
  | AtSend        (* after the unlock, before [c.HTTPClient.Do(req)] *)
  | AtUpdate      (* the response is mapped, before [c.updateFloodTime] *)
  | AtReturn.

Record Thread : Type := mkThread {
  th_place : Place;
  th_req : Request;
  th_delay : float64     (* the [KasFloodDelay] its response declares *)
}.

Inductive Move : Set :=
  | Tick (d : N)         (* [d] nanoseconds pass *)
  | Run (i : nat).       (* thread [i] takes its next step *)

Definition run_thread (t : Thread) (w : World) : Thread * World :=
  match th_place t with
  | AtAwait => (mkThread AtSend (th_req t) (th_delay t), snd (awaitFlood w))
  | AtSend => (mkThread AtUpdate (th_req t) (th_delay t), snd (emit (EvHTTPDo (th_req t)) w))
  | AtUpdate => (mkThread AtReturn (th_req t) (th_delay t), snd (updateFloodTime (th_delay t) w))
  | AtReturn => (t, w)
  end.

Definition run_move (a : Move) (sys : list Thread * World) : list Thread * World :=
  let (threads, w) := sys in
  match a with
  | Tick d => (threads, snd (advance (Z.of_N d) w))
  | Run i =>
    match threads !! i with
    | Some t => let (t', w') := run_thread t w in (<[i := t']> threads, w')
    | None => sys
    end
  end.

Definition run_schedule (schedule : list Move) (sys : list Thread * World)
  : list Thread * World :=
  fold_left (fun s a => run_move a s) schedule sys.

End Externals.

(** A sequence of calls of [updateFloodTime], each after the wait of [do]
    and the time its request took: what operations that do not overlap do
    to the deadline.  [deadlines] lists the deadline each call leaves. *)
Fixpoint deadlines (unrepresentable : float64 -> Z)
         (calls : list (N * float64)) (w : World) : list Time :=
  match calls with
  | [] => []
  | (elapsed, delay) :: rest =>
    let w1 := snd (awaitFlood w) in
    let w2 := snd (advance (Z.of_N elapsed) w1) in
    let w3 := snd (updateFloodTime unrepresentable delay w2) in
    floodTime w3 :: deadlines unrepresentable rest w3
  end.

(* ===================================================================== *)
(** * Notions the statements use                                           *)
(* ===================================================================== *)

(** Events of the value resolver and of the result mapper. *)
Definition resolver_or_mapper (e : Time * Event) : bool :=
  match snd e with
  | EvGetValue _ | EvMapDecode _ => true
  | _ => false
  end.

Definition is_HTTPDo (e : Time * Event) : bool :=
  match snd e with
  | EvHTTPDo _ => true
  | _ => false
  end.

(** The instant [do] leaves the wait it starts in [w]. *)
Definition ready_at (w : World) : Time :=
  clock w + Z.max 0 (time_Sub (floodTime w) (clock w)).

(** An operation started in [w] ends in [out]: it returns the fault [f] as
    its error, it has not moved the deadline, and none of the events it
    added is a call of the resolver or of the mapper. *)
Definition fails_with {A : Type} (f : Fault) (w : World)
           (out : Result (error + A) * World) : Prop :=
  fst out = Returns (inl (FaultError f)) /\
  floodTime (snd out) = floodTime w /\
  exists evs, trace (snd out) = (trace w ++ evs)%list /\
              Forall (fun e => resolver_or_mapper e = false) evs.

(** Induction on an item through the sub-nodes [getValue] descends into. *)
Section ItemInduction.
Variable P : Item -> Prop.
Hypothesis step : forall item,
  (forall v, Value item = Some v -> P v) ->
  Forall P (Items item) ->
  P item.

Fixpoint Item_ind' (item : Item) : P item :=
  step item
    (fun v =>
       match Value item as o return o = Some v -> P v with
       | Some sub =>
         fun e => eq_ind sub P (Item_ind' sub) v
                    (f_equal (fun o => match o with Some x => x | None => sub end) e)
       | None =>
         fun e => False_ind _
                    (eq_ind None (fun o => match o with None => True | Some _ => False end)
                            I _ e)
       end)
    ((fix all (l : list Item) : Forall P l :=
        match l with
        | [] => @List.Forall_nil _ P
        | i :: rest => @List.Forall_cons _ P i rest (Item_ind' i) (all rest)
        end) (Items item)).
End ItemInduction.

(** An operation of [c] started in [w] with [ctx] meets a decoded envelope
    whose body holds the fault [f]: as the reply to its login (there is no
    token in [ctx]), or, the login passed, as the reply to its request. *)
Definition answers_with_fault (c : Client) (ctx : Context) (w : World) (f : Fault) : Prop :=
  (getToken ctx = "" /\
   exists elapsed api auth rest,
     network w = Replied elapsed (mkResponse StatusOK (Envelope api auth (Some f))) :: rest)
  \/
  (exists credential w1 elapsed api auth rest,
     Authentication (identifier c) ctx w = (Returns (inr credential), w1) /\
     network w1 = Replied elapsed (mkResponse StatusOK (Envelope api auth (Some f))) :: rest).

(** From [w1] on, the trace [w'] has reached: the lock, the sleep for the
    time until the deadline, the unlock, then the one call of the transport
    with [req]; the call is made at [ready_at w1], which is not before the
    deadline read under the lock (unless the deadline is further away than
    the longest duration). *)
Definition waits_then_sends (w1 : World) (req : Request) (w' : World) : Prop :=
  exists tail,
    trace w' =
    (trace w1 ++ [(clock w1, EvLock);
                  (clock w1, EvSleep (time_Sub (floodTime w1) (clock w1)));
                  (ready_at w1, EvUnlock);
                  (ready_at w1, EvHTTPDo req)] ++ tail)%list /\
    Forall (fun e => is_HTTPDo e = false) tail /\
    clock w1 <= ready_at w1 /\
    (floodTime w1 - clock w1 <= maxDuration -> floodTime w1 <= ready_at w1).

(** Each instant of the list is at or after the one before it, the first at
    or after [t]. *)
Fixpoint nondecreasing (t : Time) (l : list Time) : Prop :=
  match l with
  | [] => True
  | t' :: rest => t <= t' /\ nondecreasing t' rest
  end.

(** A delay the server declares is usable: not negative, and its product
    with [float64(time.Second)] has a duration. *)
Definition usable_delay (delay : float64) : Prop :=
  nonnegative delay /\ representable (SFmul prec emax delay Second_f64).

(** ** Sample data *)

(** Two entries of a map node. *)
Definition entry_a : Item := entry "a" (leaf "1" "xsd:string").
Definition entry_b : Item := entry "b" (leaf "2" "xsd:string").

(** What amd64 yields for a [float64] that no [int64] represents. *)
Definition amd64_unrepresentable (f : float64) : Z := minDuration.

Definition sample_client : Client := NewClient "w0123456" "secret".

Definition sample_fault : Fault := mkFault "1234" "bad credentials" "login".

(** A context without token; the login answers with a session token. *)
Definition login_reply : Reply :=
  Replied 5 (mkResponse StatusOK
               (Envelope None (Some (mkKasResponse (Some (leaf "session-token" "xsd:string"))))
                         None)).

(** Two logins answered with a return node whose text is not what the
    resolver makes of the node: the token inside a [value] sub-node, and a
    token of digits under the integer tag. *)
Definition wrapped_token : Item :=
  mkItem "" "" "" None (Some (leaf "session-token" "xsd:string")) [].
Definition numbered_token : Item := leaf "007" "xsd:int".
Definition login_reply_with (item : Item) : Reply :=
  Replied 5 (mkResponse StatusOK (Envelope None (Some (mkKasResponse (Some item))) None)).

Definition fault_reply : Reply :=
  Replied 7 (mkResponse StatusOK (Envelope None None (Some sample_fault))).

Definition empty_reply : Reply :=
  Replied 7 (mkResponse StatusOK (Envelope None None None)).

(** One second after the zero instant, the deadline never set. *)
Definition fresh_world (replies : list Reply) : World :=
  mkWorld Second 0 replies [].

(** Two operations on one client, past their logins; the response of the
    first will declare a delay of ten seconds, that of the second of half a
    second. *)
Definition request_A : Request :=
  newRequest sample_client (mkContext (Some "token-a")) "get_dns_settings"
             (ParamsMap {[ "zone_host" := "example.com" ]}).
Definition request_B : Request :=
  newRequest sample_client (mkContext (Some "token-b")) "delete_dns_settings"
             (ParamsMap {[ "record_id" := "7" ]}).
Definition ten_seconds : float64 := Eval cbv in fst (ParseFloat "10").
Definition half_a_second : float64 := Eval cbv in fst (ParseFloat "0.5").
Definition ten_billion_seconds : float64 := Eval cbv in fst (ParseFloat "1e10").
Definition two_threads : list Thread :=
  [mkThread AtAwait request_A ten_seconds; mkThread AtAwait request_B half_a_second].

(** A result mapper that rejects what it is given. *)
Definition rejecting {T : Type} (raw : value) : string + T :=
  inl "expected a map".

(** The world the login of [sample_client] leaves, started in a fresh world
    with the given replies. *)
Definition after_login (replies : list Reply) : World :=
  snd (Authentication (identifier sample_client) (mkContext None) (fresh_world replies)).

(** Unfold the primitives of the world and compute. *)
Ltac run_go :=
  unfold do, Authentication, awaitFlood, call_getValue, call_Decode,
    decodeXML_api, decodeXML_auth, HTTPClient_Do, time_Sleep, time_Until,
    time_Now, get_floodTime, set_floodTime, advance, emit, bind, ret, panic;
  cbn -[Z.add Z.max time_Sub Z.of_N];
  rewrite <- ?List.app_assoc;
  cbn -[Z.add Z.max time_Sub Z.of_N].

(* ===================================================================== *)
(** * Notions for the operations as a whole                                *)
(* ===================================================================== *)

(** The request an operation builds with [newRequest]: a POST to the base
    URL whose payload names the login, the auth type "session", the token
    and the action. *)
Definition session_request (c : Client) (token action : string)
           (params : RequestParams) : Request :=
  mkRequest "POST" (baseURL c)
            (KasPayload (mkKasRequest (login (identifier c)) "session" token action params)).

(** The events [do] and [updateFloodTime] add for an operation whose wait
    starts in [w1], whose request [req] is answered after [elapsed] with an
    envelope holding [item], and which then sets the deadline to
    [deadline]. *)
Definition success_events (w1 : World) (req : Request) (elapsed : N) (item : Item)
           (deadline : Time) : list (Time * Event) :=
  [(clock w1, EvLock);
   (clock w1, EvSleep (time_Sub (floodTime w1) (clock w1)));
   (ready_at w1, EvUnlock);
   (ready_at w1, EvHTTPDo req);
   (ready_at w1 + Z.of_N elapsed, EvDecodeXML);
   (ready_at w1 + Z.of_N elapsed, EvGetValue (Some item));
   (ready_at w1 + Z.of_N elapsed, EvMapDecode (getValue item));
   (ready_at w1 + Z.of_N elapsed, EvLock);
   (ready_at w1 + Z.of_N elapsed, EvSetFloodTime deadline);
   (ready_at w1 + Z.of_N elapsed, EvUnlock)].

(** The operation that ends in [out] has returned [x]; started to wait in
    [w1], it has sent [req], received after [elapsed] the envelope holding
    [item], and set the deadline [d] nanoseconds after the instant of its
    return. *)
Definition succeeds_with {A : Type} (x : A) (d : Z) (w1 : World) (req : Request)
           (elapsed : N) (item : Item) (rest : list Reply)
           (out : Result (error + A) * World) : Prop :=
  fst out = Returns (inr x) /\
  clock (snd out) = ready_at w1 + Z.of_N elapsed /\
  floodTime (snd out) = clock (snd out) + d /\
  network (snd out) = rest /\
  trace (snd out) =
  (trace w1 ++ success_events w1 req elapsed item (ready_at w1 + Z.of_N elapsed + d))%list.

(** The operation run by [m] leaves the deadline where it was unless it
    returns a result. *)
Definition deadline_moves_only_on_success {A : Type} (m : M (error + A)) : Prop :=
  forall w : World,
    match fst (m w) with
    | Returns (inr _) => True
    | _ => floodTime (snd (m w)) = floodTime w
    end.

(** The operation that ends in [out] has ended as its login ended in [r],
    in the world [w1] the login left: with the error of the login, or with
    its panic. *)
Definition ends_with_login {A : Type} (r : Result (error + string)) (w1 : World)
           (out : Result (error + A) * World) : Prop :=
  match r with
  | Returns (inl err) => out = (Returns (inl err), w1)
  | Panics => out = (Panics, w1)
  | Returns (inr _) => True
  end.

(** The parameters of a list request: the zone always, the record id when
    it is not empty, nothing else. *)
Definition list_params (zone recordID : string) (m : gmap string string) : Prop :=
  m !! "zone_host" = Some zone /\
  m !! "record_id" = (if String.eqb recordID "" then None else Some recordID) /\
  forall k, k <> "zone_host" -> k <> "record_id" -> m !! k = None.

(* ===================================================================== *)
(** * Decimal notation                                                     *)
(* ===================================================================== *)

(** The number a sequence of decimal digits stands for, [acc] being the
    number read so far. *)
Fixpoint uint_value (d : Decimal.uint) (acc : Z) : Z :=
  match d with
  | Decimal.Nil => acc
  | Decimal.D0 l => uint_value l (10 * acc)
  | Decimal.D1 l => uint_value l (10 * acc + 1)
  | Decimal.D2 l => uint_value l (10 * acc + 2)
  | Decimal.D3 l => uint_value l (10 * acc + 3)
  | Decimal.D4 l => uint_value l (10 * acc + 4)
  | Decimal.D5 l => uint_value l (10 * acc + 5)
  | Decimal.D6 l => uint_value l (10 * acc + 6)
  | Decimal.D7 l => uint_value l (10 * acc + 7)
  | Decimal.D8 l => uint_value l (10 * acc + 8)
  | Decimal.D9 l => uint_value l (10 * acc + 9)
  end.

(** The decimal notation of an integer, as [strconv.FormatInt(z, 10)] and
    the verb [%d] write it: a minus sign for a negative number, no leading
    zero. *)
Definition decimal (z : Z) : string :=
  DecimalString.NilEmpty.string_of_int (Z.to_int z).

Definition int64_range (z : Z) : Prop := - 2 ^ 63 <= z <= 2 ^ 63 - 1.

(* ===================================================================== *)
(** * Sample data for the operations                                       *)
(* ===================================================================== *)

(** A result mapper for the shape of a delete response: it takes the three
    fields from the map under [Response], each at the type of its field. *)
Definition sample_Decode_Delete (raw : value) : string + DeleteDNSSettingsAPIResponse :=
  match raw with
  | VMap m =>
    match m !! "Response" with
    | Some (VMap r) =>
      match r !! "KasFloodDelay", r !! "ReturnInfo", r !! "ReturnString" with
      | Some (VFloat d), Some (VBool b), Some (VString s) =>
        inr (mkDeleteDNSSettingsAPIResponse (mkDeleteDNSSettingsResponse d b s))
      | _, _, _ => inl "unexpected type"
      end
    | _ => inl "expected a map"
    end
  | _ => inl "expected a map"
  end.

(** The return node of a delete response that reports [flag] and declares a
    delay of half a second. *)
Definition delete_item (flag : string) : Item :=
  node "" [entry "Response"
             (node "" [entry "KasFloodDelay" (leaf "0.5" "xsd:float");
                       entry "ReturnInfo" (mkItem "" "xsd:boolean" flag None None []);
                       entry "ReturnString" (leaf "TRUE" "xsd:string")])].

Definition delete_reply (flag : string) : Reply :=
  Replied 7 (mkResponse StatusOK
               (Envelope (Some (mkKasResponse (Some (delete_item flag)))) None None)).

Definition delete_response (flag : bool) : DeleteDNSSettingsAPIResponse :=
  mkDeleteDNSSettingsAPIResponse (mkDeleteDNSSettingsResponse half_a_second flag "TRUE").

(** A delete operation that logs in and succeeds, a login reply left for the
    operation that follows. *)
Definition first_delete : Result (error + bool) * World :=
  DeleteDNSSettings amd64_unrepresentable sample_Decode_Delete sample_client
                    (mkContext None) "7"
                    (fresh_world [login_reply; delete_reply "true"; login_reply]).

(** A fault sent the way SOAP sends it over HTTP, with the status 500. *)
Definition fault_reply_500 : Reply :=
  Replied 7 (mkResponse 500 (Envelope None None (Some sample_fault))).

(* ===================================================================== *)
(** * The plugin framework, as far as the provider uses it                 *)
(* ===================================================================== *)

(** [strings.Index] and the two slice expressions of [ImportState]. *)
Module strings.

(** [Index(s, substr)]: the index of the first instance of [substr] in [s],
    or -1. *)
Fixpoint Index (s substr : string) : Z :=
  if String.prefix substr s then 0
  else
    match s with
    | EmptyString => -1
    | String _ rest =>
      let i := Index rest substr in
      if i =? -1 then -1 else i + 1
    end.

(** [s[:i]] and [s[i:]]. *)
Definition slice_to (s : string) (i : Z) : string :=
  String.substring 0 (Z.to_nat i) s.
Definition slice_from (s : string) (i : Z) : string :=
  String.substring (Z.to_nat i) (String.length s - Z.to_nat i) s.

End strings.

(** [types.String] and [types.Int64]: a value that is null, unknown or
    known. *)
Module types.

Inductive String : Set :=
  | StringNull
  | StringUnknown
  | StringValue (s : string).

Definition IsNull (v : String) : bool :=
  match v with StringNull => true | _ => false end.
Definition IsUnknown (v : String) : bool :=
  match v with StringUnknown => true | _ => false end.
(** [ValueString] is the empty string for a null and for an unknown value. *)
Definition ValueString (v : String) : string :=
  match v with StringValue s => s | _ => "" end.

Inductive Int64 : Set :=
  | Int64Null
  | Int64Unknown
  | Int64Value (n : Z).

Definition ValueInt64 (v : Int64) : Z :=
  match v with Int64Value n => n | _ => 0 end.

End types.

(** [path.Path]: the steps from the root of the schema. *)
Module path.

Definition Path : Set := list string.
Definition Root (name : string) : Path := [name].
Definition Empty : Path := [].
Definition Equal (p q : Path) : bool := bool_decide (p = q).

End path.

(** [diag.Diagnostics]: a list of errors and warnings that holds no
    diagnostic twice. *)
Module diag.

Inductive Severity : Set := SeverityError | SeverityWarning.

Record Diagnostic : Set := mkDiagnostic {
  DiagSeverity : Severity;
  Summary : string;
  Detail : string;
  AttributePath : option path.Path    (* of a diagnostic with a path *)
}.

#[global] Instance Severity_eq_dec : EqDecision Severity.
Proof. solve_decision. Defined.
#[global] Instance Diagnostic_eq_dec : EqDecision Diagnostic.
Proof. solve_decision. Defined.

Definition Diagnostics : Set := list Diagnostic.

Definition Equal (a b : Diagnostic) : bool := bool_decide (a = b).

Definition Contains (diags : Diagnostics) (d : Diagnostic) : bool :=
  existsb (fun x => Equal x d) diags.

(** [diags.Append(in...)] skips what [diags] holds already. *)
Definition Append (diags in_ : Diagnostics) : Diagnostics :=
  fold_left (fun acc d => if Contains acc d then acc else (acc ++ [d])%list) in_ diags.

Definition HasError (diags : Diagnostics) : bool :=
  existsb (fun d => match DiagSeverity d with
                    | SeverityError => true
                    | SeverityWarning => false
                    end) diags.

Definition AddError (diags : Diagnostics) (summary detail : string) : Diagnostics :=
  Append diags [mkDiagnostic SeverityError summary detail None].

Definition AddAttributeError (diags : Diagnostics) (p : path.Path)
           (summary detail : string) : Diagnostics :=
  Append diags [mkDiagnostic SeverityError summary detail (Some p)].

End diag.

(* ===================================================================== *)
(** * The provider ([provider.go]) and its resource ([order_resource.go])  *)
(* ===================================================================== *)

Module provider.

(** What a configure call hands on as [any]: nothing, a [*allinkl.Client]
    (which may be nil), or a value of another type, of which the name of
    the type is all that is read. *)
Inductive ProviderData : Set :=
  | DataNil
  | DataClient (c : option Client)
  | DataOther (type_name : string).

(** ** [provider.go] *)

Record allinklProviderModel : Set := mkAllinklProviderModel {
  Username : types.String;
  Password : types.String
}.

(** [provider.ConfigureResponse]. *)
Record ConfigureResponse : Set := mkConfigureResponse {
  ConfigureDiagnostics : diag.Diagnostics;     (* the field [Diagnostics] *)
  DataSourceData : ProviderData;
  ResourceData : ProviderData
}.

Definition unknown_username : string :=
  "The provider cannot create the AllInkl API client as there is an unknown configuration value for the AllInkl API username. " ++
  "Either target apply the source of the value first, set the value statically in the configuration, or use the ALLINKL_USERNAME environment variable.".
Definition unknown_password : string :=
  "The provider cannot create the AllInkl API client as there is an unknown configuration value for the AllInkl API password. " ++
  "Either target apply the source of the value first, set the value statically in the configuration, or use the ALLINKL_PASSWORD environment variable.".
Definition missing_username : string :=
  "The provider cannot create the AllInkl API client as there is a missing or empty value for the AllInkl API username. " ++
  "Set the username value in the configuration or use the ALLINKL_USERNAME environment variable. " ++
  "If either is already set, ensure the value is not empty.".
Definition missing_password : string :=
  "The provider cannot create the AllInkl API client as there is a missing or empty value for the AllInkl API password. " ++
  "Set the password value in the configuration or use the ALLINKL_PASSWORD environment variable. " ++
  "If either is already set, ensure the value is not empty.".

Section Provider.

(** [os.Getenv]. *)
Variable Getenv : string -> string.

(** [allinklProvider.Configure].  [config] and [diags] are what
    [req.Config.Get] yields: the model it has filled and its diagnostics.
    The calls of [tflog] write to the log only. *)
Definition Configure (config : allinklProviderModel) (diags : diag.Diagnostics)
           (resp : ConfigureResponse) : ConfigureResponse :=
  let d := diag.Append (ConfigureDiagnostics resp) diags in
  if diag.HasError d then
    mkConfigureResponse d (DataSourceData resp) (ResourceData resp)
  else
    let d :=
      if types.IsUnknown (Username config) then
        diag.AddAttributeError d (path.Root "username")
                               "Unknown AllInkl API Username" unknown_username
      else d in
    let d :=
      if types.IsUnknown (Password config) then
        diag.AddAttributeError d (path.Root "password")
                               "Unknown AllInkl API Password" unknown_password
      else d in
    if diag.HasError d then
      mkConfigureResponse d (DataSourceData resp) (ResourceData resp)
    else
      let username := Getenv "ALLINKL_USERNAME" in
      let password := Getenv "ALLINKL_PASSWORD" in
      let username :=
        if negb (types.IsNull (Username config)) then types.ValueString (Username config)
        else username in
      let password :=
        if negb (types.IsNull (Password config)) then types.ValueString (Password config)
        else password in
      let d :=
        if String.eqb username "" then
          diag.AddAttributeError d (path.Root "username")
                                 "Missing AllInkl API Username" missing_username
        else d in
      let d :=
        if String.eqb password "" then
          diag.AddAttributeError d (path.Root "password")
                                 "Missing AllInkl API Password" missing_password
        else d in
      if diag.HasError d then
        mkConfigureResponse d (DataSourceData resp) (ResourceData resp)
      else
        let client := NewClient username password in
        mkConfigureResponse d (DataClient (Some client)) (DataClient (Some client)).

End Provider.

(** The credential [Configure] settles on: the value of the configuration
    unless it is null, the environment variable then. *)
Definition effective (configured : types.String) (environment : string) : string :=
  match configured with
  | types.StringNull => environment
  | _ => types.ValueString configured
  end.

(** ** [order_resource.go] *)

Record dnsResource : Set := mkDnsResource { client : option Client }.

Record dnsResourceModel : Set := mkDnsResourceModel {
  ID : types.String;            (* id *)
  LastUpdated : types.String;   (* last_updated *)
  ZoneHost : types.String;      (* zone_host *)
  RecordType : types.String;    (* record_type *)
  RecordName : types.String;    (* record_name *)
  RecordData : types.String;    (* record_data *)
  RecordAux : types.Int64       (* record_aux *)
}.

(** [dnsResource.Configure]: the resource and the diagnostics it leaves. *)
Definition Configure_resource (d : dnsResource) (data : ProviderData)
           (diags : diag.Diagnostics) : dnsResource * diag.Diagnostics :=
  match data with
  | DataNil => (d, diags)
  | DataClient c => (mkDnsResource c, diags)
  | DataOther type_name =>
    (d, diag.AddError diags "Unexpected Data Source Configure Type"
          ("Expected *allinkl.Client, got: " ++ type_name ++
           ". Please report this issue to the provider developers."))
  end.

(** A plan or a state handed to a method, by what its [Get] yields: the
    model it fills and its diagnostics. *)
Record Data : Set := mkData {
  Get_model : dnsResourceModel;
  Get_diags : diag.Diagnostics
}.

(** The response of a method: its diagnostics, and the model the method
    has handed to [resp.State.Set], if it has called it. *)
Record Response : Set := mkResponse {
  Diagnostics : diag.Diagnostics;
  State : option dnsResourceModel
}.

(** The response of [ImportState]: its diagnostics, and the attributes it
    has handed to [resp.State.SetAttribute], in order. *)
Record ImportStateResponse : Set := mkImportStateResponse {
  ImportDiagnostics : diag.Diagnostics;      (* the field [Diagnostics] *)
  Attributes : list (path.Path * string)
}.

Definition passthrough_detail : string :=
  "This is always an error in the provider. Please report the following to the provider developer:" ++
  String "010" (String "010"
  "Resource ImportState method call to ImportStatePassthroughID path must be set to a valid attribute path that can accept a string value.").

Section Resource.

Variable unrepresentable : float64 -> Z.
Variable Decode_Get : value -> string + GetDNSSettingsAPIResponse.
Variable Decode_Add : value -> string + AddDNSSettingsAPIResponse.
Variable Decode_Delete : value -> string + DeleteDNSSettingsAPIResponse.

(** The width of [int] on the platform, 32 or 64. *)
Variable intSize : Z.
(** [err.Error()]. *)
Variable Error : error -> string.
(** [t.Format(time.RFC850)]. *)
Variable Format_RFC850 : Time -> string.
(** The diagnostics of [resp.State.Set] and of [resp.State.SetAttribute]. *)
Variable State_Set : dnsResourceModel -> diag.Diagnostics.
Variable State_SetAttribute : path.Path -> string -> diag.Diagnostics.

(** [int(n)] of an [int64]. *)
Definition int_of_int64 (n : Z) : Z :=
  (n + 2 ^ (intSize - 1)) mod 2 ^ intSize - 2 ^ (intSize - 1).

(** A call of a method of [r.client]: a nil client panics when the method
    reads its identifier, before anything else happens. *)
Definition call_client {A : Type} (r : dnsResource) (method : Client -> M A) : M A :=
  match client r with
  | Some c => method c
  | None => panic
  end.

Definition Create (r : dnsResource) (ctx : Context) (plan_data : Data) (resp : Response)
  : M Response :=
  let plan := Get_model plan_data in
  let d := diag.Append (Diagnostics resp) (Get_diags plan_data) in
  if diag.HasError d then ret (mkResponse d (State resp))
  else
    let allinklItem :=
      mkDNSRequest "" (types.ValueString (ZoneHost plan))
                   (types.ValueString (RecordType plan))
                   (types.ValueString (RecordName plan))
                   (types.ValueString (RecordData plan))
                   (int_of_int64 (types.ValueInt64 (RecordAux plan))) in
    a <- call_client r (fun c => AddDNSSettings unrepresentable Decode_Add c ctx allinklItem) ;;
    match a with
    | inl err =>
      ret (mkResponse
             (diag.AddError d "Error Creating AllInkl DNS"
                ("Could not create dns, unexpected error: " ++ Error err))
             (State resp))
    | inr id =>
      now <- time_Now ;;
      let plan :=
        mkDnsResourceModel (types.StringValue id)
                           (types.StringValue (Format_RFC850 now))
                           (ZoneHost plan) (RecordType plan) (RecordName plan)
                           (RecordData plan) (RecordAux plan) in
      ret (mkResponse (diag.Append d (State_Set plan)) (Some plan))
    end.

Definition Read (r : dnsResource) (ctx : Context) (state_data : Data) (resp : Response)
  : M Response :=
  let state := Get_model state_data in
  let d := diag.Append (Diagnostics resp) (Get_diags state_data) in
  if diag.HasError d then ret (mkResponse d (State resp))
  else
    a <- call_client r (fun c =>
           GetDNSSettings unrepresentable Decode_Get c ctx
                          (types.ValueString (ZoneHost state))
                          (types.ValueString (ID state))) ;;
    match a with
    | inl err =>
      ret (mkResponse
             (diag.AddError d "Error Reading AllInkl DNS"
                ("Could not read AllInkl dns ID " ++ types.ValueString (ID state) ++
                 ": " ++ Error err))
             (State resp))
    | inr dns =>
      let dnsCount := Z.of_nat (length dns) in
      if dnsCount =? 0 then
        ret (mkResponse
               (diag.AddError d "Error Reading AllInkl DNS"
                  ("Could not read AllInkl dns ID " ++ types.ValueString (ID state) ++
                   ": no records found, expected 1"))
               (State resp))
      else if 1 <? dnsCount then
        ret (mkResponse
               (diag.AddError d "Error Reading AllInkl DNS"
                  ("Could not read AllInkl dns ID " ++ types.ValueString (ID state) ++
                   ": found " ++ decimal dnsCount ++ " records, expected 1"))
               (State resp))
      else
        match dns with
        | [] => panic     (* dns[0] *)
        | dns0 :: _ =>
          let state :=
            mkDnsResourceModel (ID state) types.StringNull
                               (types.StringValue (RecordZone dns0))
                               (types.StringValue (InfoRecordType dns0))
                               (types.StringValue (InfoRecordName dns0))
                               (types.StringValue (InfoRecordData dns0))
                               (types.Int64Value (InfoRecordAux dns0)) in
          ret (mkResponse (diag.Append d (State_Set state)) (Some state))
        end
    end.

Definition Update (r : dnsResource) (ctx : Context) (plan_data : Data) (resp : Response)
  : M Response :=
  let plan := Get_model plan_data in
  let d := diag.Append (Diagnostics resp) (Get_diags plan_data) in
  if diag.HasError d then ret (mkResponse d (State resp))
  else
    let allinklItem :=
      mkDNSRequest (types.ValueString (ID plan))
                   (types.ValueString (ZoneHost plan))
                   (types.ValueString (RecordType plan))
                   (types.ValueString (RecordName plan))
                   (types.ValueString (RecordData plan))
                   (int_of_int64 (types.ValueInt64 (RecordAux plan))) in
    u <- call_client r (fun c =>
           UpdateDNSSettings unrepresentable Decode_Add c ctx allinklItem) ;;
    match u with
    | inl err =>
      ret (mkResponse
             (diag.AddError d "Error Updating AllInkl DNS"
                ("Could not update dns, unexpected error: " ++ Error err))
             (State resp))
    | inr _ =>
      a <- call_client r (fun c =>
             GetDNSSettings unrepresentable Decode_Get c ctx
                            (types.ValueString (ZoneHost plan))
                            (types.ValueString (ID plan))) ;;
      match a with
      | inl err =>
        ret (mkResponse
               (diag.AddError d "Error Reading AllInkl DNS"
                  ("Could not read AllInkl dns ID " ++ types.ValueString (ID plan) ++
                   ": " ++ Error err))
               (State resp))
      | inr dns =>
        let dnsCount := Z.of_nat (length dns) in
        if dnsCount =? 0 then
          ret (mkResponse
                 (diag.AddError d "Error Reading AllInkl DNS"
                    ("Could not read AllInkl dns ID " ++ types.ValueString (ID plan) ++
                     ": no records found, expected 1"))
                 (State resp))
        else if 1 <? dnsCount then
          ret (mkResponse
                 (diag.AddError d "Error Reading AllInkl DNS"
                    ("Could not read AllInkl dns ID " ++ types.ValueString (ID plan) ++
                     ": found " ++ decimal dnsCount ++ " records, expected 1"))
                 (State resp))
        else
          match dns with
          | [] => panic     (* dns[0] *)
          | dns0 :: _ =>
            now <- time_Now ;;
            let plan :=
              mkDnsResourceModel (ID plan)
                                 (types.StringValue (Format_RFC850 now))
                                 (types.StringValue (RecordZone dns0))
                                 (types.StringValue (InfoRecordType dns0))
                                 (types.StringValue (InfoRecordName dns0))
                                 (types.StringValue (InfoRecordData dns0))
                                 (types.Int64Value (InfoRecordAux dns0)) in
            ret (mkResponse (diag.Append d (State_Set plan)) (Some plan))
          end
      end
    end.

(** [Delete] looks at the flag only: [(false, err)] with a nil [err] panics
    at [err.Error()]. *)
Definition Delete (r : dnsResource) (ctx : Context) (state_data : Data) (resp : Response)
  : M Response :=
  let state := Get_model state_data in
  let d := diag.Append (Diagnostics resp) (Get_diags state_data) in
  if diag.HasError d then ret (mkResponse d (State resp))
  else
    a <- call_client r (fun c =>
           DeleteDNSSettings unrepresentable Decode_Delete c ctx
                             (types.ValueString (ID state))) ;;
    match a with
    | inr true => ret (mkResponse d (State resp))
    | inl err =>
      ret (mkResponse
             (diag.AddError d "Error Deleting AllInkl DNS"
                ("Could not delete dns, unexpected error: " ++ Error err))
             (State resp))
    | inr false => panic
    end.

Definition ImportState (reqID : string) (resp : ImportStateResponse)
  : ImportStateResponse :=
  let d :=
    if path.Equal (path.Root "id") path.Empty then
      diag.AddError (ImportDiagnostics resp)
                    "Resource Import Passthrough Missing Attribute Path" passthrough_detail
    else ImportDiagnostics resp in
  (* split into zone_host and record_id by `/` *)
  let '(zoneHost, recordID) :=
    if nonempty reqID then
      let i := strings.Index reqID "/" in
      if negb (i =? -1) then (strings.slice_to reqID i, strings.slice_from reqID (i + 1))
      else (reqID, "")
    else ("", "") in
  if String.eqb recordID "" || String.eqb zoneHost "" then
    mkImportStateResponse
      (diag.AddError d "Invalid Import ID"
         ("Expected import ID in the format `zone_host/record_id`, got: " ++ reqID))
      (Attributes resp)
  else
    let d := diag.Append d (State_SetAttribute (path.Root "zone_host") zoneHost) in
    let d := diag.Append d (State_SetAttribute (path.Root "id") recordID) in
    mkImportStateResponse d
      (Attributes resp ++ [(path.Root "zone_host", zoneHost); (path.Root "id", recordID)])%list.

End Resource.

(** The model [Read] and [Update] build from the one record they have
    found: the id they were given, the fields of the record. *)
Definition refreshed (id lastUpdated : types.String) (record : ReturnInfo)
  : dnsResourceModel :=
  mkDnsResourceModel id lastUpdated
                     (types.StringValue (RecordZone record))
                     (types.StringValue (InfoRecordType record))
                     (types.StringValue (InfoRecordName record))
                     (types.StringValue (InfoRecordData record))
                     (types.Int64Value (InfoRecordAux record)).

(** The model [Create] builds from its plan: the id the server has
    returned, the time stamp, the planned attributes as they are. *)
Definition created (id stamp : string) (plan : dnsResourceModel) : dnsResourceModel :=
  mkDnsResourceModel (types.StringValue id) (types.StringValue stamp)
                     (ZoneHost plan) (RecordType plan) (RecordName plan)
                     (RecordData plan) (RecordAux plan).

(** The request [Create] and [Update] build from a plan: what is null or
    unknown in the plan is empty, or zero, in the request. *)
Definition planned (intSize : Z) (id : string) (plan : dnsResourceModel) : DNSRequest :=
  mkDNSRequest id (types.ValueString (ZoneHost plan))
               (types.ValueString (RecordType plan))
               (types.ValueString (RecordName plan))
               (types.ValueString (RecordData plan))
               (int_of_int64 intSize (types.ValueInt64 (RecordAux plan))).

(** An import ID of the form the resource documents: a zone without slash,
    a slash, a record id; neither part empty. *)
Definition import_id (zone recordID reqID : string) : Prop :=
  zone <> "" /\ recordID <> "" /\ strings.Index zone "/" = -1 /\
  reqID = (zone ++ "/" ++ recordID)%string.

End provider.

(* ===================================================================== *)
(** * Sample data for the provider                                         *)
(* ===================================================================== *)

(** Result mappers for the shapes of a list response and of an add or
    update response: they take the fields from the map under [Response],
    each at the type of its field. *)
Definition sample_record (v : value) : option ReturnInfo :=
  match v with
  | VMap m =>
    match m !! "record_zone", m !! "record_name", m !! "record_type",
          m !! "record_data", m !! "record_changeable", m !! "record_aux" with
    | Some (VString zone), Some (VString name), Some (VString type),
      Some (VString data), Some (VString changeable), Some (VInt aux) =>
      Some (mkReturnInfo (m !! "record_id") zone name type data changeable aux)
    | _, _, _, _, _, _ => None
    end
  | _ => None
  end.

Fixpoint sample_records (l : list value) : option (list ReturnInfo) :=
  match l with
  | [] => Some []
  | v :: rest =>
    match sample_record v, sample_records rest with
    | Some record, Some records => Some (record :: records)
    | _, _ => None
    end
  end.

Definition sample_Decode_Get (raw : value) : string + GetDNSSettingsAPIResponse :=
  match raw with
  | VMap m =>
    match m !! "Response" with
    | Some (VMap r) =>
      match r !! "KasFloodDelay", r !! "ReturnInfo", r !! "ReturnString" with
      | Some (VFloat d), Some (VSlice l), Some (VString s) =>
        match sample_records l with
        | Some records =>
          inr (mkGetDNSSettingsAPIResponse (mkGetDNSSettingsResponse d records s))
        | None => inl "unexpected record"
        end
      | _, _, _ => inl "unexpected type"
      end
    | _ => inl "expected a map"
    end
  | _ => inl "expected a map"
  end.

Definition sample_Decode_Add (raw : value) : string + AddDNSSettingsAPIResponse :=
  match raw with
  | VMap m =>
    match m !! "Response" with
    | Some (VMap r) =>
      match r !! "KasFloodDelay", r !! "ReturnInfo", r !! "ReturnString" with
      | Some (VFloat d), Some (VString info), Some (VString s) =>
        inr (mkAddDNSSettingsAPIResponse (mkAddDNSSettingsResponse d info s))
      | _, _, _ => inl "unexpected type"
      end
    | _ => inl "expected a map"
    end
  | _ => inl "expected a map"
  end.

(** The return node of an add or update response that reports the record
    id 7, and that of a list response with one record; both declare a
    delay of half a second. *)
Definition add_item : Item :=
  node "" [entry "Response"
             (node "" [entry "KasFloodDelay" (leaf "0.5" "xsd:float");
                       entry "ReturnInfo" (leaf "7" "xsd:string");
                       entry "ReturnString" (leaf "TRUE" "xsd:string")])].

Definition record_item : Item :=
  node "ns2:Map" [entry "record_id" (leaf "7" "xsd:string");
                  entry "record_zone" (leaf "example.com" "xsd:string");
                  entry "record_name" (leaf "www" "xsd:string");
                  entry "record_type" (leaf "A" "xsd:string");
                  entry "record_data" (leaf "192.0.2.1" "xsd:string");
                  entry "record_changeable" (leaf "Y" "xsd:string");
                  entry "record_aux" (leaf "0" "xsd:int")].

Definition list_item : Item :=
  node "" [entry "Response"
             (node "" [entry "KasFloodDelay" (leaf "0.5" "xsd:float");
                       entry "ReturnInfo" (node arrayTag [record_item]);
                       entry "ReturnString" (leaf "TRUE" "xsd:string")])].

Definition sample_record_info : ReturnInfo :=
  mkReturnInfo (Some (VString "7")) "example.com" "www" "A" "192.0.2.1" "Y" 0.

Definition reply_with (item : Item) : Reply :=
  Replied 7 (mkResponse StatusOK (Envelope (Some (mkKasResponse (Some item))) None None)).

(** A resource with the sample client; a plan for a record of the zone
    example.com and the state of the record 7 of that zone. *)
Definition sample_resource : provider.dnsResource :=
  provider.mkDnsResource (Some sample_client).

Definition sample_plan : provider.dnsResourceModel :=
  provider.mkDnsResourceModel types.StringUnknown types.StringUnknown
    (types.StringValue "example.com") (types.StringValue "A") (types.StringValue "www")
    (types.StringValue "192.0.2.1") (types.Int64Value 0).

Definition sample_state : provider.dnsResourceModel :=
  provider.mkDnsResourceModel (types.StringValue "7") (types.StringValue "Monday")
    (types.StringValue "example.com") (types.StringValue "A") (types.StringValue "old")
    (types.StringValue "192.0.2.9") (types.Int64Value 0).

Definition fresh_response : provider.Response := provider.mkResponse [] None.

Definition sample_error : diag.Diagnostic :=
  diag.mkDiagnostic diag.SeverityError "Value Conversion Error" "" None.

(** Stand-ins for the text of an error and for the format of an instant. *)
Definition sample_Error (err : error) : string :=
  match err with
  | FaultError f => Fault_Error f
  | _ => "error"
  end.
Definition sample_Format (t : Time) : string := decimal t.

(** An environment that names both credentials, and one that names none. *)
Definition sample_env (name : string) : string :=
  if String.eqb name "ALLINKL_USERNAME" then "w0123456"
  else if String.eqb name "ALLINKL_PASSWORD" then "secret"
  else "".
Definition empty_env (name : string) : string := "".

Definition fresh_configure_response : provider.ConfigureResponse :=
  provider.mkConfigureResponse [] provider.DataNil provider.DataNil.

(** The update of the sample state, a login reply and a list reply left
    for the read that follows. *)
Definition first_update : Result (error + string) * World :=
  UpdateDNSSettings amd64_unrepresentable sample_Decode_Add sample_client (mkContext None)
    (provider.planned 64 "7" sample_state)
    (fresh_world [login_reply; reply_with add_item; login_reply; reply_with list_item]).

(** The four methods with the sample mappers and stand-ins, on a platform
    whose [int] has 64 bits, the state accepting every model. *)
Definition no_diagnostics (model : provider.dnsResourceModel) : diag.Diagnostics := [].

Definition sample_Create :=
  provider.Create amd64_unrepresentable sample_Decode_Add 64 sample_Error sample_Format
                  no_diagnostics.
Definition sample_Read :=
  provider.Read amd64_unrepresentable sample_Decode_Get sample_Error no_diagnostics.
Definition sample_Update :=
  provider.Update amd64_unrepresentable sample_Decode_Get sample_Decode_Add 64
                  sample_Error sample_Format no_diagnostics.
Definition sample_Delete :=
  provider.Delete amd64_unrepresentable sample_Decode_Delete sample_Error.

Definition update_world : World :=
  fresh_world [login_reply; reply_with add_item; login_reply; reply_with list_item].

(* ===================================================================== *)
(** * The texts of the errors ([clienthelper.go])                          *)
(* ===================================================================== *)

(** The error types of [clienthelper.go] with the fields their [Error]
    methods read.  A wrapped [error] is held by its text, nil is [None]; a
    body is held as the bytes it is. *)
Module clienthelper.

Definition legoDebugClientVerboseError : string := "LEGO_DEBUG_CLIENT_VERBOSE_ERROR".

Record HTTPDoError : Type := mkHTTPDoError {
  do_req : Request;                 (* req *)
  do_err : option string            (* err *)
}.

Record ReadResponseError : Type := mkReadResponseError {
  read_req : Request;               (* req *)
  read_StatusCode : Z;              (* StatusCode *)
  read_err : option string          (* err *)
}.

Record UnmarshalError : Type := mkUnmarshalError {
  unmarshal_req : Request;          (* req *)
  unmarshal_StatusCode : Z;         (* StatusCode *)
  unmarshal_Body : string;          (* Body *)
  unmarshal_err : option string     (* err *)
}.

Record UnexpectedStatusCodeError : Type := mkUnexpectedStatusCodeError {
  status_req : Request;             (* req *)
  status_StatusCode : Z;            (* StatusCode *)
  status_Body : string              (* Body *)
}.

Section Errors.

(** [os.Getenv] and [bytes.TrimSpace]. *)
Variable Getenv : string -> string.
Variable TrimSpace : string -> string.

Definition NewHTTPDoError (req : Request) (err : option string) : HTTPDoError :=
  mkHTTPDoError req err.

Definition HTTPDoError_Error (h : HTTPDoError) : string :=
  let msg := "unable to communicate with the API server:" in
  let msg :=
    if fst (ParseBool (Getenv legoDebugClientVerboseError)) then
      msg ++ " [request: " ++ Method (do_req h) ++ " " ++ URL (do_req h) ++ "]"
    else msg in
  match do_err h with
  | None => msg
  | Some e => msg ++ " error: " ++ e
  end.

Definition HTTPDoError_Unwrap (h : HTTPDoError) : option string := do_err h.

Definition NewReadResponseError (req : Request) (statusCode : Z) (err : option string)
  : ReadResponseError :=
  mkReadResponseError req statusCode err.

Definition ReadResponseError_Error (r : ReadResponseError) : string :=
  let msg := "unable to read response body:" in
  let msg :=
    if fst (ParseBool (Getenv legoDebugClientVerboseError)) then
      msg ++ " [request: " ++ Method (read_req r) ++ " " ++ URL (read_req r) ++ "]"
    else msg in
  let msg := msg ++ " [status code: " ++ decimal (read_StatusCode r) ++ "]" in
  match read_err r with
  | None => msg
  | Some e => msg ++ " error: " ++ e
  end.

Definition ReadResponseError_Unwrap (r : ReadResponseError) : option string := read_err r.

Definition NewUnmarshalError (req : Request) (statusCode : Z) (body : string)
           (err : option string) : UnmarshalError :=
  mkUnmarshalError req statusCode (TrimSpace body) err.

Definition UnmarshalError_Error (u : UnmarshalError) : string :=
  let msg := "unable to unmarshal response:" in
  let msg :=
    if fst (ParseBool (Getenv legoDebugClientVerboseError)) then
      msg ++ " [request: " ++ Method (unmarshal_req u) ++ " " ++ URL (unmarshal_req u) ++ "]"
    else msg in
  let msg := msg ++ " [status code: " ++ decimal (unmarshal_StatusCode u) ++ "] body: "
                 ++ unmarshal_Body u in
  match unmarshal_err u with
  | None => msg
  | Some e => msg ++ " error: " ++ e
  end.

Definition UnmarshalError_Unwrap (u : UnmarshalError) : option string := unmarshal_err u.

Definition NewUnexpectedStatusCodeError (req : Request) (statusCode : Z) (body : string)
  : UnexpectedStatusCodeError :=
  mkUnexpectedStatusCodeError req statusCode (TrimSpace body).

(** [NewUnexpectedResponseStatusCodeError(req, resp)]; [raw] is what
    [io.ReadAll(resp.Body)] has read, its error dropped. *)
Definition NewUnexpectedResponseStatusCodeError (req : Request) (statusCode : Z)
           (raw : string) : UnexpectedStatusCodeError :=
  mkUnexpectedStatusCodeError req statusCode (TrimSpace raw).

Definition UnexpectedStatusCodeError_Error (u : UnexpectedStatusCodeError) : string :=
  let msg := "unexpected status code:" in
  let msg :=
    if fst (ParseBool (Getenv legoDebugClientVerboseError)) then
      msg ++ " [request: " ++ Method (status_req u) ++ " " ++ URL (status_req u) ++ "]"
    else msg in
  msg ++ " [status code: " ++ decimal (status_StatusCode u) ++ "] body: " ++ status_Body u.

End Errors.

(** The values of the variable that switch the verbose texts on. *)
Definition verbose_values : list string := ["1"; "t"; "T"; "TRUE"; "true"; "True"].

(** Two requests that differ in their payload at most. *)
Definition same_line (req req' : Request) : Prop :=
  Method req = Method req' /\ URL req = URL req'.

End clienthelper.

(** An environment that sets the variable to a word [ParseBool] does not
    know, and a second client. *)
Definition yes_env (name : string) : string :=
  if String.eqb name clienthelper.legoDebugClientVerboseError then "yes" else "".
Definition other_client : Client := NewClient "w7654321" "hidden".

(* ===================================================================== *)
(** * The value resolver                                                   *)
(* ===================================================================== *)


Lemma nonempty_true (s : string) : nonempty s = true <-> s <> "".
Proof.
  unfold nonempty. rewrite negb_true_iff. apply String.eqb_neq.
Qed.

Lemma nonempty_false (s : string) : nonempty s = false <-> s = "".
Proof.
  unfold nonempty. rewrite negb_false_iff. apply String.eqb_eq.
Qed.

Lemma has_items_true (l : list Item) : Nat.ltb 0 (length l) = true <-> l <> [].
Proof.
  destruct l; simpl; split; intros H; try congruence; try reflexivity.
  discriminate.
Qed.

Lemma has_items_false (l : list Item) : Nat.ltb 0 (length l) = false <-> l = [].
Proof.
  destruct l; simpl; split; intros H; try congruence; try reflexivity.
  discriminate.
Qed.

(** The defining equation of [getValue], whatever the shape of [item]. *)
Lemma getValue_unfold (item : Item) :
  getValue item =
  if nonempty (Raw item) then VBool (fst (ParseBool (Raw item)))
  else if nonempty (Text item) then
    if String.eqb (Type_ item) "xsd:string" then VString (Text item)
    else if String.eqb (Type_ item) "xsd:float" then VFloat (fst (ParseFloat (Text item)))
    else if String.eqb (Type_ item) "xsd:int" then VInt (fst (ParseInt (Text item)))
    else VString (Text item)
  else
    match Value item with
    | Some v => getValue v
    | None =>
      if Nat.ltb 0 (length (Items item)) && String.eqb (Type_ item) arrayTag then
        VSlice (List.map getValue (Items item))
      else if Nat.ltb 0 (length (Items item)) then
        VMap (fold_left (fun v i => <[getKey i := getValue i]> v) (Items item) ∅)
      else VString ""
    end.
Proof. destruct item; reflexivity. Qed.

(** ** Writing pairs into a map in order *)

Lemma lookup_fold_insert {A : Type} (kvs : list (string * A)) (m0 : gmap string A) (k : string) :
  fold_left (fun m kv => <[fst kv := snd kv]> m) kvs m0 !! k =
  match last_write k kvs with
  | Some x => Some x
  | None => m0 !! k
  end.
Proof.
  revert m0. induction kvs as [|[k' x] rest IH]; intros m0; simpl.
  - reflexivity.
  - rewrite IH. destruct (last_write k rest) as [y|]; [reflexivity|].
    destruct (String.eqb k' k) eqn:E.
    + apply String.eqb_eq in E. subst. apply lookup_insert_eq.
    + apply String.eqb_neq in E. apply lookup_insert_ne. exact E.
Qed.

Lemma fold_left_writes (items : list Item) (m0 : gmap string value) :
  fold_left (fun v i => <[getKey i := getValue i]> v) items m0 =
  fold_left (fun m kv => <[fst kv := snd kv]> m)
            (List.map (fun i => (getKey i, getValue i)) items) m0.
Proof.
  revert m0. induction items as [|i rest IH]; intros m0; simpl; [reflexivity|].
  apply IH.
Qed.

(** The map a map node resolves to holds, under every key, the last value
    written under it. *)
Lemma lookup_children (item : Item) (k : string) :
  fold_left (fun v i => <[getKey i := getValue i]> v) (Items item) (∅ : gmap string value) !! k =
  last_write k (child_writes item).
Proof.
  rewrite fold_left_writes, lookup_fold_insert. unfold child_writes.
  destruct (last_write k _); [reflexivity|apply lookup_empty].
Qed.

Lemma last_write_app {A : Type} (k : string) (l1 l2 : list (string * A)) :
  last_write k (l1 ++ l2)%list =
  match last_write k l2 with
  | Some x => Some x
  | None => last_write k l1
  end.
Proof.
  induction l1 as [|[k' x] rest IH]; simpl.
  - destruct (last_write k l2); reflexivity.
  - rewrite IH. destruct (last_write k l2); reflexivity.
Qed.

Lemma last_write_None {A : Type} (k : string) (kvs : list (string * A)) :
  last_write k kvs = None <-> ~ In k (List.map fst kvs).
Proof.
  induction kvs as [|[k' x] rest IH]; simpl.
  - tauto.
  - destruct (last_write k rest) as [y|] eqn:E.
    + split; [discriminate|]. intros H. exfalso.
      destruct (in_dec String.string_dec k (List.map fst rest)) as [HIn|N].
      * apply H. now right.
      * apply IH in N. discriminate.
    + destruct (String.eqb k' k) eqn:Ek.
      * apply String.eqb_eq in Ek. split; [discriminate|]. intros H. exfalso. apply H. now left.
      * apply String.eqb_neq in Ek. split; [|reflexivity]. intros _ [H|H]; [congruence|].
        apply (proj1 IH); [reflexivity|exact H].
Qed.

Lemma last_write_is_Some {A : Type} (k : string) (kvs : list (string * A)) :
  is_Some (last_write k kvs) <-> In k (List.map fst kvs).
Proof.
  rewrite <- not_eq_None_Some. split.
  - intros H. destruct (in_dec String.string_dec k (List.map fst kvs)) as [|N]; [assumption|].
    apply last_write_None in N. contradiction.
  - intros HIn E. apply last_write_None in E. contradiction.
Qed.

Lemma child_writes_keys (item : Item) : List.map fst (child_writes item) = child_keys item.
Proof.
  unfold child_writes, child_keys. rewrite List.map_map. reflexivity.
Qed.

Lemma combine_keys_values (items : list Item) :
  combine (List.map getKey items) (List.map getValue items) =
  List.map (fun i => (getKey i, getValue i)) items.
Proof.
  induction items as [|i rest IH]; simpl; [reflexivity|]. now rewrite IH.
Qed.

Lemma Forall2_resolved (items : list Item) (vs : list value) :
  Forall (fun i => forall v, Resolves i v -> getValue i = v) items ->
  Forall2 Resolves items vs ->
  List.map getValue items = vs.
Proof.
  intros HF H2. induction H2 as [|i v rest vs' Hi _ IH]; simpl; [reflexivity|].
  inversion HF as [|? ? Hhd Htl]; subst.
  rewrite (Hhd v Hi), (IH Htl). reflexivity.
Qed.

Lemma Forall2_resolves (items : list Item) :
  Forall (fun i => Resolves i (getValue i)) items ->
  Forall2 Resolves items (List.map getValue items).
Proof.
  induction 1; simpl; constructor; assumption.
Qed.

Lemma getValue_sound (item : Item) : forall v, Resolves item v -> getValue item = v.
Proof.
  induction item as [item IHv IHitems] using Item_ind'.
  intros v H. rewrite getValue_unfold.
  inversion H as [ ? HR | ? HR HT Hty | ? HR HT Hty | ? HR HT Hf Hi
                 | ? sub ? HR HT HV Hsub | ? vs HR HT HV HI Hty H2
                 | ? vs m HR HT HV HI Hty H2 Hm | ? HR HT HV HI ]; subst.
  - apply nonempty_true in HR. now rewrite HR.
  - apply nonempty_false in HR. apply nonempty_true in HT. rewrite HR, HT, Hty. reflexivity.
  - apply nonempty_false in HR. apply nonempty_true in HT. rewrite HR, HT, Hty. reflexivity.
  - apply nonempty_false in HR. apply nonempty_true in HT. rewrite HR, HT.
    apply String.eqb_neq in Hf, Hi. rewrite Hf, Hi.
    destruct (String.eqb (Type_ item) "xsd:string"); reflexivity.
  - apply nonempty_false in HR, HT. rewrite HR, HT, HV. apply (IHv sub HV), Hsub.
  - apply nonempty_false in HR, HT. rewrite HR, HT, HV.
    apply has_items_true in HI. rewrite HI, Hty. simpl.
    f_equal. apply Forall2_resolved; assumption.
  - apply nonempty_false in HR, HT. rewrite HR, HT, HV.
    apply has_items_true in HI. apply String.eqb_neq in Hty. rewrite HI, Hty. simpl.
    f_equal. apply map_eq. intros k. rewrite lookup_children, Hm.
    unfold child_writes.
    rewrite <- (Forall2_resolved (Items item) vs IHitems H2), combine_keys_values.
    reflexivity.
  - apply nonempty_false in HR, HT. rewrite HR, HT, HV.
    pose proof (proj2 (has_items_false _) HI) as HI'. rewrite HI'. reflexivity.
Qed.

Lemma getValue_complete (item : Item) : Resolves item (getValue item).
Proof.
  induction item as [item IHv IHitems] using Item_ind'.
  rewrite getValue_unfold.
  destruct (nonempty (Raw item)) eqn:HR.
  { apply R_bool, nonempty_true, HR. }
  apply nonempty_false in HR.
  destruct (nonempty (Text item)) eqn:HT.
  { apply nonempty_true in HT.
    destruct (String.eqb (Type_ item) "xsd:string") eqn:Hs.
    { apply String.eqb_eq in Hs. apply R_text; try assumption; rewrite Hs; discriminate. }
    destruct (String.eqb (Type_ item) "xsd:float") eqn:Hf.
    { apply String.eqb_eq in Hf. now apply R_float. }
    destruct (String.eqb (Type_ item) "xsd:int") eqn:Hi.
    { apply String.eqb_eq in Hi. now apply R_int. }
    apply String.eqb_neq in Hf, Hi. now apply R_text. }
  apply nonempty_false in HT.
  destruct (Value item) as [sub|] eqn:HV.
  { apply R_value with sub; try assumption. apply IHv. reflexivity. }
  destruct (Nat.ltb 0 (length (Items item))) eqn:HI; simpl.
  - apply has_items_true in HI.
    destruct (String.eqb (Type_ item) arrayTag) eqn:Hty.
    + apply String.eqb_eq in Hty. apply R_array; try assumption.
      apply Forall2_resolves, IHitems.
    + apply String.eqb_neq in Hty.
      apply R_map with (List.map getValue (Items item)); try assumption.
      * apply Forall2_resolves, IHitems.
      * intros k. rewrite lookup_children, combine_keys_values. reflexivity.
  - apply has_items_false in HI. now apply R_empty.
Qed.

(** C1.  The resolver follows the six steps of the specification, the first
    that matches winning: [getValue item] is [v] exactly when the rules of
    [Resolves], each guarded by the failure of the steps before it, derive
    [v] for [item].  Step 1 yields the boolean parsed from the raw marker,
    step 2 the text, the parsed float64 or the parsed int64 by type tag,
    step 3 the resolution of the value sub-node, step 4 the resolutions of
    the children in order, step 5 the map written from the children, step 6
    the empty string. *)
Theorem getValue_precedence (item : Item) (v : value) :
  Resolves item v <-> getValue item = v.
Proof.
  split.
  - apply getValue_sound.
  - intros <-. apply getValue_complete.
Qed.

(** The sequence of an array node has the children's length and order. *)
Lemma getValue_array (item : Item) :
  Raw item = "" -> Text item = "" -> Value item = None ->
  Items item <> [] -> Type_ item = arrayTag ->
  exists vs, getValue item = VSlice vs /\
             length vs = length (Items item) /\
             forall n child, nth_error (Items item) n = Some child ->
                             nth_error vs n = Some (getValue child).
Proof.
  intros HR HT HV HI Hty. exists (List.map getValue (Items item)).
  split; [|split].
  - apply getValue_sound. apply R_array; try assumption.
    apply Forall2_resolves. apply Forall_forall. intros i _. apply getValue_complete.
  - apply List.length_map.
  - intros n child Hn. now apply List.map_nth_error.
Qed.

(** ** Map nodes *)

Lemma getValue_map_node (item : Item) :
  is_map_node item ->
  getValue item =
  VMap (fold_left (fun v i => <[getKey i := getValue i]> v) (Items item) ∅).
Proof.
  intros (HR & HT & HV & HI & Hty). rewrite getValue_unfold.
  apply nonempty_false in HR, HT. apply has_items_true in HI.
  apply String.eqb_neq in Hty. rewrite HR, HT, HV, HI, Hty. reflexivity.
Qed.

Lemma last_write_last {A : Type} (k : string) (x : A) (pre post : list (string * A)) :
  ~ In k (List.map fst post) ->
  last_write k (pre ++ (k, x) :: post)%list = Some x.
Proof.
  intros Hpost. rewrite last_write_app. simpl.
  apply last_write_None in Hpost. rewrite Hpost, String.eqb_refl. reflexivity.
Qed.

Lemma child_writes_split (item : Item) (pre : list Item) (child : Item) (post : list Item) :
  Items item = (pre ++ child :: post)%list ->
  child_writes item =
  (List.map (fun i => (getKey i, getValue i)) pre ++
   (getKey child, getValue child) :: List.map (fun i => (getKey i, getValue i)) post)%list.
Proof.
  intros E. unfold child_writes. rewrite E, List.map_app. reflexivity.
Qed.

(** In a map node the value under the key of a child is that child's, when
    no later child carries the same key. *)
Lemma map_node_last (item : Item) (pre : list Item) (child : Item) (post : list Item) :
  Items item = (pre ++ child :: post)%list ->
  ~ In (getKey child) (List.map getKey post) ->
  fold_left (fun v i => <[getKey i := getValue i]> v) (Items item)
            (∅ : gmap string value) !! getKey child
  = Some (getValue child).
Proof.
  intros E Hlast.
  rewrite lookup_children, (child_writes_split item pre child post E).
  apply last_write_last. rewrite List.map_map. exact Hlast.
Qed.

(** C4, as the code has it.  A node that reaches step 5 (empty raw marker,
    empty text, no value sub-node, children, a type tag other than the array
    marker) resolves to a Go map, which keeps no order: under every key it
    holds the value of the last child written under that key, its key set is
    the set of the children's key texts, and a child after which no other
    child carries the same key is the one whose value the map holds. *)
Theorem getValue_map (item : Item) :
  is_map_node item ->
  exists m : gmap string value,
    getValue item = VMap m /\
    (forall k, m !! k = last_write k (child_writes item)) /\
    dom m = list_to_set (child_keys item) /\
    (forall pre child post,
        Items item = (pre ++ child :: post)%list ->
        ~ In (getKey child) (List.map getKey post) ->
        m !! getKey child = Some (getValue child)).
Proof.
  intros Hmap. eexists. split; [apply getValue_map_node, Hmap|].
  split; [apply lookup_children|]. split.
  - apply set_eq. intros k.
    rewrite elem_of_dom, lookup_children, last_write_is_Some, child_writes_keys.
    rewrite elem_of_list_to_set, list_elem_of_In. reflexivity.
  - intros pre child post E Hlast. now apply (map_node_last item pre child post).
Qed.

(** The key "b" of three children keyed a, b, a holds the value of the second. *)
Lemma getValue_map_witness :
  exists m : gmap string value,
    getValue (node "" [entry_a; entry_b; entry_a]) = VMap m /\
    m !! "b" = Some (VString "2").
Proof.
  destruct (getValue_map (node "" [entry_a; entry_b; entry_a])) as (m & E & _ & _ & Hlast).
  - unfold is_map_node; simpl. repeat split; discriminate.
  - exists m. split; [exact E|].
    apply (Hlast [entry_a] entry_b [entry_a]); [reflexivity|].
    simpl. intros [H|[]]. discriminate.
Defined.

(** C4 as stated fails twice.  A node with children and no array tag that
    also carries literal text resolves to the text (step 2 comes first), not
    to a mapping; and the mapping of step 5 keeps no insertion order: the
    same children written in two different orders resolve to equal maps. *)
Lemma getValue_map_counterexample :
  (Items (mkItem "x" "" "" None None [entry_a]) <> [] /\
   Type_ (mkItem "x" "" "" None None [entry_a]) <> arrayTag /\
   getValue (mkItem "x" "" "" None None [entry_a]) = VString "x") /\
  (child_keys (node "" [entry_a; entry_b]) <> child_keys (node "" [entry_b; entry_a]) /\
   getValue (node "" [entry_a; entry_b]) = getValue (node "" [entry_b; entry_a])).
Proof.
  split; [split; [|split]|split].
  - discriminate.
  - discriminate.
  - reflexivity.
  - vm_compute. discriminate.
  - vm_compute. reflexivity.
Qed.

(** C10, as the code has it.  In a node that reaches step 5, a child without
    a key sub-node is written under the empty key, so the map has an entry
    under the empty key as soon as one child lacks its key; that entry holds
    the value of the last child whose key text is empty, be it a child
    without a key sub-node or one whose key sub-node has no text. *)
Theorem getValue_keyless_children (item : Item) :
  is_map_node item ->
  exists m : gmap string value,
    getValue item = VMap m /\
    (forall child, In child (Items item) -> Key child = None ->
                   In ("", getValue child) (child_writes item) /\ is_Some (m !! "")) /\
    (forall pre child post,
        Items item = (pre ++ child :: post)%list ->
        getKey child = "" ->
        Forall (fun c => getKey c <> "") post ->
        m !! "" = Some (getValue child)).
Proof.
  intros Hmap. eexists. split; [apply getValue_map_node, Hmap|]. split.
  - intros child HIn HK.
    assert (Hw : In ("", getValue child) (child_writes item)).
    { unfold child_writes. apply in_map_iff. exists child. split; [|exact HIn].
      unfold getKey. rewrite HK. reflexivity. }
    split; [exact Hw|].
    rewrite lookup_children. apply last_write_is_Some. apply in_map_iff.
    exists ("", getValue child). split; [reflexivity|exact Hw].
  - intros pre child post EI Hk Hpost. rewrite <- Hk.
    apply (map_node_last item pre child post EI).
    rewrite Hk. intros HIn. apply in_map_iff in HIn. destruct HIn as (c & Hc & HcIn).
    rewrite Forall_forall in Hpost. apply (Hpost c).
    + apply list_elem_of_In. exact HcIn.
    + exact Hc.
Qed.

(** Two children without a key around one with a key: the entry under the
    empty key holds the value of the second. *)
Lemma getValue_keyless_children_witness :
  exists m : gmap string value,
    getValue (node "" [keyless (leaf "1" "xsd:string"); entry_a;
                       keyless (leaf "2" "xsd:string")]) = VMap m /\
    m !! "" = Some (VString "2").
Proof.
  destruct (getValue_keyless_children
              (node "" [keyless (leaf "1" "xsd:string"); entry_a;
                        keyless (leaf "2" "xsd:string")]))
    as (m & E & _ & Hlast).
  - unfold is_map_node; simpl. repeat split; discriminate.
  - exists m. split; [exact E|].
    apply (Hlast [keyless (leaf "1" "xsd:string"); entry_a]
                 (keyless (leaf "2" "xsd:string")) []);
      [reflexivity|reflexivity|constructor].
Defined.

(** C10 as stated fails when a child whose key sub-node has an empty text
    follows the children without a key sub-node: the two children without a
    key collapse into the entry under the empty key, but the entry holds the
    value of the later child, which has a key sub-node. *)
Lemma getValue_keyless_children_counterexample :
  Key (keyless (leaf "1" "xsd:string")) = None /\
  Key (keyless (leaf "2" "xsd:string")) = None /\
  Key (entry "" (leaf "3" "xsd:string")) <> None /\
  getValue (node "" [keyless (leaf "1" "xsd:string"); keyless (leaf "2" "xsd:string");
                     entry "" (leaf "3" "xsd:string")])
  = VMap {[ "" := VString "3" ]} /\
  getValue (keyless (leaf "2" "xsd:string")) = VString "2".
Proof.
  split; [reflexivity|]. split; [reflexivity|]. split; [discriminate|].
  split; [vm_compute|]; reflexivity.
Qed.

(** ** Scalars: the parsers' errors are dropped *)

Lemma ParseBool_error (s : string) :
  snd (ParseBool s) <> None -> fst (ParseBool s) = false.
Proof.
  unfold ParseBool.
  destruct (existsb (String.eqb s) ["1"; "t"; "T"; "true"; "TRUE"; "True"]).
  - cbn [fst snd]. congruence.
  - intros _.
    now destruct (existsb (String.eqb s) ["0"; "f"; "F"; "false"; "FALSE"; "False"]).
Qed.

Lemma ParseInt_syntax (s : string) :
  snd (ParseInt s) = Some ErrSyntax -> fst (ParseInt s) = 0.
Proof.
  unfold ParseInt. destruct s as [|c0 rest]; [reflexivity|].
  destruct (ParseUint _) as [un [[|]|]]; cbv zeta; [reflexivity| |];
    repeat match goal with |- context [if ?b then _ else _] => destruct b end;
    simpl; congruence.
Qed.

Lemma ParseInt_range (s : string) :
  snd (ParseInt s) = Some ErrRange ->
  fst (ParseInt s) = 2 ^ 63 - 1 \/ fst (ParseInt s) = - 2 ^ 63.
Proof.
  unfold ParseInt. destruct s as [|c0 rest]; [discriminate|].
  destruct (ParseUint _) as [un [[|]|]]; cbv zeta; [discriminate| |];
    destruct (negb (Ascii.eqb c0 "-") && (2 ^ (64 - 1) <=? un)); simpl; auto;
    destruct (Ascii.eqb c0 "-" && (2 ^ (64 - 1) <? un)); simpl; auto;
    discriminate.
Qed.

Lemma ParseFloat_syntax (s : string) :
  snd (ParseFloat s) = Some ErrSyntax -> fst (ParseFloat s) = S754_zero false.
Proof.
  unfold ParseFloat, atof64.
  destruct (special s) as [[val n]|].
  - destruct (negb (Nat.eqb n (String.length s))); simpl; [reflexivity|discriminate].
  - destruct (readFloat s) as [r|]; [|reflexivity].
    destruct (is_inf _); destruct (negb (Nat.eqb (r_n r) (String.length s)));
      simpl; try reflexivity; discriminate.
Qed.

Lemma ParseFloat_range (s : string) :
  snd (ParseFloat s) = Some ErrRange ->
  exists sign, fst (ParseFloat s) = S754_infinity sign.
Proof.
  unfold ParseFloat, atof64.
  destruct (special s) as [[val n]|].
  - destruct (negb (Nat.eqb n (String.length s))); simpl; discriminate.
  - destruct (readFloat s) as [r|]; [|discriminate].
    destruct (is_inf _) eqn:Einf;
      destruct (negb (Nat.eqb (r_n r) (String.length s))); simpl; try discriminate.
    intros _. destruct (round_float64 _ _ _ _) as [| sign | |]; try discriminate.
    now exists sign.
Qed.




(** ** Termination *)

Lemma getValue_fuel_S (fuel : nat) (item : Item) :
  getValue_fuel (S fuel) item =
  if nonempty (Raw item) then Some (VBool (fst (ParseBool (Raw item))))
  else if nonempty (Text item) then
    if String.eqb (Type_ item) "xsd:string" then Some (VString (Text item))
    else if String.eqb (Type_ item) "xsd:float" then Some (VFloat (fst (ParseFloat (Text item))))
    else if String.eqb (Type_ item) "xsd:int" then Some (VInt (fst (ParseInt (Text item))))
    else Some (VString (Text item))
  else
    match Value item with
    | Some v => getValue_fuel fuel v
    | None =>
      if Nat.ltb 0 (length (Items item)) && String.eqb (Type_ item) arrayTag then
        option_map VSlice
          (fold_left (fun acc i =>
                        match acc, getValue_fuel fuel i with
                        | Some v, Some x => Some (v ++ [x])%list
                        | _, _ => None
                        end) (Items item) (Some []))
      else if Nat.ltb 0 (length (Items item)) then
        option_map VMap
          (fold_left (fun acc i =>
                        match acc, getValue_fuel fuel i with
                        | Some v, Some x => Some (<[getKey i := x]> v)
                        | _, _ => None
                        end) (Items item) (Some ∅))
      else Some (VString "")
    end.
Proof. reflexivity. Qed.

Lemma depth_unfold (item : Item) :
  depth item =
  S (Nat.max (match Value item with Some v => depth v | None => O end)
             (fold_right (fun i d => Nat.max (depth i) d) O (Items item))).
Proof. destruct item; reflexivity. Qed.

Lemma depth_child (items : list Item) (i : Item) :
  In i items -> (depth i <= fold_right (fun i d => Nat.max (depth i) d) O items)%nat.
Proof.
  induction items as [|j rest IH]; simpl; [tauto|].
  intros [->|H]; [lia|]. specialize (IH H). lia.
Qed.

Lemma fuel_slice (fuel : nat) (items : list Item) (acc : list value) :
  Forall (fun i => getValue_fuel fuel i = Some (getValue i)) items ->
  fold_left (fun acc i =>
               match acc, getValue_fuel fuel i with
               | Some v, Some x => Some (v ++ [x])%list
               | _, _ => None
               end) items (Some acc)
  = Some (acc ++ List.map getValue items)%list.
Proof.
  intros HF. revert acc. induction HF as [|i rest Hi _ IH]; intros acc; simpl.
  - now rewrite List.app_nil_r.
  - rewrite Hi, IH, <- List.app_assoc. reflexivity.
Qed.

Lemma fuel_map (fuel : nat) (items : list Item) (acc : gmap string value) :
  Forall (fun i => getValue_fuel fuel i = Some (getValue i)) items ->
  fold_left (fun acc i =>
               match acc, getValue_fuel fuel i with
               | Some v, Some x => Some (<[getKey i := x]> v)
               | _, _ => None
               end) items (Some acc)
  = Some (fold_left (fun v i => <[getKey i := getValue i]> v) items acc).
Proof.
  intros HF. revert acc. induction HF as [|i rest Hi _ IH]; intros acc; simpl.
  - reflexivity.
  - rewrite Hi, IH. reflexivity.
Qed.

Lemma getValue_fuel_enough (item : Item) :
  forall k : nat, getValue_fuel (depth item + k) item = Some (getValue item).
Proof.
  induction item as [item IHv IHitems] using Item_ind'.
  intros k. rewrite depth_unfold. cbn [Nat.add]. rewrite getValue_fuel_S, getValue_unfold.
  destruct (nonempty (Raw item)); [reflexivity|].
  destruct (nonempty (Text item)).
  { repeat match goal with |- context [if ?b then _ else _] => destruct b end; reflexivity. }
  set (di := fold_right (fun i d => Nat.max (depth i) d) O (Items item)).
  assert (Hchildren : forall dv,
    Forall (fun i => getValue_fuel (Nat.max dv di + k) i = Some (getValue i)) (Items item)).
  { intros dv. apply Forall_forall. intros i Hi. apply list_elem_of_In in Hi.
    pose proof (depth_child _ _ Hi) as Hle. fold di in Hle.
    rewrite Forall_forall in IHitems.
    replace (Nat.max dv di + k)%nat with (depth i + (Nat.max dv di + k - depth i))%nat by lia.
    apply IHitems. apply list_elem_of_In. exact Hi. }
  destruct (Value item) as [sub|] eqn:HV.
  - replace (Nat.max (depth sub) di + k)%nat
      with (depth sub + (Nat.max (depth sub) di + k - depth sub))%nat by lia.
    apply IHv. reflexivity.
  - destruct (Nat.ltb 0 (length (Items item)) && String.eqb (Type_ item) arrayTag).
    + rewrite (fuel_slice _ _ [] (Hchildren O)). reflexivity.
    + destruct (Nat.ltb 0 (length (Items item))); [|reflexivity].
      rewrite (fuel_map _ _ ∅ (Hchildren O)). reflexivity.
Qed.

(** C8.  The resolver terminates on every item tree: run with the recursion
    left general, it returns once its fuel covers the depth of the tree
    along the value sub-nodes and the children, which are the only nodes it
    descends into, and it returns what the structural [getValue] returns;
    the result is a bool, a string, a float64, an int64, a slice or a map. *)
Theorem getValue_total (item : Item) (k : nat) :
  getValue_fuel (depth item + k) item = Some (getValue item) /\
  In (kind_of (getValue item)) [KBool; KString; KFloat64; KInt64; KSlice; KMap].
Proof.
  split; [apply getValue_fuel_enough|].
  destruct (getValue item); simpl; tauto.
Qed.

(* ===================================================================== *)
(** * The pipeline of an operation                                         *)
(* ===================================================================== *)

Lemma awaitFlood_run (w : World) :
  awaitFlood w =
  (Returns tt,
   mkWorld (ready_at w) (floodTime w) (network w)
           (trace w ++ [(clock w, EvLock);
                        (clock w, EvSleep (time_Sub (floodTime w) (clock w)));
                        (ready_at w, EvUnlock)])).
Proof. unfold ready_at. run_go. reflexivity. Qed.

Lemma ready_at_deadline (w : World) :
  floodTime w - clock w <= maxDuration -> floodTime w <= ready_at w.
Proof.
  unfold ready_at, time_Sub, minDuration, maxDuration. lia.
Qed.

Lemma ready_at_clock (w : World) : clock w <= ready_at w.
Proof. unfold ready_at. lia. Qed.

Lemma do_fault {T : Type} (decode : value -> string + T) (req : Request) (w : World)
      (elapsed : N) (api auth : option KasResponse) (f : Fault) (rest : list Reply) :
  network w = Replied elapsed (mkResponse StatusOK (Envelope api auth (Some f))) :: rest ->
  do decode req w =
  (Returns (inl (FaultError f)),
   mkWorld (ready_at w + Z.of_N elapsed) (floodTime w) rest
           (trace w ++ [(clock w, EvLock);
                        (clock w, EvSleep (time_Sub (floodTime w) (clock w)));
                        (ready_at w, EvUnlock);
                        (ready_at w, EvHTTPDo req);
                        (ready_at w + Z.of_N elapsed, EvDecodeXML)])).
Proof.
  intros Hnet. destruct w as [clk ft net tr]. cbn in Hnet. subst net.
  unfold ready_at. run_go. reflexivity.
Qed.

(** The login adds transport and decoder events only and leaves the deadline
    alone. *)
Lemma Authentication_quiet (c : Identifier) (ctx : Context) (w w1 : World)
      (r : Result (error + string)) :
  Authentication c ctx w = (r, w1) ->
  floodTime w1 = floodTime w /\
  exists evs, trace w1 = (trace w ++ evs)%list /\
              Forall (fun e => resolver_or_mapper e = false) evs.
Proof.
  intros H. destruct w as [clk ft net tr]. unfold Authentication in H.
  destruct (nonempty (getToken ctx)).
  { inversion H; subst. split; [reflexivity|]. exists []. cbn.
    split; [now rewrite List.app_nil_r|constructor]. }
  destruct net as [|[|elapsed [code body]] rest];
    [| |destruct (negb (code =? StatusOK)) eqn:Hcode;
        [|destruct body as [| |api auth [f|]];
          [| | |destruct auth as [[[item|]]|]]]];
    repeat (unfold HTTPClient_Do, decodeXML_auth, emit, bind, ret, panic in H;
            cbn -[Z.add Z.of_N] in H; try rewrite Hcode in H);
    rewrite <- ?List.app_assoc in H; inversion H; subst; cbn;
    (split; [reflexivity|]); eexists; (split; [reflexivity|]);
    repeat constructor.
Qed.

(** ** The session manager *)

Lemma Authentication_login_trace (c : Identifier) (ctx : Context) (w : World) :
  getToken ctx = "" ->
  network (snd (Authentication c ctx w)) = List.tl (network w) /\
  exists tail,
    trace (snd (Authentication c ctx w)) =
    (trace w ++ (clock w, EvHTTPDo (loginRequest c)) :: tail)%list /\
    Forall (fun e => is_HTTPDo e = false) tail.
Proof.
  intros Htok. apply nonempty_false in Htok.
  destruct w as [clk ft net tr]. unfold Authentication. rewrite Htok.
  destruct net as [|[|elapsed [code body]] rest];
    [| |destruct (negb (code =? StatusOK)) eqn:Hcode;
        [|destruct body as [| |api auth [f|]];
          [| | |destruct auth as [[[item|]]|]]]];
    repeat (unfold HTTPClient_Do, decodeXML_auth, emit, bind, ret, panic;
            cbn -[Z.add Z.of_N loginRequest]; try rewrite Hcode);
    rewrite <- ?List.app_assoc; cbn -[Z.add Z.of_N loginRequest];
    (split; [reflexivity|]); eexists; (split; [reflexivity|]);
    repeat constructor.
Qed.

Lemma Authentication_reply (c : Identifier) (ctx : Context) (w : World)
      (elapsed : N) (api auth : option KasResponse) (fault : option Fault)
      (rest : list Reply) :
  getToken ctx = "" ->
  network w = Replied elapsed (mkResponse StatusOK (Envelope api auth fault)) :: rest ->
  fst (Authentication c ctx w) =
  match fault with
  | Some f => Returns (inl (FaultError f))
  | None =>
    match auth with
    | None => Panics
    | Some kr =>
      match Return kr with
      | None => Panics
      | Some item => Returns (inr (Text item))
      end
    end
  end.
Proof.
  intros Htok Hnet. apply nonempty_false in Htok.
  destruct w as [clk ft net tr]. cbn in Hnet. subst net.
  unfold Authentication. rewrite Htok.
  destruct fault as [f|]; [|destruct auth as [[[item|]]|]]; run_go; reflexivity.
Qed.

(** The text of a node with text and without nil marker is what the
    resolver yields for the node exactly when its type tag is neither the
    float tag nor the integer tag. *)
Lemma text_is_resolved (item : Item) :
  Raw item = "" -> Text item <> "" ->
  (getValue item = VString (Text item) <->
   Type_ item <> "xsd:float" /\ Type_ item <> "xsd:int").
Proof.
  intros HR HT. split.
  - rewrite getValue_unfold.
    apply nonempty_false in HR. apply nonempty_true in HT. rewrite HR, HT.
    destruct (String.eqb_spec (Type_ item) "xsd:string") as [Hs|_].
    + intros _. rewrite Hs. split; discriminate.
    + destruct (String.eqb_spec (Type_ item) "xsd:float") as [_|Hf]; [discriminate|].
      destruct (String.eqb_spec (Type_ item) "xsd:int") as [_|Hi]; [discriminate|].
      now intros _.
  - intros (Hf & Hi). apply getValue_sound. now apply R_text.
Qed.

(** The events a login adds after the call of the transport: none of them
    is another call of the transport, none a call of the resolver or of the
    mapper. *)
Lemma Authentication_login_events (c : Identifier) (ctx : Context) (w : World) :
  getToken ctx = "" ->
  exists tail,
    trace (snd (Authentication c ctx w)) =
    (trace w ++ (clock w, EvHTTPDo (loginRequest c)) :: tail)%list /\
    Forall (fun e => is_HTTPDo e = false) tail /\
    Forall (fun e => resolver_or_mapper e = false) tail.
Proof.
  intros Htok. destruct (Authentication_login_trace c ctx w Htok) as (_ & tail & Htr & Hdo).
  exists tail. split; [exact Htr|]. split; [exact Hdo|].
  destruct (Authentication_quiet c ctx w (snd (Authentication c ctx w))
              (fst (Authentication c ctx w))) as (_ & evs & Hevs & Hquiet).
  { now destruct (Authentication c ctx w). }
  rewrite Hevs in Htr. apply List.app_inv_head in Htr. subst evs.
  now inversion Hquiet.
Qed.

(** C5.  With a token in the context, [Authentication] returns it and does
    nothing else: the world, its network and its trace are untouched.
    Without one it makes exactly one call of the transport, the login: a
    POST to the authentication endpoint with the login, the password as
    auth data, auth type "plain", a session lifetime of 300 and the
    lifetime update "Y".  When the reply is an envelope with a return node
    it returns the text of that node as it stands: the resolver is not run
    (no event of the login is a call of the resolver or of the mapper), and
    for a node with text and without nil marker the text returned is what
    the resolver would yield exactly when the type tag of the node is
    neither the float tag nor the integer tag.  When the reply is an
    envelope with a Fault it returns the Fault as its error. *)
Theorem Authentication_token (c : Identifier) (ctx : Context) (w : World) :
  (getToken ctx <> "" ->
     Authentication c ctx w = (Returns (inr (getToken ctx)), w)) /\
  (getToken ctx = "" ->
     network (snd (Authentication c ctx w)) = List.tl (network w) /\
     (exists tail,
         trace (snd (Authentication c ctx w)) =
         (trace w ++
          (clock w,
           EvHTTPDo (mkRequest "POST" (idEndpoint c)
                       (AuthPayload (mkAuthRequest (login c) (password c)
                                                   "plain" 300 "Y")))) :: tail)%list /\
         Forall (fun e => is_HTTPDo e = false) tail /\
         Forall (fun e => resolver_or_mapper e = false) tail) /\
     (forall elapsed api item rest,
         network w = Replied elapsed
                       (mkResponse StatusOK
                          (Envelope api (Some (mkKasResponse (Some item))) None)) :: rest ->
         fst (Authentication c ctx w) = Returns (inr (Text item)) /\
         (Raw item = "" -> Text item <> "" ->
          (getValue item = VString (Text item) <->
           Type_ item <> "xsd:float" /\ Type_ item <> "xsd:int"))) /\
     (forall elapsed api auth f rest,
         network w = Replied elapsed
                       (mkResponse StatusOK (Envelope api auth (Some f))) :: rest ->
         fst (Authentication c ctx w) = Returns (inl (FaultError f)))).
Proof.
  split.
  - intros Htok. apply nonempty_true in Htok. unfold Authentication. now rewrite Htok.
  - intros Htok. destruct (Authentication_login_trace c ctx w Htok) as (Hnet & _).
    split; [exact Hnet|]. split; [exact (Authentication_login_events c ctx w Htok)|]. split.
    + intros elapsed api item rest Hw. split.
      * now rewrite (Authentication_reply c ctx w _ _ _ _ _ Htok Hw).
      * apply text_is_resolved.
    + intros elapsed api auth f rest Hw.
      now rewrite (Authentication_reply c ctx w _ _ _ _ _ Htok Hw).
Qed.

Section Operations.

Variable unrepresentable : float64 -> Z.
Variable Decode_Get : value -> string + GetDNSSettingsAPIResponse.
Variable Decode_Add : value -> string + AddDNSSettingsAPIResponse.
Variable Decode_Delete : value -> string + DeleteDNSSettingsAPIResponse.

(** C2.  When a response decodes to an envelope whose body holds a Fault,
    be it the reply to the request of the operation or to its login, each of
    the four DNS operations returns that Fault as its error, with its code,
    message and actor; from its first statement to its return the operation
    has called neither the value resolver nor the result mapper, and it has
    left the flood deadline as it was. *)
Theorem fault_short_circuits (c : Client) (ctx : Context) (w : World) (f : Fault) :
  answers_with_fault c ctx w f ->
  (forall zone recordID,
      fails_with f w (GetDNSSettings unrepresentable Decode_Get c ctx zone recordID w)) /\
  (forall record,
      fails_with f w (AddDNSSettings unrepresentable Decode_Add c ctx record w)) /\
  (forall record,
      fails_with f w (UpdateDNSSettings unrepresentable Decode_Add c ctx record w)) /\
  (forall recordID,
      fails_with f w (DeleteDNSSettings unrepresentable Decode_Delete c ctx recordID w)).
Proof.
  intros [(Htok & elapsed & api & auth & rest & Hnet)
         |(credential & w1 & elapsed & api & auth & rest & Hauth & Hnet)].
  - pose proof (Authentication_reply (identifier c) ctx w _ _ _ _ _ Htok Hnet) as Hres.
    destruct (Authentication (identifier c) ctx w) as [res w1] eqn:Hauth.
    cbn in Hres. subst res.
    destruct (Authentication_quiet _ _ _ _ _ Hauth) as (Hft & evs & Htr & Hquiet).
    repeat split; intros;
      unfold GetDNSSettings, AddDNSSettings, UpdateDNSSettings, DeleteDNSSettings;
      unfold bind at 1; rewrite Hauth; cbn;
      try reflexivity; try exact Hft; exists evs; split; assumption.
  - destruct (Authentication_quiet _ _ _ _ _ Hauth) as (Hft & evs & Htr & Hquiet).
    assert (Hquiet' : forall req : Request,
      Forall (fun e => resolver_or_mapper e = false)
             (evs ++ [(clock w1, EvLock);
                      (clock w1, EvSleep (time_Sub (floodTime w1) (clock w1)));
                      (ready_at w1, EvUnlock);
                      (ready_at w1, EvHTTPDo req);
                      (ready_at w1 + Z.of_N elapsed, EvDecodeXML)])).
    { intros req. apply Forall_app. split; [exact Hquiet|]. repeat constructor. }
    repeat split; intros;
      unfold GetDNSSettings, AddDNSSettings, UpdateDNSSettings, DeleteDNSSettings;
      unfold bind at 1; rewrite Hauth;
      unfold bind at 1; rewrite (do_fault _ _ w1 _ _ _ _ _ Hnet);
      cbn -[Z.add Z.max time_Sub Z.of_N ready_at];
      try reflexivity; try exact Hft;
      eexists; (split; [rewrite Htr, <- List.app_assoc; reflexivity|apply Hquiet']).
Qed.

(** ** A success body without its return node *)

Lemma do_no_fault {T : Type} (decode : value -> string + T) (req : Request) (w : World)
      (elapsed : N) (api auth : option KasResponse) (rest : list Reply) :
  network w = Replied elapsed (mkResponse StatusOK (Envelope api auth None)) :: rest ->
  fst (do decode req w) =
  match api with
  | None => Panics
  | Some kr =>
    match Return kr with
    | None => Panics
    | Some item =>
      match decode (getValue item) with
      | inl msg => Returns (inl (StructDecodeError msg))
      | inr g => Returns (inr g)
      end
    end
  end.
Proof.
  intros Hnet. destruct w as [clk ft net tr]. cbn in Hnet. subst net.
  destruct api as [[[item|]]|]; run_go; try reflexivity.
  destruct (decode (getValue item)); reflexivity.
Qed.

(** C9.  When the response decodes to an envelope without a Fault, [do]
    dereferences the return node of the success body without a check: it
    panics, instead of returning an error, exactly when the envelope has no
    KasApiResponse or the KasApiResponse has no return node; so does each of
    the four operations. *)
Theorem do_nil_dereference (c : Client) (ctx : Context) (w w1 : World)
        (credential : string) (elapsed : N) (api auth : option KasResponse)
        (rest : list Reply) :
  Authentication (identifier c) ctx w = (Returns (inr credential), w1) ->
  network w1 = Replied elapsed (mkResponse StatusOK (Envelope api auth None)) :: rest ->
  (forall (T : Type) (decode : value -> string + T) (req : Request),
      fst (do decode req w1) = Panics <->
      api = None \/ exists kr, api = Some kr /\ Return kr = None) /\
  (api = None \/ (exists kr, api = Some kr /\ Return kr = None) ->
   (forall zone recordID,
       fst (GetDNSSettings unrepresentable Decode_Get c ctx zone recordID w) = Panics) /\
   (forall record,
       fst (AddDNSSettings unrepresentable Decode_Add c ctx record w) = Panics) /\
   (forall record,
       fst (UpdateDNSSettings unrepresentable Decode_Add c ctx record w) = Panics) /\
   (forall recordID,
       fst (DeleteDNSSettings unrepresentable Decode_Delete c ctx recordID w) = Panics)).
Proof.
  intros Hauth Hnet.
  assert (Hdo : forall (T : Type) (decode : value -> string + T) (req : Request),
             fst (do decode req w1) = Panics <->
             api = None \/ exists kr, api = Some kr /\ Return kr = None).
  { intros T decode req. rewrite (do_no_fault decode req w1 _ _ _ _ Hnet).
    destruct api as [[[item|]]|]; cbn.
    - split.
      + destruct (decode (getValue item)); discriminate.
      + intros [H|(kr & H & HR)]; [discriminate|]. inversion H; subst. discriminate.
    - split; [|reflexivity]. intros _. right. eexists. split; reflexivity.
    - split; [|reflexivity]. intros _. now left. }
  split; [exact Hdo|]. intros Hnil.
  repeat split; intros;
    unfold GetDNSSettings, AddDNSSettings, UpdateDNSSettings, DeleteDNSSettings;
    unfold bind at 1; rewrite Hauth; unfold bind at 1;
    match goal with
    | |- context [do ?d ?r w1] =>
      pose proof (proj2 (Hdo _ d r) Hnil) as Hp;
      destruct (do d r w1) as [res w2]; cbn in Hp; subst res; reflexivity
    end.
Qed.

(** ** The wait before the request *)

Lemma do_trace {T : Type} (decode : value -> string + T) (req : Request) (w : World) :
  floodTime (snd (do decode req w)) = floodTime w /\
  exists tail,
    trace (snd (do decode req w)) =
    (trace w ++ [(clock w, EvLock);
                 (clock w, EvSleep (time_Sub (floodTime w) (clock w)));
                 (ready_at w, EvUnlock);
                 (ready_at w, EvHTTPDo req)] ++ tail)%list /\
    Forall (fun e => is_HTTPDo e = false) tail.
Proof.
  destruct w as [clk ft net tr]. unfold ready_at.
  destruct net as [|[|elapsed [code body]] rest];
    [| |destruct (negb (code =? StatusOK)) eqn:Hcode;
        [|destruct body as [| |api auth [f|]];
          [| | |destruct api as [[[item|]]|];
                [destruct (decode (getValue item)) eqn:Hdec| |]]]];
    unfold do, awaitFlood, call_getValue, call_Decode, decodeXML_api, HTTPClient_Do,
      time_Sleep, time_Until, time_Now, get_floodTime, advance, emit, bind, ret, panic;
    cbn -[Z.add Z.max time_Sub Z.of_N]; try rewrite Hcode;
    cbn -[Z.add Z.max time_Sub Z.of_N]; try rewrite Hdec;
    cbn -[Z.add Z.max time_Sub Z.of_N];
    rewrite <- ?List.app_assoc; cbn -[Z.add Z.max time_Sub Z.of_N];
    (split; [reflexivity|]); eexists; (split; [reflexivity|]);
    repeat constructor.
Qed.

Lemma updateFloodTime_run (delay : float64) (w : World) :
  updateFloodTime unrepresentable delay w =
  (Returns tt,
   mkWorld (clock w)
           (clock w + Duration_of_float64 unrepresentable (SFmul prec emax delay Second_f64))
           (network w)
           (trace w ++
            [(clock w, EvLock);
             (clock w, EvSetFloodTime
                         (clock w + Duration_of_float64 unrepresentable
                                      (SFmul prec emax delay Second_f64)));
             (clock w, EvUnlock)])).
Proof.
  unfold updateFloodTime, time_Now, set_floodTime, emit, bind, ret.
  cbn -[Z.add Duration_of_float64 SFmul]. rewrite <- !List.app_assoc. reflexivity.
Qed.

Lemma operation_waits {A T : Type} (decode : value -> string + T) (req : Request)
      (delay : T -> float64) (result : T -> A) (w1 : World) :
  waits_then_sends w1 req
    (snd ((r <- do decode req ;;
           match r with
           | inl err => ret (inl err)
           | inr g => updateFloodTime unrepresentable (delay g) ;; ret (inr (result g))
           end) w1)).
Proof.
  destruct (do_trace decode req w1) as (_ & tail & Htr & Hno).
  unfold bind at 1. destruct (do decode req w1) as [[[err|g]|] w2]; cbn in Htr.
  - exists tail. cbn. repeat split; try assumption.
    + apply ready_at_clock.
    + apply ready_at_deadline.
  - exists (tail ++ [(clock w2, EvLock);
                     (clock w2, EvSetFloodTime
                        (clock w2 + Duration_of_float64 unrepresentable
                                      (SFmul prec emax (delay g) Second_f64)));
                     (clock w2, EvUnlock)])%list.
    unfold bind at 1. rewrite updateFloodTime_run. cbn -[Duration_of_float64 SFmul].
    repeat split.
    + rewrite Htr, <- !List.app_assoc. reflexivity.
    + apply Forall_app. split; [exact Hno|repeat constructor].
    + apply ready_at_clock.
    + apply ready_at_deadline.
  - exists tail. cbn. repeat split; try assumption.
    + apply ready_at_clock.
    + apply ready_at_deadline.
Qed.

Lemma run_thread_clock (t : Thread) (w : World) :
  clock w <= clock (snd (run_thread unrepresentable t w)).
Proof.
  unfold run_thread. destruct (th_place t); cbn [snd].
  - rewrite awaitFlood_run. apply ready_at_clock.
  - cbn. lia.
  - rewrite updateFloodTime_run. cbn. lia.
  - lia.
Qed.

Lemma run_move_clock (a : Move) (sys : list Thread * World) :
  clock (snd sys) <= clock (snd (run_move unrepresentable a sys)).
Proof.
  destruct sys as [threads w]. destruct a as [d|i]; cbn -[run_thread].
  - lia.
  - destruct (threads !! i) as [t|]; cbn -[run_thread]; [|lia].
    pose proof (run_thread_clock t w) as H.
    destruct (run_thread unrepresentable t w). exact H.
Qed.

Lemma run_schedule_clock (schedule : list Move) :
  forall sys : list Thread * World,
    clock (snd sys) <= clock (snd (run_schedule unrepresentable schedule sys)).
Proof.
  induction schedule as [|a rest IH]; intros sys; cbn -[run_move]; [lia|].
  pose proof (run_move_clock a sys). specialize (IH (run_move unrepresentable a sys)).
  unfold run_schedule in IH. lia.
Qed.

Lemma await_step_deadline (threads : list Thread) (w : World) (i : nat) (t : Thread) :
  threads !! i = Some t -> th_place t = AtAwait ->
  floodTime w - clock w <= maxDuration ->
  floodTime w <= clock (snd (run_move unrepresentable (Run i) (threads, w))).
Proof.
  intros Hi Hplace Hw. cbn -[run_thread]. rewrite Hi. unfold run_thread. rewrite Hplace.
  cbn [snd]. rewrite awaitFlood_run. cbn. now apply ready_at_deadline.
Qed.


(** ** The flood deadline *)

Lemma binary_round_aux_sign (sx : bool) (mx ex : Z) (lx : location) :
  match binary_round_aux prec emax sx mx ex lx with
  | S754_zero s | S754_infinity s | S754_finite s _ _ => s = sx
  | S754_nan => True
  end.
Proof.
  unfold binary_round_aux.
  destruct (shr_fexp prec emax mx ex lx) as [mrs' e'].
  match goal with
  | |- context [shr_fexp ?p ?q ?m ?e ?l] => destruct (shr_fexp p q m e l) as [mrs'' e'']
  end.
  destruct (shr_m mrs''); [reflexivity| |exact I].
  destruct (Z.leb _ _); reflexivity.
Qed.

Lemma float64_trunc_positive (m : positive) (e z : Z) :
  float64_trunc (S754_finite false m e) = Some z -> 0 <= z.
Proof.
  cbn. intros H. inversion H; subst; clear H.
  destruct (0 <=? e) eqn:He.
  - apply Z.leb_le in He. apply Z.mul_nonneg_nonneg; [lia|]. now apply Z.pow_nonneg.
  - apply Z.leb_gt in He. apply Z.div_pos; [lia|]. apply Z.pow_pos_nonneg; lia.
Qed.

Lemma nonnegative_product (delay : float64) (z : Z) :
  nonnegative delay ->
  float64_trunc (SFmul prec emax delay Second_f64) = Some z ->
  0 <= z.
Proof.
  unfold nonnegative, SFleb, Second_f64.
  destruct delay as [s|s| |s m e]; cbn -[binary_round_aux float64_trunc prec emax].
  - intros _ H. cbn in H. inversion H. lia.
  - intros _ H. discriminate.
  - discriminate.
  - destruct s; [discriminate|]. intros _ H.
    match type of H with
    | float64_trunc (binary_round_aux ?p ?q ?sx ?mx ?ex ?lx) = _ =>
      pose proof (binary_round_aux_sign sx mx ex lx) as Hs;
      destruct (binary_round_aux p q sx mx ex lx) as [s'|s'| |s' m' e']
    end.
    + cbn in H. inversion H. lia.
    + discriminate.
    + discriminate.
    + cbn in Hs. subst s'. exact (float64_trunc_positive _ _ _ H).
Qed.

Lemma Duration_usable (delay : float64) :
  usable_delay delay ->
  0 <= Duration_of_float64 unrepresentable (SFmul prec emax delay Second_f64) <= maxDuration.
Proof.
  intros (Hpos & z & Hz & Hmin & Hmax). unfold Duration_of_float64. rewrite Hz.
  pose proof (nonnegative_product delay z Hpos Hz).
  destruct (Z.leb_spec minDuration z); [|lia].
  destruct (Z.leb_spec z maxDuration); [|lia].
  cbn. lia.
Qed.

Lemma deadlines_nondecreasing (calls : list (N * float64)) :
  forall w : World,
    floodTime w - clock w <= maxDuration ->
    Forall (fun call => usable_delay (snd call)) calls ->
    nondecreasing (floodTime w) (deadlines unrepresentable calls w).
Proof.
  induction calls as [|[elapsed delay] rest IH]; intros w Hw Hcalls; [exact I|].
  inversion Hcalls as [|? ? Hdelay Hrest]; subst. cbn in Hdelay.
  pose proof (Duration_usable delay Hdelay) as HD.
  pose proof (ready_at_deadline w Hw) as Hready.
  change (deadlines unrepresentable ((elapsed, delay) :: rest) w)
    with (floodTime (snd (updateFloodTime unrepresentable delay
                            (snd (advance (Z.of_N elapsed) (snd (awaitFlood w))))))
          :: deadlines unrepresentable rest
               (snd (updateFloodTime unrepresentable delay
                       (snd (advance (Z.of_N elapsed) (snd (awaitFlood w))))))).
  set (w3 := snd (updateFloodTime unrepresentable delay
                    (snd (advance (Z.of_N elapsed) (snd (awaitFlood w)))))).
  assert (Hclock : clock w3 = ready_at w + Z.of_N elapsed).
  { unfold w3. rewrite updateFloodTime_run, awaitFlood_run. reflexivity. }
  assert (Hflood : floodTime w3 =
                   ready_at w + Z.of_N elapsed +
                   Duration_of_float64 unrepresentable (SFmul prec emax delay Second_f64)).
  { unfold w3. rewrite updateFloodTime_run, awaitFlood_run. reflexivity. }
  cbn [nondecreasing]. split; [lia|].
  apply (IH w3); [lia|exact Hrest].
Qed.


End Operations.

(** ** Samples *)

(** [float64(time.Second)] is the float64 that 1000000000 parses to. *)
Lemma Second_f64_exact : fst (ParseFloat "1000000000") = Second_f64.
Proof. vm_compute. reflexivity. Qed.

Lemma usable_ten_seconds : usable_delay ten_seconds.
Proof.
  split; [reflexivity|]. exists (10 * Second). split; [reflexivity|].
  split; apply Z.leb_le; reflexivity.
Qed.

Lemma usable_half_a_second : usable_delay half_a_second.
Proof.
  split; [reflexivity|]. exists (Second / 2). split; [reflexivity|].
  split; apply Z.leb_le; reflexivity.
Qed.





(** A fault in reply to the request of a delete, and a fault in reply to the
    login of a list. *)
Lemma fault_short_circuits_witness :
  fails_with sample_fault (fresh_world [login_reply; fault_reply])
    (DeleteDNSSettings amd64_unrepresentable rejecting sample_client
                       (mkContext None) "7" (fresh_world [login_reply; fault_reply])) /\
  fails_with sample_fault (fresh_world [fault_reply])
    (GetDNSSettings amd64_unrepresentable rejecting sample_client
                    (mkContext None) "example.com" "" (fresh_world [fault_reply])).
Proof.
  split.
  - apply (fault_short_circuits amd64_unrepresentable rejecting rejecting rejecting
             sample_client (mkContext None) (fresh_world [login_reply; fault_reply])
             sample_fault).
    right. exists "session-token", (after_login [login_reply; fault_reply]), 7%N,
             None, None, []. split; reflexivity.
  - apply (fault_short_circuits amd64_unrepresentable rejecting rejecting rejecting
             sample_client (mkContext None) (fresh_world [fault_reply]) sample_fault).
    left. split; [reflexivity|]. exists 7%N, None, None, []. reflexivity.
Defined.

(** A delete answered by an envelope with an empty body. *)
Lemma do_nil_dereference_witness :
  fst (DeleteDNSSettings amd64_unrepresentable rejecting sample_client
                         (mkContext None) "7" (fresh_world [login_reply; empty_reply]))
  = Panics.
Proof.
  apply (do_nil_dereference amd64_unrepresentable rejecting rejecting rejecting
           sample_client (mkContext None) (fresh_world [login_reply; empty_reply])
           (after_login [login_reply; empty_reply]) "session-token"
           7%N None None []); [reflexivity|reflexivity|now left].
Defined.

(** A context with a token, and a login that is answered with a token. *)
Lemma Authentication_token_witness :
  Authentication (identifier sample_client) (mkContext (Some "token-a")) (fresh_world [])
  = (Returns (inr "token-a"), fresh_world []) /\
  fst (Authentication (identifier sample_client) (mkContext None)
                      (fresh_world [login_reply]))
  = Returns (inr "session-token").
Proof.
  split.
  - apply (Authentication_token (identifier sample_client) (mkContext (Some "token-a"))
                                (fresh_world [])).
    discriminate.
  - apply (proj1 (proj2 (proj2 (proj2 (Authentication_token
                                         (identifier sample_client) (mkContext None)
                                         (fresh_world [login_reply])) eq_refl)))
             5%N None (leaf "session-token" "xsd:string") [] eq_refl).
Defined.


(** The text the login returns is not the resolved value of the return
    node: with the token in a [value] sub-node the login returns the empty
    string where the resolver yields the token, and with a token of digits
    under the integer tag it returns the digits where the resolver yields
    the integer. *)
Lemma Authentication_token_counterexample :
  fst (Authentication (identifier sample_client) (mkContext None)
                      (fresh_world [login_reply_with wrapped_token]))
  = Returns (inr "") /\
  getValue wrapped_token = VString "session-token" /\
  fst (Authentication (identifier sample_client) (mkContext None)
                      (fresh_world [login_reply_with numbered_token]))
  = Returns (inr "007") /\
  getValue numbered_token = VInt 7.
Proof.
  split; [reflexivity|]. split; [reflexivity|]. split; [reflexivity|].
  vm_compute. reflexivity.
Qed.

(* ===================================================================== *)
(** * More on the operations                                               *)
(* ===================================================================== *)

Lemma do_success {T : Type} (decode : value -> string + T) (req : Request) (w : World)
      (elapsed : N) (auth : option KasResponse) (item : Item) (rest : list Reply) :
  network w = Replied elapsed
                (mkResponse StatusOK
                   (Envelope (Some (mkKasResponse (Some item))) auth None)) :: rest ->
  do decode req w =
  (match decode (getValue item) with
   | inl msg => Returns (inl (StructDecodeError msg))
   | inr g => Returns (inr g)
   end,
   mkWorld (ready_at w + Z.of_N elapsed) (floodTime w) rest
           (trace w ++ [(clock w, EvLock);
                        (clock w, EvSleep (time_Sub (floodTime w) (clock w)));
                        (ready_at w, EvUnlock);
                        (ready_at w, EvHTTPDo req);
                        (ready_at w + Z.of_N elapsed, EvDecodeXML);
                        (ready_at w + Z.of_N elapsed, EvGetValue (Some item));
                        (ready_at w + Z.of_N elapsed, EvMapDecode (getValue item))])).
Proof.
  intros Hnet. destruct w as [clk ft net tr]. cbn in Hnet. subst net.
  unfold ready_at. run_go. destruct (decode (getValue item)); reflexivity.
Qed.

Lemma Authentication_clock (c : Identifier) (ctx : Context) (w w1 : World)
      (r : Result (error + string)) :
  Authentication c ctx w = (r, w1) -> clock w <= clock w1.
Proof.
  intros H. destruct w as [clk ft net tr]. unfold Authentication in H.
  destruct (nonempty (getToken ctx)).
  { inversion H; subst. cbn. lia. }
  destruct net as [|[|elapsed [code body]] rest];
    [| |destruct (negb (code =? StatusOK)) eqn:Hcode;
        [|destruct body as [| |api auth [f|]];
          [| | |destruct auth as [[[item|]]|]]]];
    repeat (unfold HTTPClient_Do, decodeXML_auth, emit, bind, ret, panic in H;
            cbn -[Z.add Z.of_N] in H; try rewrite Hcode in H);
    inversion H; subst; cbn -[Z.of_N]; lia.
Qed.

Lemma list_params_built (zone recordID : string) :
  list_params zone recordID
    (if nonempty recordID
     then <["record_id" := recordID]> ({[ "zone_host" := zone ]} : gmap string string)
     else {[ "zone_host" := zone ]}).
Proof.
  unfold list_params, nonempty.
  destruct (String.eqb recordID "") eqn:E; cbn [negb].
  - split; [apply lookup_singleton_eq|]. split.
    + now apply lookup_singleton_ne.
    + intros k Hz _. now apply lookup_singleton_ne.
  - split; [|split].
    + rewrite lookup_insert_ne by discriminate. apply lookup_singleton_eq.
    + apply lookup_insert_eq.
    + intros k Hz Hr. rewrite lookup_insert_ne by congruence.
      now apply lookup_singleton_ne.
Qed.

Section MoreOperations.

Variable unrepresentable : float64 -> Z.
Variable Decode_Get : value -> string + GetDNSSettingsAPIResponse.
Variable Decode_Add : value -> string + AddDNSSettingsAPIResponse.
Variable Decode_Delete : value -> string + DeleteDNSSettingsAPIResponse.

(** The tail shared by the four operations, after the login. *)
Lemma operation_run {A T : Type} (decode : value -> string + T) (req : Request)
      (delay : T -> float64) (result : T -> A) (w1 : World) :
  (r <- do decode req ;;
   match r with
   | inl err => ret (inl err)
   | inr g => updateFloodTime unrepresentable (delay g) ;; ret (inr (result g))
   end) w1 =
  match do decode req w1 with
  | (Returns (inl err), w2) => (Returns (inl err), w2)
  | (Returns (inr g), w2) =>
    (Returns (inr (result g)), snd (updateFloodTime unrepresentable (delay g) w2))
  | (Panics, w2) => (Panics, w2)
  end.
Proof.
  unfold bind at 1. destruct (do decode req w1) as [[[err|g]|] w2]; reflexivity.
Qed.

Lemma operation_success {A T : Type} (decode : value -> string + T) (req : Request)
      (delay : T -> float64) (result : T -> A) (w1 : World)
      (elapsed : N) (auth : option KasResponse) (item : Item) (rest : list Reply) (g : T) :
  network w1 = Replied elapsed
                 (mkResponse StatusOK
                    (Envelope (Some (mkKasResponse (Some item))) auth None)) :: rest ->
  decode (getValue item) = inr g ->
  succeeds_with (result g)
    (Duration_of_float64 unrepresentable (SFmul prec emax (delay g) Second_f64))
    w1 req elapsed item rest
    ((r <- do decode req ;;
      match r with
      | inl err => ret (inl err)
      | inr g => updateFloodTime unrepresentable (delay g) ;; ret (inr (result g))
      end) w1).
Proof.
  intros Hnet Hdec.
  rewrite operation_run, (do_success decode req w1 _ _ _ _ Hnet), Hdec.
  rewrite updateFloodTime_run.
  unfold succeeds_with, success_events.
  cbn -[Duration_of_float64 SFmul Z.of_N ready_at time_Sub].
  rewrite <- !List.app_assoc. cbn -[Duration_of_float64 SFmul Z.of_N ready_at time_Sub].
  repeat split; reflexivity.
Qed.

Lemma operation_deadline {A T : Type} (decode : value -> string + T) (req : Request)
      (delay : T -> float64) (result : T -> A) :
  deadline_moves_only_on_success
    (r <- do decode req ;;
     match r with
     | inl err => ret (inl err)
     | inr g => updateFloodTime unrepresentable (delay g) ;; ret (inr (result g))
     end).
Proof.
  intros w1. rewrite operation_run.
  destruct (do_trace decode req w1) as (Hft & _).
  destruct (do decode req w1) as [[[err|g]|] w2]; cbn in Hft; cbn; auto.
Qed.

(** X1.  An operation whose request is answered, after a successful login,
    by an envelope with a return node that the mapper accepts returns the
    mapped result (the records, the return info string, the flag); it has
    run transport, decoder, resolver and mapper once each, in this order,
    and has then set the deadline to the instant of its return plus the
    duration of the delay the mapped response declares. *)
Theorem operation_succeeds (c : Client) (ctx : Context) (w w1 : World)
        (credential : string) (elapsed : N) (auth : option KasResponse)
        (item : Item) (rest : list Reply) :
  Authentication (identifier c) ctx w = (Returns (inr credential), w1) ->
  network w1 = Replied elapsed
                 (mkResponse StatusOK
                    (Envelope (Some (mkKasResponse (Some item))) auth None)) :: rest ->
  (forall zone recordID g,
      Decode_Get (getValue item) = inr g ->
      exists params,
        list_params zone recordID params /\
        succeeds_with (GetReturnInfo (GetResponse g))
          (Duration_of_float64 unrepresentable
             (SFmul prec emax (GetKasFloodDelay (GetResponse g)) Second_f64))
          w1 (session_request c credential "get_dns_settings" (ParamsMap params))
          elapsed item rest
          (GetDNSSettings unrepresentable Decode_Get c ctx zone recordID w)) /\
  (forall record g,
      Decode_Add (getValue item) = inr g ->
      succeeds_with (AddReturnInfo (AddResponse g))
        (Duration_of_float64 unrepresentable
           (SFmul prec emax (AddKasFloodDelay (AddResponse g)) Second_f64))
        w1 (session_request c credential "add_dns_settings" (ParamsRecord record))
        elapsed item rest
        (AddDNSSettings unrepresentable Decode_Add c ctx record w)) /\
  (forall record g,
      Decode_Add (getValue item) = inr g ->
      succeeds_with (AddReturnInfo (AddResponse g))
        (Duration_of_float64 unrepresentable
           (SFmul prec emax (AddKasFloodDelay (AddResponse g)) Second_f64))
        w1 (session_request c credential "update_dns_settings" (ParamsRecord record))
        elapsed item rest
        (UpdateDNSSettings unrepresentable Decode_Add c ctx record w)) /\
  (forall recordID g,
      Decode_Delete (getValue item) = inr g ->
      succeeds_with (DeleteReturnInfo (DeleteResponse g))
        (Duration_of_float64 unrepresentable
           (SFmul prec emax (DeleteKasFloodDelay (DeleteResponse g)) Second_f64))
        w1 (session_request c credential "delete_dns_settings"
                            (ParamsMap {[ "record_id" := recordID ]}))
        elapsed item rest
        (DeleteDNSSettings unrepresentable Decode_Delete c ctx recordID w)).
Proof.
  intros Hauth Hnet. split; [|split; [|split]].
  - intros zone recordID g Hdec. eexists. split; [apply list_params_built|].
    unfold GetDNSSettings. unfold bind at 1. rewrite Hauth.
    exact (operation_success Decode_Get _ _ _ w1 _ _ _ _ g Hnet Hdec).
  - intros record g Hdec. unfold AddDNSSettings. unfold bind at 1. rewrite Hauth.
    exact (operation_success Decode_Add _ _ _ w1 _ _ _ _ g Hnet Hdec).
  - intros record g Hdec. unfold UpdateDNSSettings. unfold bind at 1. rewrite Hauth.
    exact (operation_success Decode_Add _ _ _ w1 _ _ _ _ g Hnet Hdec).
  - intros recordID g Hdec. unfold DeleteDNSSettings. unfold bind at 1. rewrite Hauth.
    exact (operation_success Decode_Delete _ _ _ w1 _ _ _ _ g Hnet Hdec).
Qed.

Lemma login_run {A : Type} (c : Identifier) (ctx : Context)
      (k : string -> M (error + A)) (w : World) :
  (a <- Authentication c ctx ;;
   match a with
   | inl err => ret (inl err)
   | inr credential => k credential
   end) w =
  match Authentication c ctx w with
  | (Returns (inl err), w1) => (Returns (inl err), w1)
  | (Returns (inr credential), w1) => k credential w1
  | (Panics, w1) => (Panics, w1)
  end.
Proof.
  unfold bind at 1. destruct (Authentication c ctx w) as [[[err|credential]|] w1]; reflexivity.
Qed.

Lemma login_then_deadline {A : Type} (c : Client) (ctx : Context)
      (k : string -> M (error + A)) :
  (forall credential, deadline_moves_only_on_success (k credential)) ->
  deadline_moves_only_on_success
    (a <- Authentication (identifier c) ctx ;;
     match a with
     | inl err => ret (inl err)
     | inr credential => k credential
     end).
Proof.
  intros Hk w. rewrite login_run.
  destruct (Authentication (identifier c) ctx w) as [r w1] eqn:Hauth.
  destruct (Authentication_quiet _ _ _ _ _ Hauth) as (Hft & _).
  destruct r as [[err|credential]|]; cbn; try exact Hft.
  specialize (Hk credential w1). rewrite <- Hft.
  destruct (k credential w1) as [[[err|x]|] w2]; cbn in *; auto.
Qed.

(** X2.  The four operations move the flood deadline only when they return
    a result: an operation that returns an error, whichever, or panics
    leaves the deadline as it found it. *)
Theorem operations_keep_deadline_on_failure (c : Client) (ctx : Context) :
  (forall zone recordID,
      deadline_moves_only_on_success
        (GetDNSSettings unrepresentable Decode_Get c ctx zone recordID)) /\
  (forall record,
      deadline_moves_only_on_success
        (AddDNSSettings unrepresentable Decode_Add c ctx record)) /\
  (forall record,
      deadline_moves_only_on_success
        (UpdateDNSSettings unrepresentable Decode_Add c ctx record)) /\
  (forall recordID,
      deadline_moves_only_on_success
        (DeleteDNSSettings unrepresentable Decode_Delete c ctx recordID)).
Proof.
  repeat split; intros;
    unfold GetDNSSettings, AddDNSSettings, UpdateDNSSettings, DeleteDNSSettings;
    apply login_then_deadline; intros credential; apply operation_deadline.
Qed.

Lemma Authentication_with_token (c : Identifier) (ctx : Context) (w : World) :
  getToken ctx <> "" ->
  Authentication c ctx w = (Returns (inr (getToken ctx)), w).
Proof.
  intros Htok. apply nonempty_true in Htok. unfold Authentication. now rewrite Htok.
Qed.

(** X3.  With a token in its context an operation does not log in: the only
    call of the transport it makes is its own request, sent after the wait
    for the deadline, and that request carries the token of the context as
    session auth data. *)
Theorem token_is_reused (c : Client) (ctx : Context) (w : World) :
  getToken ctx <> "" ->
  (forall zone recordID, exists params,
      list_params zone recordID params /\
      waits_then_sends w
        (session_request c (getToken ctx) "get_dns_settings" (ParamsMap params))
        (snd (GetDNSSettings unrepresentable Decode_Get c ctx zone recordID w))) /\
  (forall record,
      waits_then_sends w
        (session_request c (getToken ctx) "add_dns_settings" (ParamsRecord record))
        (snd (AddDNSSettings unrepresentable Decode_Add c ctx record w))) /\
  (forall record,
      waits_then_sends w
        (session_request c (getToken ctx) "update_dns_settings" (ParamsRecord record))
        (snd (UpdateDNSSettings unrepresentable Decode_Add c ctx record w))) /\
  (forall recordID,
      waits_then_sends w
        (session_request c (getToken ctx) "delete_dns_settings"
                         (ParamsMap {[ "record_id" := recordID ]}))
        (snd (DeleteDNSSettings unrepresentable Decode_Delete c ctx recordID w))).
Proof.
  intros Htok.
  pose proof (Authentication_with_token (identifier c) ctx w Htok) as Hauth.
  split; [|split; [|split]].
  - intros zone recordID. eexists. split; [apply list_params_built|].
    unfold GetDNSSettings. rewrite login_run, Hauth. apply operation_waits.
  - intros record. unfold AddDNSSettings. rewrite login_run, Hauth. apply operation_waits.
  - intros record. unfold UpdateDNSSettings. rewrite login_run, Hauth. apply operation_waits.
  - intros recordID. unfold DeleteDNSSettings. rewrite login_run, Hauth.
    apply operation_waits.
Qed.

Lemma login_failure {A : Type} (c : Identifier) (ctx : Context)
      (k : string -> M (error + A)) (w : World) :
  ends_with_login (fst (Authentication c ctx w)) (snd (Authentication c ctx w))
    ((a <- Authentication c ctx ;;
      match a with
      | inl err => ret (inl err)
      | inr credential => k credential
      end) w).
Proof.
  rewrite login_run. destruct (Authentication c ctx w) as [[[err|credential]|] w1];
    cbn; auto.
Qed.

(** X4.  When its login fails, with an error or with a panic, an operation
    ends there: it returns the error of the login (or panics with it) in
    the world the login left, having sent no request of its own, consumed
    no further reply and taken no lock. *)
Theorem failed_login_ends_operation (c : Client) (ctx : Context) (w : World) :
  (forall zone recordID,
      ends_with_login (fst (Authentication (identifier c) ctx w))
                      (snd (Authentication (identifier c) ctx w))
        (GetDNSSettings unrepresentable Decode_Get c ctx zone recordID w)) /\
  (forall record,
      ends_with_login (fst (Authentication (identifier c) ctx w))
                      (snd (Authentication (identifier c) ctx w))
        (AddDNSSettings unrepresentable Decode_Add c ctx record w)) /\
  (forall record,
      ends_with_login (fst (Authentication (identifier c) ctx w))
                      (snd (Authentication (identifier c) ctx w))
        (UpdateDNSSettings unrepresentable Decode_Add c ctx record w)) /\
  (forall recordID,
      ends_with_login (fst (Authentication (identifier c) ctx w))
                      (snd (Authentication (identifier c) ctx w))
        (DeleteDNSSettings unrepresentable Decode_Delete c ctx recordID w)).
Proof.
  repeat split; intros;
    unfold GetDNSSettings, AddDNSSettings, UpdateDNSSettings, DeleteDNSSettings;
    apply login_failure.
Qed.

(** X5.  The login dereferences the return node of its reply without a
    check: answered by an envelope without Fault, [Authentication] panics
    exactly when the envelope has no KasAuthResponse or the KasAuthResponse
    has no return node (a KasApiResponse in its place does not help); the
    four operations panic with it, leaving the replies that follow
    unread. *)
Theorem login_nil_dereference (c : Client) (ctx : Context) (w : World)
        (elapsed : N) (api auth : option KasResponse) (rest : list Reply) :
  getToken ctx = "" ->
  network w = Replied elapsed (mkResponse StatusOK (Envelope api auth None)) :: rest ->
  (fst (Authentication (identifier c) ctx w) = Panics <->
   auth = None \/ exists kr, auth = Some kr /\ Return kr = None) /\
  (auth = None \/ (exists kr, auth = Some kr /\ Return kr = None) ->
   (forall zone recordID,
       fst (GetDNSSettings unrepresentable Decode_Get c ctx zone recordID w) = Panics /\
       network (snd (GetDNSSettings unrepresentable Decode_Get c ctx zone recordID w))
       = rest) /\
   (forall record,
       fst (AddDNSSettings unrepresentable Decode_Add c ctx record w) = Panics /\
       network (snd (AddDNSSettings unrepresentable Decode_Add c ctx record w)) = rest) /\
   (forall record,
       fst (UpdateDNSSettings unrepresentable Decode_Add c ctx record w) = Panics /\
       network (snd (UpdateDNSSettings unrepresentable Decode_Add c ctx record w)) = rest) /\
   (forall recordID,
       fst (DeleteDNSSettings unrepresentable Decode_Delete c ctx recordID w) = Panics /\
       network (snd (DeleteDNSSettings unrepresentable Decode_Delete c ctx recordID w))
       = rest)).
Proof.
  intros Htok Hnet.
  pose proof (Authentication_reply (identifier c) ctx w _ _ _ _ _ Htok Hnet) as Hres.
  destruct (Authentication_login_trace (identifier c) ctx w Htok) as (Hrest & _).
  rewrite Hnet in Hrest. cbn [List.tl] in Hrest.
  assert (Hiff : fst (Authentication (identifier c) ctx w) = Panics <->
                 auth = None \/ exists kr, auth = Some kr /\ Return kr = None).
  { rewrite Hres. destruct auth as [[[item|]]|]; cbn.
    - split; [discriminate|].
      intros [H|(kr & H & HR)]; [discriminate|]. inversion H; subst. discriminate.
    - split; [|reflexivity]. intros _. right. eexists. split; reflexivity.
    - split; [|reflexivity]. intros _. now left. }
  split; [exact Hiff|]. intros Hnil. apply Hiff in Hnil.
  destruct (Authentication (identifier c) ctx w) as [r w1] eqn:Hauth.
  cbn in Hnil, Hrest. subst r.
  repeat split; intros;
    unfold GetDNSSettings, AddDNSSettings, UpdateDNSSettings, DeleteDNSSettings;
    rewrite login_run, Hauth; cbn; try reflexivity; exact Hrest.
Qed.

(** X6.  Operations that follow one another are paced.  When an operation
    has succeeded and the delay its response declared is usable, the next
    operation on the client, whichever it is, sends its request (after its
    login) at an instant that is not before the deadline the first one
    set: the instant the first returned plus the declared delay. *)
Theorem next_operation_is_paced (A : Type) (x : A) (delay : float64) (w1 : World)
        (req : Request) (elapsed : N) (item : Item) (rest : list Reply)
        (out : Result (error + A) * World)
        (c : Client) (ctx : Context) (credential : string) (w2 : World) :
  succeeds_with x
    (Duration_of_float64 unrepresentable (SFmul prec emax delay Second_f64))
    w1 req elapsed item rest out ->
  usable_delay delay ->
  Authentication (identifier c) ctx (snd out) = (Returns (inr credential), w2) ->
  clock (snd out)
  + Duration_of_float64 unrepresentable (SFmul prec emax delay Second_f64)
  <= ready_at w2 /\
  (forall zone recordID, exists params,
      waits_then_sends w2
        (session_request c credential "get_dns_settings" (ParamsMap params))
        (snd (GetDNSSettings unrepresentable Decode_Get c ctx zone recordID (snd out)))) /\
  (forall record,
      waits_then_sends w2
        (session_request c credential "add_dns_settings" (ParamsRecord record))
        (snd (AddDNSSettings unrepresentable Decode_Add c ctx record (snd out)))) /\
  (forall record,
      waits_then_sends w2
        (session_request c credential "update_dns_settings" (ParamsRecord record))
        (snd (UpdateDNSSettings unrepresentable Decode_Add c ctx record (snd out)))) /\
  (forall recordID,
      waits_then_sends w2
        (session_request c credential "delete_dns_settings"
                         (ParamsMap {[ "record_id" := recordID ]}))
        (snd (DeleteDNSSettings unrepresentable Decode_Delete c ctx recordID (snd out)))).
Proof.
  intros (_ & _ & Hflood & _) Hdelay Hauth.
  pose proof (Duration_usable unrepresentable delay Hdelay) as HD.
  destruct (Authentication_quiet _ _ _ _ _ Hauth) as (Hft & _).
  pose proof (Authentication_clock _ _ _ _ _ Hauth) as Hclock.
  split.
  - rewrite <- Hflood, <- Hft. apply ready_at_deadline. lia.
  - split; [|split; [|split]].
    + intros zone recordID. eexists.
      unfold GetDNSSettings. rewrite login_run, Hauth. apply operation_waits.
    + intros record. unfold AddDNSSettings. rewrite login_run, Hauth.
      apply operation_waits.
    + intros record. unfold UpdateDNSSettings. rewrite login_run, Hauth.
      apply operation_waits.
    + intros recordID. unfold DeleteDNSSettings. rewrite login_run, Hauth.
      apply operation_waits.
Qed.

End MoreOperations.

(* ===================================================================== *)
(** * Integers under the int tag                                           *)
(* ===================================================================== *)

Lemma ParseUint_loop_nonneg (s : string) :
  forall n, 0 <= n -> 0 <= fst (ParseUint_loop s n).
Proof.
  induction s as [|c rest IH]; intros n Hn; cbn [ParseUint_loop]; [exact Hn|].
  destruct (if isDigit c then Some (ord c - ord "0")
            else if between "a" (lower c) "z" then Some (lower c - ord "a" + 10)
                 else None) as [d|]; [|cbn; lia].
  destruct (10 <=? d); [cbn; lia|].
  destruct (cutoff <=? n); [cbn; unfold maxVal; lia|].
  destruct ((wrap64 (wrap64 (n * 10) + d) <? wrap64 (n * 10))
            || (maxVal <? wrap64 (wrap64 (n * 10) + d))); [cbn; unfold maxVal; lia|].
  apply IH. unfold wrap64. apply Z.mod_pos_bound. lia.
Qed.

Lemma ParseInt_int64 (s : string) : int64_range (fst (ParseInt s)).
Proof.
  unfold int64_range, ParseInt. destruct s as [|c0 rest]; [cbn; lia|].
  set (s' := if Ascii.eqb c0 "+" || Ascii.eqb c0 "-" then rest else String c0 rest).
  assert (Hun : 0 <= fst (ParseUint s')).
  { unfold ParseUint. destruct (String.eqb s' ""); [cbn; lia|].
    apply ParseUint_loop_nonneg. lia. }
  destruct (ParseUint s') as [un [[|]|]]; cbn [fst] in Hun; cbn zeta;
    [cbn; lia| |];
    (destruct (Ascii.eqb c0 "-"); cbn [negb andb];
     [destruct (Z.ltb_spec (2 ^ (64 - 1)) un)|destruct (Z.leb_spec (2 ^ (64 - 1)) un)];
     cbn [fst]; lia).
Qed.

(** X7.  Every integer the resolver yields is an [int64]: whatever the
    item, a result of the integer kind lies between -2^63 and 2^63-1. *)
Theorem getValue_int64 (item : Item) (n : Z) :
  getValue item = VInt n -> int64_range n.
Proof.
  revert n. induction item as [item IHv IHitems] using Item_ind'.
  intros n. rewrite getValue_unfold.
  destruct (nonempty (Raw item)); [discriminate|].
  destruct (nonempty (Text item)).
  { destruct (String.eqb (Type_ item) "xsd:string"); [discriminate|].
    destruct (String.eqb (Type_ item) "xsd:float"); [discriminate|].
    destruct (String.eqb (Type_ item) "xsd:int"); [|discriminate].
    intros H. inversion H. apply ParseInt_int64. }
  destruct (Value item) as [sub|] eqn:HV; [now apply (IHv sub)|].
  destruct (Nat.ltb 0 (length (Items item)) && String.eqb (Type_ item) arrayTag);
    [discriminate|].
  destruct (Nat.ltb 0 (length (Items item))); discriminate.
Qed.

(** One turn of the digit loop on a decimal digit that fits. *)
Lemma ParseUint_loop_digit (c : ascii) (rest : string) (n : Z) :
  isDigit c = true -> 0 <= n -> 10 * n + (ord c - ord "0") <= maxUint64 ->
  0 <= ord c - ord "0" < 10 ->
  ParseUint_loop (String c rest) n = ParseUint_loop rest (10 * n + (ord c - ord "0")).
Proof.
  intros Hc Hn Hfit Hd. cbn [ParseUint_loop]. rewrite Hc.
  set (d := ord c - ord "0") in *.
  unfold maxUint64 in Hfit.
  assert (H10 : (10 <=? d) = false) by (apply Z.leb_gt; lia).
  assert (Hcut : (cutoff <=? n) = false).
  { apply Z.leb_gt. unfold cutoff, maxUint64.
    change (2 ^ 64 - 1) with 18446744073709551615 in *.
    change (18446744073709551615 / 10 + 1) with 1844674407370955162. lia. }
  rewrite H10, Hcut. unfold wrap64, maxVal.
  change (2 ^ 64) with 18446744073709551616 in *.
  rewrite (Z.mod_small (n * 10)) by lia.
  rewrite (Z.mod_small (n * 10 + d)) by lia.
  assert (H1 : (n * 10 + d <? n * 10) = false) by (apply Z.ltb_ge; lia).
  assert (H2 : (18446744073709551616 - 1 <? n * 10 + d) = false) by (apply Z.ltb_ge; lia).
  rewrite H1, H2. cbn [orb]. f_equal. lia.
Qed.

Lemma uint_value_grows (d : Decimal.uint) :
  forall acc, 0 <= acc -> acc <= uint_value d acc.
Proof.
  induction d; intros acc Hacc; cbn [uint_value]; [lia|..];
    (etransitivity; [|apply IHd; lia]; lia).
Qed.

Ltac digit_value :=
  repeat match goal with
  | |- context [ord ?c - ord ?z] =>
    let v := eval vm_compute in (ord c - ord z) in change (ord c - ord z) with v
  end.

(** The digit loop reads a sequence of decimal digits as the number it
    stands for, as long as that number is a [uint64]. *)
Lemma ParseUint_loop_decimal (d : Decimal.uint) :
  forall n, 0 <= n -> uint_value d n <= maxUint64 ->
  ParseUint_loop (DecimalString.NilEmpty.string_of_uint d) n = (uint_value d n, None).
Proof.
  induction d; intros n Hn Hfit;
    cbn [DecimalString.NilEmpty.string_of_uint uint_value] in *; [reflexivity|..];
    (rewrite ParseUint_loop_digit; digit_value;
     [ rewrite ?Z.add_0_r; apply IHd; [lia|exact Hfit]
     | reflexivity
     | exact Hn
     | match type of Hfit with
       | uint_value ?l ?a <= _ => pose proof (uint_value_grows l a ltac:(lia))
       end; lia
     | lia ]).
Qed.

Lemma uint_value_pos (d : Decimal.uint) :
  forall acc : positive, uint_value d (Z.pos acc) = Z.pos (Pos.of_uint_acc d acc).
Proof.
  induction d; intros acc; cbn [uint_value Pos.of_uint_acc]; [reflexivity|..];
    (etransitivity; [|apply IHd]); f_equal; lia.
Qed.

Lemma uint_value_of_uint (d : Decimal.uint) : uint_value d 0 = Z.of_N (Pos.of_uint d).
Proof.
  induction d; cbn [uint_value Pos.of_uint]; try reflexivity; try exact IHd;
    cbn [Z.mul Z.add Z.of_N]; apply uint_value_pos.
Qed.

Lemma uint_value_to_uint (p : positive) : uint_value (Pos.to_uint p) 0 = Z.pos p.
Proof.
  rewrite uint_value_of_uint.
  change (Pos.of_uint (Pos.to_uint p)) with (N.of_uint (N.to_uint (N.pos p))).
  now rewrite DecimalN.Unsigned.of_to.
Qed.

Lemma to_uint_digits (p : positive) :
  exists c rest, DecimalString.NilEmpty.string_of_uint (Pos.to_uint p) = String c rest
                 /\ isDigit c = true.
Proof.
  pose proof (DecimalPos.Unsigned.to_uint_nonnil p) as Hnil.
  destruct (Pos.to_uint p); [congruence|..];
    cbn [DecimalString.NilEmpty.string_of_uint]; eexists _, _; split; reflexivity.
Qed.

Lemma ParseUint_decimal (p : positive) :
  Z.pos p <= maxUint64 ->
  ParseUint (DecimalString.NilEmpty.string_of_uint (Pos.to_uint p)) = (Z.pos p, None).
Proof.
  intros Hfit. unfold ParseUint.
  destruct (to_uint_digits p) as (c & rest & Hs & _).
  rewrite Hs at 1. cbn [String.eqb].
  rewrite ParseUint_loop_decimal; rewrite ?uint_value_to_uint; [reflexivity|lia|exact Hfit].
Qed.

Lemma ParseInt_decimal (z : Z) : int64_range z -> ParseInt (decimal z) = (z, None).
Proof.
  unfold int64_range, decimal. intros Hz. destruct z as [|p|p].
  - reflexivity.
  - cbn [Z.to_int DecimalString.NilEmpty.string_of_int].
    destruct (to_uint_digits p) as (c & rest & Hs & Hc).
    unfold ParseInt. rewrite Hs.
    assert (Hplus : Ascii.eqb c "+" = false).
    { destruct (Ascii.eqb_spec c "+") as [->|]; [discriminate Hc|reflexivity]. }
    assert (Hminus : Ascii.eqb c "-" = false).
    { destruct (Ascii.eqb_spec c "-") as [->|]; [discriminate Hc|reflexivity]. }
    rewrite Hplus, Hminus. cbn [orb negb andb]. rewrite <- Hs.
    rewrite ParseUint_decimal by (unfold maxUint64; lia).
    assert (Hlt : (2 ^ (64 - 1) <=? Z.pos p) = false) by (apply Z.leb_gt; cbn; lia).
    cbv zeta. now rewrite Hlt.
  - cbn [Z.to_int DecimalString.NilEmpty.string_of_int].
    unfold ParseInt. cbn [Ascii.eqb Bool.eqb orb negb andb].
    rewrite ParseUint_decimal by (unfold maxUint64; lia).
    assert (Hlt : (2 ^ (64 - 1) <? Z.pos p) = false) by (apply Z.ltb_ge; cbn; lia).
    cbv zeta. now rewrite Hlt.
Qed.

Lemma decimal_nonempty (z : Z) : nonempty (decimal z) = true.
Proof.
  unfold decimal. destruct z as [|p|p]; try reflexivity.
  cbn [Z.to_int DecimalString.NilEmpty.string_of_int].
  destruct (to_uint_digits p) as (c & rest & -> & _). reflexivity.
Qed.

(** X8.  An integer written in decimal is read back: for every [int64]
    [z], a node whose text is the decimal notation of [z] and whose type
    tag is [xsd:int] resolves to the integer [z], whatever key, value
    sub-node and children the node has besides. *)
Theorem getValue_decimal (z : Z) (key value : option Item) (items : list Item) :
  int64_range z ->
  getValue (mkItem (decimal z) "xsd:int" "" key value items) = VInt z.
Proof.
  intros Hz. rewrite getValue_unfold. cbn [Raw Text Type_].
  change (nonempty "") with false. cbv iota.
  rewrite decimal_nonempty. cbn [String.eqb Ascii.eqb Bool.eqb].
  now rewrite ParseInt_decimal.
Qed.

Lemma fold_insert_nonempty (items : list Item) :
  forall m : gmap string value, m <> ∅ ->
  fold_left (fun v i => <[getKey i := getValue i]> v) items m <> ∅.
Proof.
  induction items as [|i rest IH]; intros m Hm; cbn [fold_left]; [exact Hm|].
  apply IH. apply insert_non_empty.
Qed.

(** X9.  The resolver never yields an empty sequence nor an empty mapping:
    a node without children resolves to the empty string, so a sequence has
    at least one element and a mapping at least one key. *)
Theorem getValue_containers_nonempty (item : Item) :
  (forall l, getValue item = VSlice l -> l <> []) /\
  (forall m, getValue item = VMap m -> m <> ∅).
Proof.
  induction item as [item IHv IHitems] using Item_ind'.
  rewrite getValue_unfold.
  destruct (nonempty (Raw item)); [split; discriminate|].
  destruct (nonempty (Text item)).
  { destruct (String.eqb (Type_ item) "xsd:string"); [split; discriminate|].
    destruct (String.eqb (Type_ item) "xsd:float"); [split; discriminate|].
    destruct (String.eqb (Type_ item) "xsd:int"); split; discriminate. }
  destruct (Value item) as [sub|] eqn:HV; [now apply (IHv sub)|].
  destruct (Items item) as [|i rest] eqn:HI; [split; discriminate|].
  cbn [length Nat.ltb Nat.leb andb].
  destruct (String.eqb (Type_ item) arrayTag) eqn:Hty;
    fold arrayTag; rewrite ?Hty; split; try discriminate.
  - intros l H. inversion H. discriminate.
  - intros m H. inversion H. cbn [fold_left].
    apply fold_insert_nonempty, insert_non_empty.
Qed.

(* ===================================================================== *)
(** * The properties above on sample data                                  *)
(* ===================================================================== *)

Lemma operation_succeeds_witness :
  succeeds_with true
    (Duration_of_float64 amd64_unrepresentable (SFmul prec emax half_a_second Second_f64))
    (after_login [login_reply; delete_reply "true"])
    (session_request sample_client "session-token" "delete_dns_settings"
                     (ParamsMap {[ "record_id" := "7" ]}))
    7 (delete_item "true") []
    (DeleteDNSSettings amd64_unrepresentable sample_Decode_Delete sample_client
                       (mkContext None) "7"
                       (fresh_world [login_reply; delete_reply "true"])).
Proof.
  exact (proj2 (proj2 (proj2
           (operation_succeeds amd64_unrepresentable rejecting rejecting
              sample_Decode_Delete sample_client (mkContext None)
              (fresh_world [login_reply; delete_reply "true"])
              (after_login [login_reply; delete_reply "true"])
              "session-token" 7 None (delete_item "true") [] eq_refl eq_refl)))
           "7" (delete_response true) eq_refl).
Defined.

Lemma token_is_reused_witness :
  waits_then_sends (fresh_world [delete_reply "true"])
    (session_request sample_client "token-b" "delete_dns_settings"
                     (ParamsMap {[ "record_id" := "7" ]}))
    (snd (DeleteDNSSettings amd64_unrepresentable sample_Decode_Delete sample_client
                            (mkContext (Some "token-b")) "7"
                            (fresh_world [delete_reply "true"]))).
Proof.
  refine (proj2 (proj2 (proj2
            (token_is_reused amd64_unrepresentable rejecting rejecting
               sample_Decode_Delete sample_client (mkContext (Some "token-b"))
               (fresh_world [delete_reply "true"]) _))) "7").
  discriminate.
Defined.

Lemma login_nil_dereference_witness :
  fst (DeleteDNSSettings amd64_unrepresentable sample_Decode_Delete sample_client
                         (mkContext None) "7"
                         (fresh_world [empty_reply; delete_reply "true"])) = Panics /\
  network (snd (DeleteDNSSettings amd64_unrepresentable sample_Decode_Delete sample_client
                                  (mkContext None) "7"
                                  (fresh_world [empty_reply; delete_reply "true"])))
  = [delete_reply "true"].
Proof.
  exact (proj2 (proj2 (proj2
           (proj2 (login_nil_dereference amd64_unrepresentable rejecting rejecting
                     sample_Decode_Delete sample_client (mkContext None)
                     (fresh_world [empty_reply; delete_reply "true"])
                     7 None None [delete_reply "true"] eq_refl eq_refl)
                  (or_introl eq_refl)))) "7").
Defined.

Lemma next_operation_is_paced_witness :
  clock (snd first_delete)
  + Duration_of_float64 amd64_unrepresentable (SFmul prec emax half_a_second Second_f64)
  <= ready_at (snd (Authentication (identifier sample_client) (mkContext None)
                                   (snd first_delete))).
Proof.
  assert (Hfirst :
            succeeds_with true
              (Duration_of_float64 amd64_unrepresentable
                 (SFmul prec emax half_a_second Second_f64))
              (after_login [login_reply; delete_reply "true"; login_reply])
              (session_request sample_client "session-token" "delete_dns_settings"
                               (ParamsMap {[ "record_id" := "7" ]}))
              7 (delete_item "true") [login_reply] first_delete).
  { repeat split; vm_compute; reflexivity. }
  assert (Hlogin :
            Authentication (identifier sample_client) (mkContext None) (snd first_delete)
            = (Returns (inr "session-token"),
               snd (Authentication (identifier sample_client) (mkContext None)
                                   (snd first_delete)))).
  { vm_compute. reflexivity. }
  exact (proj1
           (next_operation_is_paced amd64_unrepresentable rejecting rejecting
              sample_Decode_Delete bool true half_a_second _ _ _ _ _ first_delete
              sample_client (mkContext None) "session-token" _
              Hfirst usable_half_a_second Hlogin)).
Defined.

Lemma getValue_int64_witness : int64_range (2 ^ 63 - 1).
Proof.
  exact (getValue_int64 (leaf "99999999999999999999" "xsd:int") (2 ^ 63 - 1) eq_refl).
Defined.

Lemma getValue_decimal_witness :
  getValue (mkItem (decimal (- 2 ^ 63)) "xsd:int" "" None None [entry_a]) = VInt (- 2 ^ 63).
Proof.
  apply (getValue_decimal (- 2 ^ 63) None None [entry_a]).
  split; apply Z.leb_le; reflexivity.
Defined.

(* ===================================================================== *)
(** * Replies with another status than 200                                 *)
(* ===================================================================== *)

(** X23.  A reply whose status is not 200 is not decoded, whatever its
    body holds, be it an envelope with a Fault or one with a result: [do]
    and, without a token in the context, [Authentication] return the error
    of the unexpected status code with the request, the status code and
    the body; after the call of the transport they add no event, so
    decoder, resolver and mapper do not run, and the deadline stays. *)
Theorem bad_status_is_not_decoded (T : Type) (decode : value -> string + T)
        (c : Identifier) (ctx : Context) (req : Request) (w : World)
        (elapsed : N) (resp : Response) (rest : list Reply) :
  network w = Replied elapsed resp :: rest ->
  StatusCode resp <> StatusOK ->
  do decode req w =
  (Returns (inl (UnexpectedStatusCodeError req (StatusCode resp) (RespBody resp))),
   mkWorld (ready_at w + Z.of_N elapsed) (floodTime w) rest
           (trace w ++ [(clock w, EvLock);
                        (clock w, EvSleep (time_Sub (floodTime w) (clock w)));
                        (ready_at w, EvUnlock);
                        (ready_at w, EvHTTPDo req)])) /\
  (getToken ctx = "" ->
   Authentication c ctx w =
   (Returns (inl (UnexpectedStatusCodeError (loginRequest c) (StatusCode resp)
                                            (RespBody resp))),
    mkWorld (clock w + Z.of_N elapsed) (floodTime w) rest
            (trace w ++ [(clock w, EvHTTPDo (loginRequest c))]))).
Proof.
  intros Hnet Hcode. apply Z.eqb_neq in Hcode.
  destruct w as [clk ft net tr]. cbn in Hnet. subst net.
  destruct resp as [code body]. cbn [StatusCode RespBody] in *.
  split.
  - unfold ready_at. run_go. rewrite Hcode. cbn -[Z.add Z.max time_Sub Z.of_N].
    rewrite <- ?List.app_assoc. reflexivity.
  - intros Htok. apply nonempty_false in Htok.
    unfold Authentication. rewrite Htok.
    unfold HTTPClient_Do, emit, bind, ret. cbn -[Z.add Z.of_N].
    rewrite Hcode. reflexivity.
Qed.

Lemma bad_status_is_not_decoded_witness :
  fst (do (@rejecting GetDNSSettingsAPIResponse) request_A (fresh_world [fault_reply_500]))
  = Returns (inl (UnexpectedStatusCodeError request_A 500
                    (Envelope None None (Some sample_fault)))).
Proof.
  exact (f_equal fst
           (proj1 (bad_status_is_not_decoded GetDNSSettingsAPIResponse rejecting
                     (identifier sample_client) (mkContext None) request_A
                     (fresh_world [fault_reply_500]) 7
                     (mkResponse 500 (Envelope None None (Some sample_fault))) []
                     eq_refl ltac:(discriminate)))).
Defined.

(* ===================================================================== *)
(** * The provider                                                         *)
(* ===================================================================== *)

Lemma Contains_In (diags : diag.Diagnostics) (d : diag.Diagnostic) :
  diag.Contains diags d = true -> In d diags.
Proof.
  unfold diag.Contains. intros H. apply existsb_exists in H as (x & Hin & Heq).
  unfold diag.Equal in Heq. apply bool_decide_eq_true in Heq. now subst.
Qed.

(** [Append] adds an error exactly when what it is given holds one. *)
Lemma HasError_Append (in_ : diag.Diagnostics) :
  forall diags,
    diag.HasError (diag.Append diags in_) = diag.HasError diags || diag.HasError in_.
Proof.
  unfold diag.Append.
  induction in_ as [|x rest IH]; intros diags; cbn [fold_left].
  - cbn. now rewrite orb_false_r.
  - rewrite IH. cbn [diag.HasError existsb].
    destruct (diag.Contains diags x) eqn:HC.
    + apply Contains_In in HC.
      destruct (diag.DiagSeverity x) eqn:Hs; cbn [orb]; [|reflexivity].
      assert (diag.HasError diags = true) as ->; [|reflexivity].
      apply existsb_exists. exists x. now rewrite Hs.
    + unfold diag.HasError at 1. rewrite existsb_app. cbn [existsb].
      rewrite orb_false_r. fold (diag.HasError diags). now rewrite orb_assoc.
Qed.

Lemma HasError_AddAttributeError (diags : diag.Diagnostics) (p : path.Path)
      (summary detail : string) :
  diag.HasError (diag.AddAttributeError diags p summary detail) = true.
Proof.
  unfold diag.AddAttributeError. rewrite HasError_Append. cbn. apply orb_true_r.
Qed.

Lemma HasError_AddError (diags : diag.Diagnostics) (summary detail : string) :
  diag.HasError (diag.AddError diags summary detail) = true.
Proof.
  unfold diag.AddError. rewrite HasError_Append. cbn. apply orb_true_r.
Qed.

Lemma eqb_empty (s : string) : String.eqb s "" = false <-> s <> "".
Proof. now rewrite <- String.eqb_neq. Qed.

Section ProviderFacts.

Variable Getenv : string -> string.

(** The outcome of [Configure], by the cases its three checks make. *)
Lemma Configure_cases (config : provider.allinklProviderModel) (diags : diag.Diagnostics)
      (resp : provider.ConfigureResponse) :
  let out := provider.Configure Getenv config diags resp in
  let username := provider.effective (provider.Username config) (Getenv "ALLINKL_USERNAME") in
  let password := provider.effective (provider.Password config) (Getenv "ALLINKL_PASSWORD") in
  if diag.HasError (diag.Append (provider.ConfigureDiagnostics resp) diags)
     || types.IsUnknown (provider.Username config)
     || types.IsUnknown (provider.Password config)
     || String.eqb username "" || String.eqb password ""
  then
    diag.HasError (provider.ConfigureDiagnostics out) = true /\
    provider.DataSourceData out = provider.DataSourceData resp /\
    provider.ResourceData out = provider.ResourceData resp
  else
    out = provider.mkConfigureResponse
            (diag.Append (provider.ConfigureDiagnostics resp) diags)
            (provider.DataClient (Some (NewClient username password)))
            (provider.DataClient (Some (NewClient username password))).
Proof.
  cbv zeta. unfold provider.Configure.
  destruct (diag.HasError (diag.Append (provider.ConfigureDiagnostics resp) diags)) eqn:H0;
    cbn [orb]; [cbn; auto|].
  destruct config as [u p]; cbn [provider.Username provider.Password].
  destruct u as [| |u]; cbn [types.IsUnknown types.IsNull negb orb provider.effective
                              types.ValueString];
    destruct p as [| |p]; cbn [types.IsUnknown types.IsNull negb orb provider.effective
                                types.ValueString];
    rewrite ?HasError_AddAttributeError, ?H0; cbn [orb];
    repeat match goal with
           | |- context [String.eqb ?s ""] =>
             destruct (String.eqb s "") eqn:?; cbn [orb]
           end;
    rewrite ?HasError_AddAttributeError, ?H0;
    cbn [provider.ConfigureDiagnostics provider.DataSourceData provider.ResourceData];
    rewrite ?HasError_AddAttributeError; auto.
Qed.

(** X10.  [Configure] ends without an error in its diagnostics exactly
    when the configuration was read without error, neither credential is
    unknown, and neither credential it settles on is empty, where it
    settles on the configured value unless that is null and on the
    environment variable only then: a configured empty string is not
    replaced by the environment variable. *)
Theorem Configure_succeeds_iff (config : provider.allinklProviderModel)
        (diags : diag.Diagnostics) (resp : provider.ConfigureResponse) :
  diag.HasError (provider.ConfigureDiagnostics (provider.Configure Getenv config diags resp))
  = false <->
  diag.HasError (diag.Append (provider.ConfigureDiagnostics resp) diags) = false /\
  types.IsUnknown (provider.Username config) = false /\
  types.IsUnknown (provider.Password config) = false /\
  provider.effective (provider.Username config) (Getenv "ALLINKL_USERNAME") <> "" /\
  provider.effective (provider.Password config) (Getenv "ALLINKL_PASSWORD") <> "".
Proof.
  pose proof (Configure_cases config diags resp) as H. cbv zeta in H.
  rewrite <- !eqb_empty.
  destruct (diag.HasError (diag.Append (provider.ConfigureDiagnostics resp) diags)) eqn:H0;
    destruct (types.IsUnknown (provider.Username config));
    destruct (types.IsUnknown (provider.Password config));
    destruct (String.eqb (provider.effective (provider.Username config) _) "");
    destruct (String.eqb (provider.effective (provider.Password config) _) "");
    cbn [orb] in H;
    try (destruct H as (H & _); rewrite H; split; [discriminate|intuition discriminate]).
  rewrite H. cbn [provider.ConfigureDiagnostics]. rewrite H0. tauto.
Qed.

(** X11.  When [Configure] ends without an error it hands over, as
    resource data and as data source data, one client that logs in with
    the credentials it has settled on, both not empty; the resource that is
    configured with this data holds that client and gets no diagnostic. *)
Theorem Configure_client (config : provider.allinklProviderModel)
        (diags : diag.Diagnostics) (resp : provider.ConfigureResponse) :
  diag.HasError (provider.ConfigureDiagnostics (provider.Configure Getenv config diags resp))
  = false ->
  exists c : Client,
    provider.ResourceData (provider.Configure Getenv config diags resp)
    = provider.DataClient (Some c) /\
    provider.DataSourceData (provider.Configure Getenv config diags resp)
    = provider.DataClient (Some c) /\
    login (identifier c)
    = provider.effective (provider.Username config) (Getenv "ALLINKL_USERNAME") /\
    password (identifier c)
    = provider.effective (provider.Password config) (Getenv "ALLINKL_PASSWORD") /\
    login (identifier c) <> "" /\ password (identifier c) <> "" /\
    idEndpoint (identifier c) = authEndpoint /\ baseURL c = apiEndpoint /\
    forall d ds,
      provider.Configure_resource
        d (provider.ResourceData (provider.Configure Getenv config diags resp)) ds
      = (provider.mkDnsResource (Some c), ds).
Proof.
  intros Hok. pose proof (Configure_cases config diags resp) as H. cbv zeta in H.
  destruct (diag.HasError (diag.Append (provider.ConfigureDiagnostics resp) diags)
            || types.IsUnknown (provider.Username config)
            || types.IsUnknown (provider.Password config)
            || String.eqb (provider.effective (provider.Username config) _) ""
            || String.eqb (provider.effective (provider.Password config) _) "") eqn:Hc.
  - destruct H as (H & _). congruence.
  - repeat (apply orb_false_elim in Hc as (Hc & ?)).
    rewrite H. eexists. cbn.
    repeat split; try reflexivity; now apply eqb_empty.
Qed.

(** X12.  When [Configure] ends with an error in its diagnostics it hands
    nothing over: resource data and data source data are what they were. *)
Theorem Configure_error_keeps_data (config : provider.allinklProviderModel)
        (diags : diag.Diagnostics) (resp : provider.ConfigureResponse) :
  diag.HasError (provider.ConfigureDiagnostics (provider.Configure Getenv config diags resp))
  = true ->
  provider.ResourceData (provider.Configure Getenv config diags resp)
  = provider.ResourceData resp /\
  provider.DataSourceData (provider.Configure Getenv config diags resp)
  = provider.DataSourceData resp.
Proof.
  intros Herr. pose proof (Configure_cases config diags resp) as H. cbv zeta in H.
  destruct (diag.HasError (diag.Append (provider.ConfigureDiagnostics resp) diags)) eqn:H0;
    cbn [orb] in H; [tauto|].
  destruct (types.IsUnknown (provider.Username config)
            || types.IsUnknown (provider.Password config)
            || String.eqb (provider.effective (provider.Username config) _) ""
            || String.eqb (provider.effective (provider.Password config) _) "").
  - tauto.
  - rewrite H in Herr. cbn [provider.ConfigureDiagnostics] in Herr. congruence.
Qed.

End ProviderFacts.

(* ===================================================================== *)
(** * Import                                                               *)
(* ===================================================================== *)

Lemma append_nil (s : string) : ("" ++ s)%string = s.
Proof. reflexivity. Qed.

Lemma append_cons (c : ascii) (s t : string) :
  (String c s ++ t)%string = String c (s ++ t).
Proof. reflexivity. Qed.

Lemma Index_empty : strings.Index "" "/" = -1.
Proof. reflexivity. Qed.

Lemma Index_cons (c : ascii) (s : string) :
  strings.Index (String c s) "/" =
  if Ascii.eqb c "/" then 0
  else if strings.Index s "/" =? -1 then -1 else strings.Index s "/" + 1.
Proof.
  cbn [strings.Index String.prefix].
  destruct (ascii_dec "/" c) as [<-|Hne].
  - now destruct s.
  - destruct (Ascii.eqb_spec c "/") as [->|_]; [congruence|reflexivity].
Qed.

Lemma Index_range (s : string) :
  strings.Index s "/" = -1 \/ 0 <= strings.Index s "/" < Z.of_nat (String.length s).
Proof.
  induction s as [|c s IH]; [now left|].
  rewrite Index_cons. cbn [String.length].
  destruct (Ascii.eqb c "/"); [right; lia|].
  destruct (Z.eqb_spec (strings.Index s "/") (-1)); [now left|right; lia].
Qed.

(** The first slash of a text that has one: what precedes it has none. *)
Lemma Index_split (s : string) :
  strings.Index s "/" <> -1 ->
  exists zone rest,
    s = (zone ++ String "/" rest)%string /\ strings.Index zone "/" = -1 /\
    strings.Index s "/" = Z.of_nat (String.length zone).
Proof.
  induction s as [|c s IH]; [now rewrite Index_empty|].
  rewrite Index_cons.
  destruct (Ascii.eqb_spec c "/") as [->|Hc].
  - intros _. exists "", s. repeat split; reflexivity.
  - destruct (Z.eqb_spec (strings.Index s "/") (-1)) as [|Hs]; [congruence|].
    intros _. destruct (IH Hs) as (zone & rest & Heq & Hz & Hi).
    exists (String c zone), rest. repeat split.
    + now rewrite append_cons, <- Heq.
    + rewrite Index_cons, Hz. now destruct (Ascii.eqb_spec c "/").
    + rewrite Hi. cbn [String.length]. lia.
Qed.

Lemma Index_app (zone rest : string) :
  strings.Index zone "/" = -1 ->
  strings.Index (zone ++ String "/" rest) "/" = Z.of_nat (String.length zone).
Proof.
  induction zone as [|c zone IH]; intros Hz.
  - rewrite append_nil. now rewrite Index_cons.
  - rewrite Index_cons in Hz. rewrite append_cons, Index_cons.
    destruct (Ascii.eqb c "/"); [discriminate|].
    pose proof (Index_range zone) as Hrange.
    destruct (Z.eqb_spec (strings.Index zone "/") (-1)) as [Hz'|]; [|lia].
    rewrite (IH Hz'). cbn [String.length].
    destruct (Z.eqb_spec (Z.of_nat (String.length zone)) (-1)); lia.
Qed.

Lemma substring_all (s : string) : String.substring 0 (String.length s) s = s.
Proof. induction s as [|c s IH]; [reflexivity|]. cbn. now rewrite IH. Qed.

Lemma slice_to_app (zone rest : string) :
  strings.slice_to (zone ++ rest) (Z.of_nat (String.length zone)) = zone.
Proof.
  unfold strings.slice_to. rewrite Nat2Z.id.
  induction zone as [|c zone IH].
  - rewrite append_nil. now destruct rest.
  - rewrite append_cons. cbn [String.length String.substring]. now rewrite IH.
Qed.

Lemma slice_from_app (zone rest : string) :
  strings.slice_from (zone ++ String "/" rest) (Z.of_nat (String.length zone) + 1) = rest.
Proof.
  unfold strings.slice_from.
  replace (Z.to_nat (Z.of_nat (String.length zone) + 1)) with (S (String.length zone)) by lia.
  induction zone as [|c zone IH].
  - rewrite append_nil. cbn [String.length String.substring].
    rewrite Nat.sub_succ, Nat.sub_0_r. apply substring_all.
  - rewrite append_cons. cbn [String.length]. rewrite Nat.sub_succ.
    cbn [String.substring]. exact IH.
Qed.

Lemma nonempty_spec (s : string) : nonempty s = true <-> s <> "".
Proof.
  unfold nonempty. rewrite negb_true_iff. apply eqb_empty.
Qed.

(** The parts of an import ID of the documented form are the text before
    its first slash and the text after it. *)
Lemma import_id_parts (zone recordID reqID : string) :
  provider.import_id zone recordID reqID ->
  nonempty reqID = true /\
  strings.Index reqID "/" <> -1 /\
  strings.slice_to reqID (strings.Index reqID "/") = zone /\
  strings.slice_from reqID (strings.Index reqID "/" + 1) = recordID.
Proof.
  intros (Hzone & _ & Hslash & ->). change ("/" ++ recordID)%string with (String "/" recordID).
  rewrite (Index_app zone recordID Hslash), slice_to_app, slice_from_app.
  repeat split; [|lia].
  apply nonempty_spec. destruct zone; [congruence|discriminate].
Qed.

Section ImportFacts.

Variable State_SetAttribute : path.Path -> string -> diag.Diagnostics.

(** X13.  [ImportState] takes an import ID apart at its first slash: for an
    ID made of a zone without slash, a slash and a record id, neither
    empty, it writes the zone to [zone_host] and all that follows the
    slash to [id], in this order, and adds no diagnostic of its own. *)
Theorem ImportState_accepts (zone recordID reqID : string)
        (resp : provider.ImportStateResponse) :
  provider.import_id zone recordID reqID ->
  provider.ImportState State_SetAttribute reqID resp =
  provider.mkImportStateResponse
    (diag.Append
       (diag.Append (provider.ImportDiagnostics resp)
                    (State_SetAttribute (path.Root "zone_host") zone))
       (State_SetAttribute (path.Root "id") recordID))
    (provider.Attributes resp
     ++ [(path.Root "zone_host", zone); (path.Root "id", recordID)])%list.
Proof.
  intros H. destruct (import_id_parts _ _ _ H) as (Hne & Hi & Hz & Hr).
  destruct H as (Hzone & Hrec & _).
  unfold provider.ImportState. rewrite Hne.
  apply Z.eqb_neq in Hi. rewrite Hi. cbn [negb]. rewrite Hz, Hr.
  apply eqb_empty in Hzone, Hrec. rewrite Hzone, Hrec. reflexivity.
Qed.

(** X14.  Every other import ID is refused: an ID that is not a zone
    without slash, a slash and a record id, neither empty (so an ID
    without slash, one that starts with a slash, one that ends with its
    first slash, the empty one), gets the error "Invalid Import ID", which
    quotes it, and no attribute is written. *)
Theorem ImportState_rejects (reqID : string) (resp : provider.ImportStateResponse) :
  (forall zone recordID, ~ provider.import_id zone recordID reqID) ->
  provider.ImportState State_SetAttribute reqID resp =
  provider.mkImportStateResponse
    (diag.AddError (provider.ImportDiagnostics resp) "Invalid Import ID"
       ("Expected import ID in the format `zone_host/record_id`, got: " ++ reqID))
    (provider.Attributes resp).
Proof.
  intros Hnot. unfold provider.ImportState.
  change (path.Equal (path.Root "id") path.Empty) with false. cbv iota.
  destruct (nonempty reqID) eqn:Hne; [|reflexivity].
  destruct (Z.eqb_spec (strings.Index reqID "/") (-1)) as [Hi|Hi]; cbn [negb].
  - reflexivity.
  - destruct (Index_split reqID Hi) as (zone & rest & Heq & Hz & Hlen).
    rewrite Hlen. rewrite Heq at 1 2. rewrite slice_to_app, slice_from_app.
    destruct (String.eqb rest "") eqn:Hrest; [reflexivity|].
    destruct (String.eqb zone "") eqn:Hzone; [reflexivity|].
    exfalso. apply (Hnot zone rest).
    repeat split; try assumption; now apply eqb_empty.
Qed.

End ImportFacts.

(* ===================================================================== *)
(** * The methods of the resource                                          *)
(* ===================================================================== *)

Lemma bind_run {A B : Type} (m : M A) (k : A -> M B) (w : World) :
  (x <- m ;; k x) w =
  match m w with
  | (Returns a, w') => k a w'
  | (Panics, w') => (Panics, w')
  end.
Proof. reflexivity. Qed.

(** The three cases [Read] and [Update] make of the records they get. *)
Lemma record_count (dns : list ReturnInfo) :
  (dns = [] /\ (Z.of_nat (length dns) =? 0) = true) \/
  (exists record, dns = [record] /\
                  (Z.of_nat (length dns) =? 0) = false /\
                  (1 <? Z.of_nat (length dns)) = false) \/
  ((2 <= length dns)%nat /\ (Z.of_nat (length dns) =? 0) = false /\
   (1 <? Z.of_nat (length dns)) = true).
Proof.
  destruct dns as [|r1 [|r2 rest]].
  - left. now split.
  - right. left. exists r1. repeat split.
  - right. right. cbn [length].
    split; [lia|]. split; [apply Z.eqb_neq; lia|apply Z.ltb_lt; lia].
Qed.

Section ResourceFacts.

Variable unrepresentable : float64 -> Z.
Variable Decode_Get : value -> string + GetDNSSettingsAPIResponse.
Variable Decode_Add : value -> string + AddDNSSettingsAPIResponse.
Variable Decode_Delete : value -> string + DeleteDNSSettingsAPIResponse.
Variable intSize : Z.
Variable Error : error -> string.
Variable Format_RFC850 : Time -> string.
Variable State_Set : provider.dnsResourceModel -> diag.Diagnostics.

Local Abbreviation Create :=
  (provider.Create unrepresentable Decode_Add intSize Error Format_RFC850 State_Set).
Local Abbreviation Read := (provider.Read unrepresentable Decode_Get Error State_Set).
Local Abbreviation Update :=
  (provider.Update unrepresentable Decode_Get Decode_Add intSize Error Format_RFC850
                   State_Set).
Local Abbreviation Delete := (provider.Delete unrepresentable Decode_Delete Error).

(** X15.  A method that finds an error among the diagnostics of its plan
    or state (or among those its response holds already) does nothing
    else: it calls no operation of the client, so nothing is sent and no
    time passes, and it sets no state. *)
Theorem methods_stop_on_errors (r : provider.dnsResource) (ctx : Context)
        (data : provider.Data) (resp : provider.Response) (w : World) :
  diag.HasError (diag.Append (provider.Diagnostics resp) (provider.Get_diags data)) = true ->
  Create r ctx data resp w
  = (Returns (provider.mkResponse
                (diag.Append (provider.Diagnostics resp) (provider.Get_diags data))
                (provider.State resp)), w) /\
  Read r ctx data resp w
  = (Returns (provider.mkResponse
                (diag.Append (provider.Diagnostics resp) (provider.Get_diags data))
                (provider.State resp)), w) /\
  Update r ctx data resp w
  = (Returns (provider.mkResponse
                (diag.Append (provider.Diagnostics resp) (provider.Get_diags data))
                (provider.State resp)), w) /\
  Delete r ctx data resp w
  = (Returns (provider.mkResponse
                (diag.Append (provider.Diagnostics resp) (provider.Get_diags data))
                (provider.State resp)), w).
Proof.
  intros Herr.
  unfold provider.Create, provider.Read, provider.Update, provider.Delete.
  rewrite Herr. repeat split; reflexivity.
Qed.

(** X16.  A resource that was never configured with a client (its
    configure call got no provider data, as when the provider has not been
    configured yet) panics in each of its four methods as soon as the
    method calls the client: nothing is sent, no diagnostic is left. *)
Theorem unconfigured_resource_panics (r : provider.dnsResource) (ctx : Context)
        (data : provider.Data) (resp : provider.Response) (w : World) :
  provider.client r = None ->
  diag.HasError (diag.Append (provider.Diagnostics resp) (provider.Get_diags data)) = false ->
  Create r ctx data resp w = (Panics, w) /\
  Read r ctx data resp w = (Panics, w) /\
  Update r ctx data resp w = (Panics, w) /\
  Delete r ctx data resp w = (Panics, w).
Proof.
  intros Hnil Hok.
  unfold provider.Create, provider.Read, provider.Update, provider.Delete,
    provider.call_client.
  rewrite Hok, Hnil. repeat split; reflexivity.
Qed.

(** What [Delete] makes of the outcome of the delete operation. *)
Lemma Delete_run (r : provider.dnsResource) (c : Client) (ctx : Context)
      (data : provider.Data) (resp : provider.Response) (w : World) :
  provider.client r = Some c ->
  diag.HasError (diag.Append (provider.Diagnostics resp) (provider.Get_diags data)) = false ->
  Delete r ctx data resp w =
  match DeleteDNSSettings unrepresentable Decode_Delete c ctx
          (types.ValueString (provider.ID (provider.Get_model data))) w with
  | (Returns (inr true), w') =>
    (Returns (provider.mkResponse
                (diag.Append (provider.Diagnostics resp) (provider.Get_diags data))
                (provider.State resp)), w')
  | (Returns (inr false), w') => (Panics, w')
  | (Returns (inl err), w') =>
    (Returns (provider.mkResponse
                (diag.AddError
                   (diag.Append (provider.Diagnostics resp) (provider.Get_diags data))
                   "Error Deleting AllInkl DNS"
                   ("Could not delete dns, unexpected error: " ++ Error err))
                (provider.State resp)), w')
  | (Panics, w') => (Panics, w')
  end.
Proof.
  intros Hc Hok. unfold provider.Delete, provider.call_client.
  rewrite Hok, Hc, bind_run.
  destruct (DeleteDNSSettings _ _ _ _ _ _) as [[[err|[|]]|] w']; reflexivity.
Qed.

(** X17.  [Delete] reads the error of the delete operation without a nil
    check.  When the login succeeds and the server answers the delete
    request with a response that the mapper accepts and whose ReturnInfo
    is false, the operation returns false without an error and [Delete]
    panics; the reply has been consumed and the deadline set by then. *)
Theorem Delete_refused_panics (r : provider.dnsResource) (c : Client) (ctx : Context)
        (data : provider.Data) (resp : provider.Response) (w w1 : World)
        (credential : string) (elapsed : N) (auth : option KasResponse)
        (item : Item) (rest : list Reply) (g : DeleteDNSSettingsAPIResponse) :
  provider.client r = Some c ->
  diag.HasError (diag.Append (provider.Diagnostics resp) (provider.Get_diags data)) = false ->
  Authentication (identifier c) ctx w = (Returns (inr credential), w1) ->
  network w1 = Replied elapsed
                 (mkResponse StatusOK
                    (Envelope (Some (mkKasResponse (Some item))) auth None)) :: rest ->
  Decode_Delete (getValue item) = inr g ->
  DeleteReturnInfo (DeleteResponse g) = false ->
  fst (Delete r ctx data resp w) = Panics /\
  network (snd (Delete r ctx data resp w)) = rest /\
  floodTime (snd (Delete r ctx data resp w))
  = clock (snd (Delete r ctx data resp w))
    + Duration_of_float64 unrepresentable
        (SFmul prec emax (DeleteKasFloodDelay (DeleteResponse g)) Second_f64).
Proof.
  intros Hc Hok Hauth Hnet Hdec Hflag.
  rewrite (Delete_run r c ctx data resp w Hc Hok).
  unfold DeleteDNSSettings. rewrite login_run, Hauth.
  match goal with
  | |- context [(r <- do Decode_Delete ?req ;; _) w1] =>
    destruct (operation_success unrepresentable Decode_Delete req
                (fun g => DeleteKasFloodDelay (DeleteResponse g))
                (fun g => DeleteReturnInfo (DeleteResponse g))
                w1 elapsed auth item rest g Hnet Hdec)
      as (Hres & _ & Hflood & Hrest & _)
  end.
  rewrite Hflag in Hres.
  destruct ((r <- do Decode_Delete _ ;; _) w1) as [res w']; cbn [fst snd] in *.
  subst res. cbn [fst snd]. now repeat split.
Qed.

(** What [Read] makes of the outcome of the list operation. *)
Lemma Read_run (r : provider.dnsResource) (c : Client) (ctx : Context)
      (data : provider.Data) (resp : provider.Response) (w : World) :
  provider.client r = Some c ->
  diag.HasError (diag.Append (provider.Diagnostics resp) (provider.Get_diags data)) = false ->
  match GetDNSSettings unrepresentable Decode_Get c ctx
          (types.ValueString (provider.ZoneHost (provider.Get_model data)))
          (types.ValueString (provider.ID (provider.Get_model data))) w with
  | (Returns (inr [record]), w') =>
    Read r ctx data resp w =
    (Returns (provider.mkResponse
                (diag.Append
                   (diag.Append (provider.Diagnostics resp) (provider.Get_diags data))
                   (State_Set (provider.refreshed (provider.ID (provider.Get_model data))
                                                  types.StringNull record)))
                (Some (provider.refreshed (provider.ID (provider.Get_model data))
                                          types.StringNull record))), w')
  | (Returns _, w') =>
    exists detail,
      Read r ctx data resp w =
      (Returns (provider.mkResponse
                  (diag.AddError
                     (diag.Append (provider.Diagnostics resp) (provider.Get_diags data))
                     "Error Reading AllInkl DNS" detail)
                  (provider.State resp)), w')
  | (Panics, w') => Read r ctx data resp w = (Panics, w')
  end.
Proof.
  intros Hc Hok. unfold provider.Read, provider.call_client.
  rewrite Hok, Hc, bind_run.
  destruct (GetDNSSettings _ _ _ _ _ _ _) as [[[err|dns]|] w']; [eexists; reflexivity| |reflexivity].
  destruct (record_count dns) as [(-> & H0)|[(record & -> & H0 & H1)|(Hlen & H0 & H1)]].
  - eexists. reflexivity.
  - reflexivity.
  - rewrite H0, H1. destruct dns as [|r1 [|r2 dns]]; try (cbn in Hlen; lia).
    eexists. reflexivity.
Qed.

(** X18.  [Read] sets the state exactly when the list operation has
    returned exactly one record.  The state it sets takes zone, type, name,
    data and aux from that record, keeps the id of the prior state (the
    record id the server reports is not read) and holds no [last_updated]
    (it is null).  With no record, with more than one, or with an error it
    adds the error "Error Reading AllInkl DNS" and sets no state. *)
Theorem Read_sets_state (r : provider.dnsResource) (c : Client) (ctx : Context)
        (data : provider.Data) (resp : provider.Response) (w : World) :
  provider.client r = Some c ->
  diag.HasError (diag.Append (provider.Diagnostics resp) (provider.Get_diags data)) = false ->
  provider.State resp = None ->
  (forall record w',
      GetDNSSettings unrepresentable Decode_Get c ctx
        (types.ValueString (provider.ZoneHost (provider.Get_model data)))
        (types.ValueString (provider.ID (provider.Get_model data))) w
      = (Returns (inr [record]), w') ->
      exists resp',
        Read r ctx data resp w = (Returns resp', w') /\
        provider.State resp'
        = Some (provider.refreshed (provider.ID (provider.Get_model data))
                                   types.StringNull record)) /\
  (forall resp' w' state,
      Read r ctx data resp w = (Returns resp', w') ->
      provider.State resp' = Some state ->
      exists record,
        GetDNSSettings unrepresentable Decode_Get c ctx
          (types.ValueString (provider.ZoneHost (provider.Get_model data)))
          (types.ValueString (provider.ID (provider.Get_model data))) w
        = (Returns (inr [record]), w') /\
        state = provider.refreshed (provider.ID (provider.Get_model data))
                                   types.StringNull record) /\
  (forall resp' w',
      Read r ctx data resp w = (Returns resp', w') ->
      provider.State resp' = None ->
      diag.HasError (provider.Diagnostics resp') = true).
Proof.
  intros Hc Hok Hnone. pose proof (Read_run r c ctx data resp w Hc Hok) as Hrun.
  destruct (GetDNSSettings _ _ _ _ _ _ _) as [[[err|[|record [|r2 dns]]]|] w1];
    try destruct Hrun as (detail & Hrun); rewrite Hrun; (split; [|split]);
    try (intros record' w' H; inversion H; subst; eexists; split; reflexivity);
    try (intros resp' w' state H Hst; inversion H; subst; cbn in Hst; congruence);
    try (intros resp' w' H Hst; inversion H; subst;
         cbn [provider.Diagnostics]; apply HasError_AddError);
    try (intros; discriminate).
  - intros resp' w' state H Hst. inversion H; subst. cbn in Hst. inversion Hst.
    now exists record.
  - intros resp' w' H Hst. inversion H; subst. discriminate.
Qed.

(** What [Create] makes of the outcome of the add operation. *)
Lemma Create_run (r : provider.dnsResource) (c : Client) (ctx : Context)
      (data : provider.Data) (resp : provider.Response) (w : World) :
  provider.client r = Some c ->
  diag.HasError (diag.Append (provider.Diagnostics resp) (provider.Get_diags data)) = false ->
  Create r ctx data resp w =
  match AddDNSSettings unrepresentable Decode_Add c ctx
          (provider.planned intSize "" (provider.Get_model data)) w with
  | (Returns (inr id), w') =>
    (Returns (provider.mkResponse
                (diag.Append
                   (diag.Append (provider.Diagnostics resp) (provider.Get_diags data))
                   (State_Set (provider.created id (Format_RFC850 (clock w'))
                                                (provider.Get_model data))))
                (Some (provider.created id (Format_RFC850 (clock w'))
                                        (provider.Get_model data)))), w')
  | (Returns (inl err), w') =>
    (Returns (provider.mkResponse
                (diag.AddError
                   (diag.Append (provider.Diagnostics resp) (provider.Get_diags data))
                   "Error Creating AllInkl DNS"
                   ("Could not create dns, unexpected error: " ++ Error err))
                (provider.State resp)), w')
  | (Panics, w') => (Panics, w')
  end.
Proof.
  intros Hc Hok. unfold provider.Create, provider.call_client.
  rewrite Hok, Hc, bind_run. fold (provider.planned intSize "" (provider.Get_model data)).
  destruct (AddDNSSettings _ _ _ _ _ _) as [[[err|id]|] w']; reflexivity.
Qed.

(** X19.  [Create] sets the state exactly when the add operation has
    returned an id.  The state holds that id, the time of the return as
    [last_updated], and the five planned attributes as the plan has them
    (the request carried the empty string, or zero, for one that is null or
    unknown).  When the operation fails [Create] adds the error "Error
    Creating AllInkl DNS" and sets no state. *)
Theorem Create_sets_state (r : provider.dnsResource) (c : Client) (ctx : Context)
        (data : provider.Data) (resp : provider.Response) (w : World) :
  provider.client r = Some c ->
  diag.HasError (diag.Append (provider.Diagnostics resp) (provider.Get_diags data)) = false ->
  provider.State resp = None ->
  (forall id w',
      AddDNSSettings unrepresentable Decode_Add c ctx
        (provider.planned intSize "" (provider.Get_model data)) w
      = (Returns (inr id), w') ->
      exists resp',
        Create r ctx data resp w = (Returns resp', w') /\
        provider.State resp'
        = Some (provider.created id (Format_RFC850 (clock w')) (provider.Get_model data))) /\
  (forall resp' w' state,
      Create r ctx data resp w = (Returns resp', w') ->
      provider.State resp' = Some state ->
      exists id,
        AddDNSSettings unrepresentable Decode_Add c ctx
          (provider.planned intSize "" (provider.Get_model data)) w
        = (Returns (inr id), w') /\
        state = provider.created id (Format_RFC850 (clock w')) (provider.Get_model data)) /\
  (forall resp' w',
      Create r ctx data resp w = (Returns resp', w') ->
      provider.State resp' = None ->
      diag.HasError (provider.Diagnostics resp') = true).
Proof.
  intros Hc Hok Hnone. rewrite (Create_run r c ctx data resp w Hc Hok).
  destruct (AddDNSSettings _ _ _ _ _ _) as [[[err|id]|] w1]; (split; [|split]);
    try (intros; discriminate).
  - intros resp' w' state H Hst. inversion H; subst. cbn in Hst. congruence.
  - intros resp' w' H _. inversion H; subst.
    cbn [provider.Diagnostics]. apply HasError_AddError.
  - intros id' w' H. inversion H; subst. eexists. split; reflexivity.
  - intros resp' w' state H Hst. inversion H; subst. cbn in Hst. inversion Hst.
    now exists id.
  - intros resp' w' H Hst. inversion H; subst. discriminate.
Qed.

(** What [Update] makes of the outcomes of its two operations. *)
Lemma Update_run (r : provider.dnsResource) (c : Client) (ctx : Context)
      (data : provider.Data) (resp : provider.Response) (w : World) :
  provider.client r = Some c ->
  diag.HasError (diag.Append (provider.Diagnostics resp) (provider.Get_diags data)) = false ->
  match UpdateDNSSettings unrepresentable Decode_Add c ctx
          (provider.planned intSize
             (types.ValueString (provider.ID (provider.Get_model data)))
             (provider.Get_model data)) w with
  | (Returns (inl err), w1) =>
    Update r ctx data resp w =
    (Returns (provider.mkResponse
                (diag.AddError
                   (diag.Append (provider.Diagnostics resp) (provider.Get_diags data))
                   "Error Updating AllInkl DNS"
                   ("Could not update dns, unexpected error: " ++ Error err))
                (provider.State resp)), w1)
  | (Panics, w1) => Update r ctx data resp w = (Panics, w1)
  | (Returns (inr _), w1) =>
    snd (Update r ctx data resp w)
    = snd (GetDNSSettings unrepresentable Decode_Get c ctx
             (types.ValueString (provider.ZoneHost (provider.Get_model data)))
             (types.ValueString (provider.ID (provider.Get_model data))) w1) /\
    match GetDNSSettings unrepresentable Decode_Get c ctx
            (types.ValueString (provider.ZoneHost (provider.Get_model data)))
            (types.ValueString (provider.ID (provider.Get_model data))) w1 with
    | (Returns (inr [record]), w') =>
      Update r ctx data resp w =
      (Returns (provider.mkResponse
                  (diag.Append
                     (diag.Append (provider.Diagnostics resp) (provider.Get_diags data))
                     (State_Set (provider.refreshed
                                   (provider.ID (provider.Get_model data))
                                   (types.StringValue (Format_RFC850 (clock w')))
                                   record)))
                  (Some (provider.refreshed
                           (provider.ID (provider.Get_model data))
                           (types.StringValue (Format_RFC850 (clock w')))
                           record))), w')
    | (Returns _, w') =>
      exists detail,
        Update r ctx data resp w =
        (Returns (provider.mkResponse
                    (diag.AddError
                       (diag.Append (provider.Diagnostics resp) (provider.Get_diags data))
                       "Error Reading AllInkl DNS" detail)
                    (provider.State resp)), w')
    | (Panics, w') => Update r ctx data resp w = (Panics, w')
    end
  end.
Proof.
  intros Hc Hok. unfold provider.Update, provider.call_client.
  rewrite Hok, Hc, bind_run.
  fold (provider.planned intSize
          (types.ValueString (provider.ID (provider.Get_model data)))
          (provider.Get_model data)).
  destruct (UpdateDNSSettings _ _ _ _ _ _) as [[[err|s]|] w1]; [reflexivity| |reflexivity].
  rewrite bind_run.
  destruct (GetDNSSettings _ _ _ _ _ _ _) as [[[err|dns]|] w'];
    [split; [reflexivity|eexists; reflexivity]| |split; reflexivity].
  destruct (record_count dns) as [(-> & H0)|[(record & -> & H0 & H1)|(Hlen & H0 & H1)]].
  - split; [reflexivity|eexists; reflexivity].
  - split; reflexivity.
  - rewrite H0, H1. destruct dns as [|r1 [|r2 dns]]; try (cbn in Hlen; lia).
    split; [reflexivity|eexists; reflexivity].
Qed.

(** X20.  [Update] runs the update operation and then, only when that has
    returned without error, the list operation for the planned zone and
    id, started in the state the update has left.  It sets the state
    exactly when the list operation has returned exactly one record: the
    state takes zone, type, name, data and aux from that record, not from
    the plan, keeps the planned id and holds the time of the return as
    [last_updated].  When the update operation fails the list operation is
    not run. *)
Theorem Update_sets_state (r : provider.dnsResource) (c : Client) (ctx : Context)
        (data : provider.Data) (resp : provider.Response) (w : World) :
  provider.client r = Some c ->
  diag.HasError (diag.Append (provider.Diagnostics resp) (provider.Get_diags data)) = false ->
  provider.State resp = None ->
  (forall s w1 record w',
      UpdateDNSSettings unrepresentable Decode_Add c ctx
        (provider.planned intSize
           (types.ValueString (provider.ID (provider.Get_model data)))
           (provider.Get_model data)) w
      = (Returns (inr s), w1) ->
      GetDNSSettings unrepresentable Decode_Get c ctx
        (types.ValueString (provider.ZoneHost (provider.Get_model data)))
        (types.ValueString (provider.ID (provider.Get_model data))) w1
      = (Returns (inr [record]), w') ->
      exists resp',
        Update r ctx data resp w = (Returns resp', w') /\
        provider.State resp'
        = Some (provider.refreshed (provider.ID (provider.Get_model data))
                                   (types.StringValue (Format_RFC850 (clock w')))
                                   record)) /\
  (forall resp' w' state,
      Update r ctx data resp w = (Returns resp', w') ->
      provider.State resp' = Some state ->
      exists s w1 record,
        UpdateDNSSettings unrepresentable Decode_Add c ctx
          (provider.planned intSize
             (types.ValueString (provider.ID (provider.Get_model data)))
             (provider.Get_model data)) w
        = (Returns (inr s), w1) /\
        GetDNSSettings unrepresentable Decode_Get c ctx
          (types.ValueString (provider.ZoneHost (provider.Get_model data)))
          (types.ValueString (provider.ID (provider.Get_model data))) w1
        = (Returns (inr [record]), w') /\
        state = provider.refreshed (provider.ID (provider.Get_model data))
                                   (types.StringValue (Format_RFC850 (clock w')))
                                   record) /\
  (forall err w1,
      UpdateDNSSettings unrepresentable Decode_Add c ctx
        (provider.planned intSize
           (types.ValueString (provider.ID (provider.Get_model data)))
           (provider.Get_model data)) w
      = (Returns (inl err), w1) ->
      exists resp',
        Update r ctx data resp w = (Returns resp', w1) /\
        provider.State resp' = None /\
        diag.HasError (provider.Diagnostics resp') = true).
Proof.
  intros Hc Hok Hnone. pose proof (Update_run r c ctx data resp w Hc Hok) as Hrun.
  destruct (UpdateDNSSettings _ _ _ _ _ _) as [[[err|s]|] w1].
  - rewrite Hrun. split; [|split].
    + intros; discriminate.
    + intros resp' w' state H Hst. inversion H; subst. cbn in Hst. congruence.
    + intros err' w1' H. inversion H; subst. eexists. split; [reflexivity|].
      split; [exact Hnone|]. cbn [provider.Diagnostics]. apply HasError_AddError.
  - destruct Hrun as (_ & Hrun). split; [|split]; [| |intros; discriminate].
    + intros s' w1' record w' H HG. inversion H; subst. rewrite HG in Hrun.
      rewrite Hrun. eexists. split; reflexivity.
    + intros resp' w' state H Hst.
      destruct (GetDNSSettings _ _ _ _ _ _ _) as [[[err|[|record [|r2 dns]]]|] w2] eqn:HG;
        try destruct Hrun as (detail & Hrun); rewrite Hrun in H; inversion H; subst;
        cbn in Hst; try congruence.
      inversion Hst. exists s, w1, record.
      split; [reflexivity|]. split; [exact HG|reflexivity].
  - rewrite Hrun. split; [|split]; intros; discriminate.
Qed.

(** X21.  The read that [Update] makes is paced by the update it follows.
    When the update operation has succeeded and the delay its response
    declared is usable, the list request of [Update] (for the zone always,
    for the record id when it is not empty) is sent, after its login, at an
    instant that is not before the instant the update operation returned
    plus the declared delay. *)
Theorem Update_read_is_paced (r : provider.dnsResource) (c : Client) (ctx : Context)
        (data : provider.Data) (resp : provider.Response) (w : World)
        (s : string) (delay : float64) (w1 : World) (req : Request) (elapsed : N)
        (item : Item) (rest : list Reply) (credential : string) (w2 : World) :
  provider.client r = Some c ->
  diag.HasError (diag.Append (provider.Diagnostics resp) (provider.Get_diags data)) = false ->
  succeeds_with s
    (Duration_of_float64 unrepresentable (SFmul prec emax delay Second_f64))
    w1 req elapsed item rest
    (UpdateDNSSettings unrepresentable Decode_Add c ctx
       (provider.planned intSize
          (types.ValueString (provider.ID (provider.Get_model data)))
          (provider.Get_model data)) w) ->
  usable_delay delay ->
  Authentication (identifier c) ctx
    (snd (UpdateDNSSettings unrepresentable Decode_Add c ctx
            (provider.planned intSize
               (types.ValueString (provider.ID (provider.Get_model data)))
               (provider.Get_model data)) w))
  = (Returns (inr credential), w2) ->
  exists params,
    list_params (types.ValueString (provider.ZoneHost (provider.Get_model data)))
                (types.ValueString (provider.ID (provider.Get_model data))) params /\
    waits_then_sends w2
      (session_request c credential "get_dns_settings" (ParamsMap params))
      (snd (Update r ctx data resp w)) /\
    clock (snd (UpdateDNSSettings unrepresentable Decode_Add c ctx
                  (provider.planned intSize
                     (types.ValueString (provider.ID (provider.Get_model data)))
                     (provider.Get_model data)) w))
    + Duration_of_float64 unrepresentable (SFmul prec emax delay Second_f64)
    <= ready_at w2.
Proof.
  intros Hc Hok (Hres & _ & Hflood & _) Hdelay Hauth.
  pose proof (Update_run r c ctx data resp w Hc Hok) as Hrun.
  pose proof (Duration_usable unrepresentable delay Hdelay) as HD.
  destruct (Authentication_quiet _ _ _ _ _ Hauth) as (Hft & _).
  pose proof (Authentication_clock _ _ _ _ _ Hauth) as Hclock.
  destruct (UpdateDNSSettings _ _ _ _ _ _) as [res w1']; cbn [fst snd] in *. subst res.
  destruct Hrun as (Hsnd & _). rewrite Hsnd.
  eexists. split; [apply list_params_built|]. split.
  - unfold GetDNSSettings. rewrite login_run, Hauth. apply operation_waits.
  - rewrite <- Hflood, <- Hft. apply ready_at_deadline. lia.
Qed.

End ResourceFacts.

(* ===================================================================== *)
(** * The properties above on sample data                                  *)
(* ===================================================================== *)

Lemma Configure_client_witness :
  exists c : Client,
    provider.ResourceData
      (provider.Configure sample_env
         (provider.mkAllinklProviderModel types.StringNull (types.StringValue "other"))
         [] fresh_configure_response)
    = provider.DataClient (Some c) /\
    login (identifier c) = "w0123456" /\ password (identifier c) = "other".
Proof.
  destruct (Configure_client sample_env
              (provider.mkAllinklProviderModel types.StringNull (types.StringValue "other"))
              [] fresh_configure_response eq_refl)
    as (c & Hr & _ & Hl & Hp & _).
  exists c. split; [exact Hr|]. split; [exact Hl|exact Hp].
Defined.

Lemma Configure_error_keeps_data_witness :
  provider.ResourceData
    (provider.Configure sample_env
       (provider.mkAllinklProviderModel (types.StringValue "") types.StringNull)
       [] fresh_configure_response)
  = provider.DataNil /\
  provider.DataSourceData
    (provider.Configure sample_env
       (provider.mkAllinklProviderModel (types.StringValue "") types.StringNull)
       [] fresh_configure_response)
  = provider.DataNil.
Proof.
  apply (Configure_error_keeps_data sample_env
           (provider.mkAllinklProviderModel (types.StringValue "") types.StringNull)
           [] fresh_configure_response).
  vm_compute. reflexivity.
Defined.

Lemma ImportState_accepts_witness :
  provider.ImportState (fun _ _ => []) "example.com/7/8"
                       (provider.mkImportStateResponse [] [])
  = provider.mkImportStateResponse
      [] [(path.Root "zone_host", "example.com"); (path.Root "id", "7/8")].
Proof.
  apply (ImportState_accepts (fun _ _ => []) "example.com" "7/8" "example.com/7/8"
           (provider.mkImportStateResponse [] [])).
  repeat split; try discriminate; reflexivity.
Defined.

Lemma ImportState_rejects_witness :
  provider.ImportState (fun _ _ => []) "example.com/"
                       (provider.mkImportStateResponse [] [])
  = provider.mkImportStateResponse
      (diag.AddError [] "Invalid Import ID"
         "Expected import ID in the format `zone_host/record_id`, got: example.com/")
      [].
Proof.
  apply (ImportState_rejects (fun _ _ => []) "example.com/"
           (provider.mkImportStateResponse [] [])).
  intros zone recordID H.
  destruct (import_id_parts _ _ _ H) as (_ & _ & _ & Hid).
  destruct H as (_ & Hne & _). apply Hne. rewrite <- Hid. reflexivity.
Defined.

Lemma methods_stop_on_errors_witness :
  sample_Create sample_resource (mkContext None)
                (provider.mkData sample_plan [sample_error]) fresh_response
                (fresh_world [login_reply])
  = (Returns (provider.mkResponse [sample_error] None), fresh_world [login_reply]).
Proof.
  apply (methods_stop_on_errors amd64_unrepresentable sample_Decode_Get sample_Decode_Add
           sample_Decode_Delete 64 sample_Error sample_Format no_diagnostics
           sample_resource (mkContext None)
           (provider.mkData sample_plan [sample_error]) fresh_response
           (fresh_world [login_reply])).
  reflexivity.
Defined.

Lemma unconfigured_resource_panics_witness :
  sample_Delete (provider.mkDnsResource None) (mkContext None)
                (provider.mkData sample_state []) fresh_response
                (fresh_world [login_reply])
  = (Panics, fresh_world [login_reply]).
Proof.
  apply (unconfigured_resource_panics amd64_unrepresentable sample_Decode_Get
           sample_Decode_Add sample_Decode_Delete 64 sample_Error sample_Format
           no_diagnostics (provider.mkDnsResource None) (mkContext None)
           (provider.mkData sample_state []) fresh_response
           (fresh_world [login_reply])); reflexivity.
Defined.

Lemma Delete_refused_panics_witness :
  fst (sample_Delete sample_resource (mkContext None)
                     (provider.mkData sample_state []) fresh_response
                     (fresh_world [login_reply; delete_reply "false"]))
  = Panics.
Proof.
  apply (Delete_refused_panics amd64_unrepresentable sample_Decode_Delete sample_Error
           sample_resource sample_client (mkContext None)
           (provider.mkData sample_state []) fresh_response
           (fresh_world [login_reply; delete_reply "false"])
           (after_login [login_reply; delete_reply "false"])
           "session-token" 7 None (delete_item "false") [] (delete_response false));
    vm_compute; reflexivity.
Defined.

Lemma Read_sets_state_witness :
  exists resp',
    sample_Read sample_resource (mkContext None)
                (provider.mkData sample_state []) fresh_response
                (fresh_world [login_reply; reply_with list_item])
    = (Returns resp',
       snd (GetDNSSettings amd64_unrepresentable sample_Decode_Get sample_client
                           (mkContext None) "example.com" "7"
                           (fresh_world [login_reply; reply_with list_item]))) /\
    provider.State resp'
    = Some (provider.refreshed (types.StringValue "7") types.StringNull
                               sample_record_info).
Proof.
  apply (proj1 (Read_sets_state amd64_unrepresentable sample_Decode_Get sample_Error
                  no_diagnostics sample_resource sample_client (mkContext None)
                  (provider.mkData sample_state []) fresh_response
                  (fresh_world [login_reply; reply_with list_item])
                  eq_refl eq_refl eq_refl)).
  vm_compute. reflexivity.
Defined.

Lemma Create_sets_state_witness :
  exists resp',
    sample_Create sample_resource (mkContext None)
                  (provider.mkData sample_plan []) fresh_response
                  (fresh_world [login_reply; reply_with add_item])
    = (Returns resp',
       snd (AddDNSSettings amd64_unrepresentable sample_Decode_Add sample_client
                           (mkContext None) (provider.planned 64 "" sample_plan)
                           (fresh_world [login_reply; reply_with add_item]))) /\
    provider.State resp'
    = Some (provider.created "7"
              (sample_Format
                 (clock (snd (AddDNSSettings amd64_unrepresentable sample_Decode_Add
                                sample_client (mkContext None)
                                (provider.planned 64 "" sample_plan)
                                (fresh_world [login_reply; reply_with add_item])))))
              sample_plan).
Proof.
  apply (proj1 (Create_sets_state amd64_unrepresentable sample_Decode_Add 64 sample_Error
                  sample_Format no_diagnostics sample_resource sample_client
                  (mkContext None) (provider.mkData sample_plan []) fresh_response
                  (fresh_world [login_reply; reply_with add_item])
                  eq_refl eq_refl eq_refl)).
  vm_compute. reflexivity.
Defined.

Lemma Update_sets_state_witness :
  exists resp',
    sample_Update sample_resource (mkContext None)
                  (provider.mkData sample_state []) fresh_response update_world
    = (Returns resp',
       snd (GetDNSSettings amd64_unrepresentable sample_Decode_Get sample_client
                           (mkContext None) "example.com" "7" (snd first_update))) /\
    provider.State resp'
    = Some (provider.refreshed (types.StringValue "7")
              (types.StringValue
                 (sample_Format
                    (clock (snd (GetDNSSettings amd64_unrepresentable sample_Decode_Get
                                   sample_client (mkContext None) "example.com" "7"
                                   (snd first_update))))))
              sample_record_info).
Proof.
  apply (proj1 (Update_sets_state amd64_unrepresentable sample_Decode_Get sample_Decode_Add
                  64 sample_Error sample_Format no_diagnostics sample_resource
                  sample_client (mkContext None) (provider.mkData sample_state [])
                  fresh_response update_world eq_refl eq_refl eq_refl)
               "7" (snd first_update)).
  - vm_compute. reflexivity.
  - vm_compute. reflexivity.
Defined.

Lemma Update_read_is_paced_witness :
  exists params,
    list_params "example.com" "7" params /\
    waits_then_sends
      (snd (Authentication (identifier sample_client) (mkContext None) (snd first_update)))
      (session_request sample_client "session-token" "get_dns_settings" (ParamsMap params))
      (snd (sample_Update sample_resource (mkContext None)
                          (provider.mkData sample_state []) fresh_response update_world)) /\
    clock (snd first_update)
    + Duration_of_float64 amd64_unrepresentable (SFmul prec emax half_a_second Second_f64)
    <= ready_at (snd (Authentication (identifier sample_client) (mkContext None)
                                     (snd first_update))).
Proof.
  apply (Update_read_is_paced amd64_unrepresentable sample_Decode_Get sample_Decode_Add
           64 sample_Error sample_Format no_diagnostics sample_resource sample_client
           (mkContext None) (provider.mkData sample_state []) fresh_response update_world
           "7" half_a_second
           (snd (Authentication (identifier sample_client) (mkContext None) update_world))
           (session_request sample_client "session-token" "update_dns_settings"
                            (ParamsRecord (provider.planned 64 "7" sample_state)))
           7 add_item [login_reply; reply_with list_item] "session-token").
  - reflexivity.
  - reflexivity.
  - repeat split; vm_compute; reflexivity.
  - exact usable_half_a_second.
  - vm_compute. reflexivity.
Defined.

(* ===================================================================== *)
(** * The texts of the errors                                              *)
(* ===================================================================== *)

Lemma ParseBool_true (s : string) :
  fst (ParseBool s) = true <-> In s clienthelper.verbose_values.
Proof.
  unfold ParseBool, clienthelper.verbose_values.
  destruct (existsb (String.eqb s) ["1"; "t"; "T"; "true"; "TRUE"; "True"]) eqn:E.
  - split; [intros _|reflexivity].
    apply existsb_exists in E as (x & Hin & Heq). apply String.eqb_eq in Heq. subst x.
    cbn in Hin. cbn. tauto.
  - split.
    + destruct (existsb (String.eqb s) ["0"; "f"; "F"; "false"; "FALSE"; "False"]);
        discriminate.
    + intros Hin. exfalso.
      assert (existsb (String.eqb s) ["1"; "t"; "T"; "true"; "TRUE"; "True"] = true);
        [|congruence].
      apply existsb_exists. exists s. split; [cbn in *; tauto|apply String.eqb_refl].
Qed.

Section ErrorTexts.

Variable Getenv : string -> string.

(** X22.  The text of an error shows of its request the method and the
    URL at most, never the payload (which holds the password, or the
    session token), and shows even these only when the variable
    LEGO_DEBUG_CLIENT_VERBOSE_ERROR is one of 1, t, T, TRUE, true, True:
    two errors that differ in their requests only have the same text when
    the requests have the same method and URL, or when the variable has
    another value or none. *)
Theorem errors_hide_request (req req' : Request) (code : Z) (body : string)
        (err : option string) :
  clienthelper.same_line req req' \/
  ~ In (Getenv clienthelper.legoDebugClientVerboseError) clienthelper.verbose_values ->
  clienthelper.HTTPDoError_Error Getenv (clienthelper.mkHTTPDoError req err)
  = clienthelper.HTTPDoError_Error Getenv (clienthelper.mkHTTPDoError req' err) /\
  clienthelper.ReadResponseError_Error Getenv (clienthelper.mkReadResponseError req code err)
  = clienthelper.ReadResponseError_Error Getenv
      (clienthelper.mkReadResponseError req' code err) /\
  clienthelper.UnmarshalError_Error Getenv
    (clienthelper.mkUnmarshalError req code body err)
  = clienthelper.UnmarshalError_Error Getenv
      (clienthelper.mkUnmarshalError req' code body err) /\
  clienthelper.UnexpectedStatusCodeError_Error Getenv
    (clienthelper.mkUnexpectedStatusCodeError req code body)
  = clienthelper.UnexpectedStatusCodeError_Error Getenv
      (clienthelper.mkUnexpectedStatusCodeError req' code body).
Proof.
  unfold clienthelper.HTTPDoError_Error, clienthelper.ReadResponseError_Error,
    clienthelper.UnmarshalError_Error, clienthelper.UnexpectedStatusCodeError_Error.
  cbn [clienthelper.do_req clienthelper.do_err clienthelper.read_req
       clienthelper.read_StatusCode clienthelper.read_err clienthelper.unmarshal_req
       clienthelper.unmarshal_StatusCode clienthelper.unmarshal_Body
       clienthelper.unmarshal_err clienthelper.status_req clienthelper.status_StatusCode
       clienthelper.status_Body].
  intros [(Hm & Hu)|Hquiet].
  - rewrite Hm, Hu. repeat split; reflexivity.
  - destruct (fst (ParseBool (Getenv clienthelper.legoDebugClientVerboseError))) eqn:E.
    + apply ParseBool_true in E. contradiction.
    + repeat split; reflexivity.
Qed.

End ErrorTexts.

Lemma errors_hide_request_witness :
  clienthelper.UnexpectedStatusCodeError_Error yes_env
    (clienthelper.mkUnexpectedStatusCodeError
       (loginRequest (identifier sample_client)) 503 "busy")
  = clienthelper.UnexpectedStatusCodeError_Error yes_env
      (clienthelper.mkUnexpectedStatusCodeError
         (newRequest other_client (mkContext None) "get_dns_settings"
                     (ParamsMap {[ "zone_host" := "example.com" ]})) 503 "busy").
Proof.
  apply (errors_hide_request yes_env
           (loginRequest (identifier sample_client))
           (newRequest other_client (mkContext None) "get_dns_settings"
                       (ParamsMap {[ "zone_host" := "example.com" ]}))
           503 "busy" None).
  right. cbn. intros [H|[H|[H|[H|[H|[H|[]]]]]]]; discriminate H.
Defined.
